(** * FastDeal backend: the payment reconciliation slice

    A shallow embedding of [models/Payment.js], [models/Order.js] and
    [routes/payments.js]: the two document schemas with their defaults,
    constraints, indexes, hooks and instance methods; the two mobile-money
    gateway classes; and the six payment routes that create or update
    Payments ([GET /my-payments] only lists them).

    Conventions.
    - A JS [Date] is the number of milliseconds since the epoch, in [Z].
    - A JS string is a [string]; [undefined] is [None].
    - A JSON object received from, or sent to, the outside (a request body, a
      gateway response) is a flat object of string-valued fields, [JObject].
    - [amount] is an integer number of currency units; fractional amounts
      and amounts beyond what a JS number holds exactly are outside the
      model.
    - A reference held by a document (an order, a user) is a valid ObjectId.
    - [await]ed calls run to completion one after the other: a handler is a
      function from the world before the request to the world after it.
    - An environment stands for the outside during one request: no handler
      asks a provider the same question twice, so within a request a
      provider's answer is a function of the question.  Two requests may be
      served under two environments. *)

From Stdlib Require Import ZArith List String Bool Lia.
From Stdlib Require Import Decimal DecimalString.
Import ListNotations.
Local Open Scope string_scope.
Local Open Scope Z_scope.
Local Open Scope list_scope.

Set Implicit Arguments.

(** ** Values *)

Definition ObjectId := string.
Definition Date := Z.

Definition JObject := list (string * string).

(** [o.k]: the first binding of [k] wins. *)
Fixpoint jget (k : string) (o : JObject) : option string :=
  match o with
  | [] => None
  | (k', v) :: rest => if String.eqb k k' then Some v else jget k rest
  end.

(** [{ ...base, ...over }]: the fields of [over] shadow those of [base]. *)
Definition jspread (base over : JObject) : JObject := over ++ base.

(** JS truthiness of a possibly undefined string. *)
Definition truthy (s : option string) : bool :=
  match s with
  | Some v => negb (String.eqb v "")
  | None => false
  end.

(** [a === b] on possibly undefined strings. *)
Definition strict_eq (a b : option string) : bool :=
  match a, b with
  | Some x, Some y => String.eqb x y
  | None, None => true
  | _, _ => false
  end.

(** Template literal rendering of an integer. *)
Definition show (z : Z) : string := NilZero.string_of_int (Z.to_int z).

Definition isIn (s : string) (l : list string) : bool :=
  existsb (String.eqb s) l.

(** ** Results of calls that may throw *)

Inductive result (A : Type) : Type :=
| Ok (a : A)
| Throw (message : string).
Arguments Ok {A} a.
Arguments Throw {A} message.

(** ** Schema validation

    [save()] validates the document before any [pre('save')] hook of the
    schema runs, and it validates every path the document holds, modified
    or not.  A failing path contributes its name and the message of its
    first failing validator; the error thrown reads
    [<Model> validation failed: <path>: <message>, <path>: <message>].
    Where several paths fail the model lists them in schema order; the
    statements below quote a message only where one path fails, or where
    the failing paths are [required] paths of a document a route has just
    built, which are visited in schema order. *)

Definition ValidationError : Type := string * string.

(** The default messages of the [required], [enum] and [min] validators. *)
Definition requiredMessage (path : string) : string :=
  ("Path `" ++ path ++ "` is required.")%string.

Definition enumMessage (path value : string) : string :=
  ("`" ++ value ++ "` is not a valid enum value for path `" ++ path
   ++ "`.")%string.

Definition minMessage (path : string) (least value : Z) : string :=
  ("Path `" ++ path ++ "` (" ++ show value
   ++ ") is less than minimum allowed value (" ++ show least
   ++ ").")%string.

(** [required] on a string path: [undefined] and the empty string fail. *)
Definition requiredString (path message : string) (v : option string)
  : list ValidationError :=
  if truthy v then [] else [(path, message)].

(** [enum] on a string path; it passes a value that is not there. *)
Definition inEnum (path : string) (values : list string)
    (v : option string) : list ValidationError :=
  match v with
  | Some s => if isIn s values then [] else [(path, enumMessage path s)]
  | None => []
  end.

(** [required] and [enum] on the same path: [required] runs first. *)
Definition requiredEnum (path message : string) (values : list string)
    (v : option string) : list ValidationError :=
  if truthy v then inEnum path values v else [(path, message)].

(** [min] on a number path; it passes a value that is not there. *)
Definition atLeast (path : string) (least : Z) (message : Z -> string)
    (v : option Z) : list ValidationError :=
  match v with
  | Some n => if n <? least then [(path, message n)] else []
  | None => []
  end.

(** [required] and [min] on the same path. *)
Definition requiredAtLeast (path : string) (least : Z) (v : option Z)
  : list ValidationError :=
  match v with
  | Some _ => atLeast path least (minMessage path least) v
  | None => [(path, requiredMessage path)]
  end.

Definition validationMessage (model : string)
    (errs : list ValidationError) : string :=
  (model ++ " validation failed: "
   ++ String.concat ", " (map (fun e => fst e ++ ": " ++ snd e) errs))%string.

Definition validated (model : string) (errs : list ValidationError)
  : result unit :=
  match errs with
  | [] => Ok tt
  | _ :: _ => Throw (validationMessage model errs)
  end.

(** ** The Order document ([models/Order.js]) *)

Module Order.

Record TimelineEntry := {
  tl_status : string;
  tl_timestamp : Date;
  tl_note : string
}.

Record Address := {
  street : option string;
  city : option string;
  postalCode : option string;
  region : option string
}.

Record Shipping := {
  shipping_method : option string;
  shipping_cost : option Z
}.

(** The paths the payment routes read or write, the timeline written by
    the pre-save hook, and every other path that carries a validator.
    [seller] and [product] (references) and the paths without a validator
    ([billingAddress], [notes], [metadata], the tracking fields of
    [shipping], [updatedBy]) are left out. *)
Record t := {
  _id : ObjectId;
  orderNumber : option string;
  buyer : ObjectId;
  quantity : option Z;
  price : option Z;
  totalAmount : option Z;
  status : string;
  paymentStatus : string;
  paymentMethod : option string;
  shippingAddress : Address;
  shipping : Shipping;
  timeline : list TimelineEntry
}.

Definition status_enum : list string :=
  ["pending"; "confirmed"; "processing"; "shipped"; "delivered";
   "cancelled"; "refunded"; "disputed"].

Definition paymentStatus_enum : list string :=
  ["pending"; "completed"; "failed"; "refunded"].

Definition paymentMethod_enum : list string :=
  ["card"; "paypal"; "transfer"; "cash"; "other"].

Definition shipping_method_enum : list string :=
  ["standard"; "express"; "pickup"; "other"].

Definition set_status (s : string) (o : t) : t :=
  {| _id := _id o; orderNumber := orderNumber o; buyer := buyer o;
     quantity := quantity o; price := price o;
     totalAmount := totalAmount o; status := s;
     paymentStatus := paymentStatus o; paymentMethod := paymentMethod o;
     shippingAddress := shippingAddress o; shipping := shipping o;
     timeline := timeline o |}.

Definition set_paymentStatus (s : string) (o : t) : t :=
  {| _id := _id o; orderNumber := orderNumber o; buyer := buyer o;
     quantity := quantity o; price := price o;
     totalAmount := totalAmount o; status := status o;
     paymentStatus := s; paymentMethod := paymentMethod o;
     shippingAddress := shippingAddress o; shipping := shipping o;
     timeline := timeline o |}.

Definition push_timeline (e : TimelineEntry) (o : t) : t :=
  {| _id := _id o; orderNumber := orderNumber o; buyer := buyer o;
     quantity := quantity o; price := price o;
     totalAmount := totalAmount o; status := status o;
     paymentStatus := paymentStatus o; paymentMethod := paymentMethod o;
     shippingAddress := shippingAddress o; shipping := shipping o;
     timeline := timeline o ++ [e] |}.

End Order.

(** ** The Payment document ([models/Payment.js]) *)

Module Payment.

Record Gateway := {
  transactionId : option string;
  gatewayResponse : option JObject;
  gatewayFees : option Z
}.

Record MobileMoneyDetails := {
  phoneNumber : option string;
  operator : option string;
  reference : option string
}.

Record StripeDetails := {
  paymentIntentId : option string;
  chargeId : option string;
  receiptUrl : option string
}.

Record Fees := { platformFee : Z; gatewayFee : Z; totalFees : Z }.

Record Settlement := {
  settlement_status : string;
  settlement_amount : option Z;
  settledAt : option Date;
  settlement_reference : option string
}.

Record Attempt := {
  timestamp : Date;
  attempt_status : option string;
  errorMessage : option string;
  attempt_gatewayResponse : option JObject
}.

(** [paypalDetails], [metadata] and [refund] have no default and are never
    assigned by the routes; they are left out.  [createdAt] is the field
    added by [timestamps: true]; its companion [updatedAt], which nothing
    reads, is left out too. *)
Record t := {
  _id : ObjectId;
  paymentId : option string;
  order : ObjectId;
  user : ObjectId;
  amount : Z;
  currency : string;
  method : string;
  status : string;
  gateway : Gateway;
  mobileMoneyDetails : MobileMoneyDetails;
  stripeDetails : StripeDetails;
  fees : Fees;
  settlement : Settlement;
  attempts : list Attempt;
  completedAt : option Date;
  failedAt : option Date;
  expiresAt : Date;
  createdAt : option Date
}.

Definition currency_enum : list string := ["XOF"; "USD"; "EUR"].
Definition method_enum : list string :=
  ["orange_money"; "mtn_money"; "paypal"; "stripe"; "bank_transfer"].
Definition status_enum : list string :=
  ["pending"; "processing"; "completed"; "failed"; "cancelled"; "refunded"].

Definition no_gateway : Gateway :=
  {| transactionId := None; gatewayResponse := None; gatewayFees := None |}.
Definition no_mobileMoney : MobileMoneyDetails :=
  {| phoneNumber := None; operator := None; reference := None |}.
Definition no_stripe : StripeDetails :=
  {| paymentIntentId := None; chargeId := None; receiptUrl := None |}.
Definition default_fees : Fees :=
  {| platformFee := 0; gatewayFee := 0; totalFees := 0 |}.
Definition default_settlement : Settlement :=
  {| settlement_status := "pending"; settlement_amount := None;
     settledAt := None; settlement_reference := None |}.

Definition set_paymentId (v : option string) (p : t) : t :=
  {| _id := _id p; paymentId := v; order := order p; user := user p;
     amount := amount p; currency := currency p; method := method p;
     status := status p; gateway := gateway p;
     mobileMoneyDetails := mobileMoneyDetails p;
     stripeDetails := stripeDetails p; fees := fees p;
     settlement := settlement p; attempts := attempts p;
     completedAt := completedAt p; failedAt := failedAt p;
     expiresAt := expiresAt p; createdAt := createdAt p |}.

Definition set_status (v : string) (p : t) : t :=
  {| _id := _id p; paymentId := paymentId p; order := order p; user := user p;
     amount := amount p; currency := currency p; method := method p;
     status := v; gateway := gateway p;
     mobileMoneyDetails := mobileMoneyDetails p;
     stripeDetails := stripeDetails p; fees := fees p;
     settlement := settlement p; attempts := attempts p;
     completedAt := completedAt p; failedAt := failedAt p;
     expiresAt := expiresAt p; createdAt := createdAt p |}.

Definition set_gateway (v : Gateway) (p : t) : t :=
  {| _id := _id p; paymentId := paymentId p; order := order p; user := user p;
     amount := amount p; currency := currency p; method := method p;
     status := status p; gateway := v;
     mobileMoneyDetails := mobileMoneyDetails p;
     stripeDetails := stripeDetails p; fees := fees p;
     settlement := settlement p; attempts := attempts p;
     completedAt := completedAt p; failedAt := failedAt p;
     expiresAt := expiresAt p; createdAt := createdAt p |}.

Definition set_attempts (v : list Attempt) (p : t) : t :=
  {| _id := _id p; paymentId := paymentId p; order := order p; user := user p;
     amount := amount p; currency := currency p; method := method p;
     status := status p; gateway := gateway p;
     mobileMoneyDetails := mobileMoneyDetails p;
     stripeDetails := stripeDetails p; fees := fees p;
     settlement := settlement p; attempts := v;
     completedAt := completedAt p; failedAt := failedAt p;
     expiresAt := expiresAt p; createdAt := createdAt p |}.

Definition set_completedAt (v : option Date) (p : t) : t :=
  {| _id := _id p; paymentId := paymentId p; order := order p; user := user p;
     amount := amount p; currency := currency p; method := method p;
     status := status p; gateway := gateway p;
     mobileMoneyDetails := mobileMoneyDetails p;
     stripeDetails := stripeDetails p; fees := fees p;
     settlement := settlement p; attempts := attempts p;
     completedAt := v; failedAt := failedAt p;
     expiresAt := expiresAt p; createdAt := createdAt p |}.

Definition set_failedAt (v : option Date) (p : t) : t :=
  {| _id := _id p; paymentId := paymentId p; order := order p; user := user p;
     amount := amount p; currency := currency p; method := method p;
     status := status p; gateway := gateway p;
     mobileMoneyDetails := mobileMoneyDetails p;
     stripeDetails := stripeDetails p; fees := fees p;
     settlement := settlement p; attempts := attempts p;
     completedAt := completedAt p; failedAt := v;
     expiresAt := expiresAt p; createdAt := createdAt p |}.

Definition set_createdAt (v : option Date) (p : t) : t :=
  {| _id := _id p; paymentId := paymentId p; order := order p; user := user p;
     amount := amount p; currency := currency p; method := method p;
     status := status p; gateway := gateway p;
     mobileMoneyDetails := mobileMoneyDetails p;
     stripeDetails := stripeDetails p; fees := fees p;
     settlement := settlement p; attempts := attempts p;
     completedAt := completedAt p; failedAt := failedAt p;
     expiresAt := expiresAt p; createdAt := v |}.

(** [payment.gateway.transactionId = v] *)
Definition set_transactionId (v : option string) (p : t) : t :=
  set_gateway {| transactionId := v;
                 gatewayResponse := gatewayResponse (gateway p);
                 gatewayFees := gatewayFees (gateway p) |} p.

(** [payment.gateway.gatewayResponse = v] *)
Definition set_gatewayResponse (v : option JObject) (p : t) : t :=
  set_gateway {| transactionId := transactionId (gateway p);
                 gatewayResponse := v;
                 gatewayFees := gatewayFees (gateway p) |} p.

End Payment.

(** ** The world a handler runs in *)

(** Every [save()] a handler issues, with the document as handed over. *)
Inductive SaveCall :=
| SavePayment (p : Payment.t)
| SaveOrder (o : Order.t).

(** The two collections in natural (insertion) order, the journal of [save]
    calls, and how many clock readings and random draws have been consumed. *)
Record World := {
  payments : list Payment.t;
  orders : list Order.t;
  saves : list SaveCall;
  ticks : nat;
  draws : nat
}.

Inductive Endpoint :=
| OrangeToken | OrangePay | OrangeStatus (transactionId : string)
| MtnToken | MtnRequestToPay | MtnStatus (transactionId : string).

Record HttpReq := {
  endpoint : Endpoint;
  bearer : option (option string);
  referenceId : option string;
  payload : JObject
}.

Record StripeEvent := { ev_type : string; ev_object : JObject }.

(** What lies outside the process: the clock, the random source, the
    ObjectId generator, the HTTP client and the Stripe SDK. *)
Record Env := {
  clock : nat -> Date;
  random36 : nat -> string;
  objectId : nat -> ObjectId;
  axios : HttpReq -> result JObject;
  paymentIntents_create : Z -> string -> ObjectId -> ObjectId -> result JObject;
  paymentIntents_retrieve : string -> result JObject;
  constructEvent : string -> option string -> result StripeEvent
}.

(** ** The handler monad: environment, world, exceptions

    A thrown error keeps the writes made before it. *)

Definition M (A : Type) : Type := Env -> World -> result A * World.

Definition ret {A} (a : A) : M A := fun _ w => (Ok a, w).

Definition throw {A} (message : string) : M A := fun _ w => (Throw message, w).

Definition bind {A B} (c : M A) (k : A -> M B) : M B :=
  fun env w =>
    match c env w with
    | (Ok a, w') => k a env w'
    | (Throw e, w') => (Throw e, w')
    end.

Definition tryCatch {A} (body : M A) (handler : string -> M A) : M A :=
  fun env w =>
    match body env w with
    | (Ok a, w') => (Ok a, w')
    | (Throw e, w') => handler e env w'
    end.

Definition lift {A} (f : Env -> result A) : M A := fun env w => (f env, w).

Notation "x <- c ;; k" := (bind c (fun x => k))
  (at level 61, c at next level, right associativity).
Notation "c ;;; k" := (bind c (fun _ => k))
  (at level 61, right associativity).

Definition set_payments (l : list Payment.t) (w : World) : World :=
  {| payments := l; orders := orders w; saves := saves w;
     ticks := ticks w; draws := draws w |}.

Definition set_orders (l : list Order.t) (w : World) : World :=
  {| payments := payments w; orders := l; saves := saves w;
     ticks := ticks w; draws := draws w |}.

Definition journal (c : SaveCall) : M unit :=
  fun _ w =>
    (Ok tt, {| payments := payments w; orders := orders w;
               saves := saves w ++ [c]; ticks := ticks w; draws := draws w |}).

(** [Date.now()] / [new Date()] *)
Definition Date_now : M Date :=
  fun env w =>
    (Ok (clock env (ticks w)),
     {| payments := payments w; orders := orders w; saves := saves w;
        ticks := S (ticks w); draws := draws w |}).

(** [Math.random().toString(36).substr(2, 9)] *)
Definition Math_random36 : M string :=
  fun env w =>
    (Ok (random36 env (draws w)),
     {| payments := payments w; orders := orders w; saves := saves w;
        ticks := ticks w; draws := S (draws w) |}).

(** The [_id] given to a document by [new Model(...)]. *)
Definition new_ObjectId : M ObjectId :=
  fun env w =>
    (Ok (objectId env (draws w)),
     {| payments := payments w; orders := orders w; saves := saves w;
        ticks := ticks w; draws := S (draws w) |}).

(** ** [mongoose.model('Order', orderSchema)] *)

Module OrderModel.
Import Order.

Definition findById (id : ObjectId) : M (option Order.t) :=
  fun _ w => (Ok (find (fun o => String.eqb (_id o) id) (orders w)), w).

(** The stored document with this [_id] is replaced. *)
Fixpoint replaceById (doc : Order.t) (l : list Order.t) : list Order.t :=
  match l with
  | [] => []
  | x :: rest =>
      if String.eqb (_id x) (_id doc) then doc :: rest
      else x :: replaceById doc rest
  end.

(** [isModified(path)]: the value differs from the one loaded. *)
Definition isModified (loaded now : string) : bool :=
  negb (String.eqb loaded now).

(** [required] on the [status] of every timeline entry; the error is
    keyed by the entry's position. *)
Fixpoint timelineErrors (i : nat) (l : list TimelineEntry)
  : list ValidationError :=
  match l with
  | [] => []
  | e :: rest =>
      requiredString
        ("timeline." ++ show (Z.of_nat i) ++ ".status")%string
        (requiredMessage "status") (Some (tl_status e))
      ++ timelineErrors (S i) rest
  end.

(** The validators of [orderSchema], in schema order. *)
Definition schemaErrors (doc : Order.t) : list ValidationError :=
  requiredString "orderNumber" (requiredMessage "orderNumber")
    (orderNumber doc)
  ++ requiredAtLeast "quantity" 1 (quantity doc)
  ++ requiredAtLeast "price" 0 (price doc)
  ++ requiredAtLeast "totalAmount" 0 (totalAmount doc)
  ++ inEnum "status" status_enum (Some (status doc))
  ++ inEnum "paymentStatus" paymentStatus_enum (Some (paymentStatus doc))
  ++ requiredEnum "paymentMethod" (requiredMessage "paymentMethod")
       paymentMethod_enum (paymentMethod doc)
  ++ requiredString "shippingAddress.street"
       (requiredMessage "shippingAddress.street")
       (street (shippingAddress doc))
  ++ requiredString "shippingAddress.city"
       (requiredMessage "shippingAddress.city") (city (shippingAddress doc))
  ++ requiredString "shippingAddress.postalCode"
       (requiredMessage "shippingAddress.postalCode")
       (postalCode (shippingAddress doc))
  ++ requiredString "shippingAddress.region"
       (requiredMessage "shippingAddress.region")
       (region (shippingAddress doc))
  ++ inEnum "shipping.method" shipping_method_enum
       (shipping_method (shipping doc))
  ++ atLeast "shipping.cost" 0 (minMessage "shipping.cost" 0)
       (shipping_cost (shipping doc))
  ++ timelineErrors 0 (timeline doc).

(** Schema validation at [save()]: every path of the document. *)
Definition validate (doc : Order.t) : result unit :=
  validated "Order" (schemaErrors doc).

(** [orderSchema.pre('save')] on a document that is not new: a timeline
    entry when [status] was modified. *)
Definition preSave (stored doc : Order.t) : M Order.t :=
  if isModified (status stored) (status doc) then
    now <- Date_now ;;
    ret (push_timeline
           {| tl_status := status doc; tl_timestamp := now;
              tl_note := ("Status changed to " ++ status doc)%string |} doc)
  else ret doc.

(** [order.save()] on a loaded document: validation, then the pre-save
    hook, then the update. *)
Definition save (doc : Order.t) : M Order.t :=
  journal (SaveOrder doc) ;;;
  lift (fun _ => validate doc) ;;;
  stored <- findById (_id doc) ;;
  match stored with
  | None => throw "DocumentNotFoundError"
  | Some old =>
      doc' <- preSave old doc ;;
      (fun _ w => (Ok doc', set_orders (replaceById doc' (orders w)) w))
  end.

End OrderModel.

(** ** [mongoose.model('Payment', paymentSchema)] *)

Module PaymentModel.
Import Payment.

(** [Payment.findOne({ paymentId })]; an undefined value is sent as null
    and matches a document without the field. *)
Definition findOne_paymentId (ref : option string) : M (option Payment.t) :=
  fun _ w =>
    (Ok (find (fun p => strict_eq (paymentId p) ref) (payments w)), w).

(** [Payment.findOne({ 'stripeDetails.paymentIntentId': id })] *)
Definition findOne_paymentIntentId (id : option string)
  : M (option Payment.t) :=
  fun _ w =>
    (Ok (find (fun p => strict_eq (paymentIntentId (stripeDetails p)) id)
           (payments w)), w).

Definition findById (id : ObjectId) (l : list Payment.t)
  : option Payment.t :=
  find (fun p => String.eqb (_id p) id) l.

Fixpoint replaceById (doc : Payment.t) (l : list Payment.t)
  : list Payment.t :=
  match l with
  | [] => []
  | x :: rest =>
      if String.eqb (_id x) (_id doc) then doc :: rest
      else x :: replaceById doc rest
  end.

Definition operator_enum : list string := ["orange"; "mtn"; "moov"].
Definition settlement_status_enum : list string :=
  ["pending"; "processing"; "completed"; "failed"].

(** The validators of [paymentSchema], in schema order.  [order], [user]
    and [amount] are always there in a document of the model, so their
    [required] cannot fail. *)
Definition schemaErrors (doc : Payment.t) : list ValidationError :=
  requiredString "paymentId" "Payment ID is required" (paymentId doc)
  ++ atLeast "amount" 0 (fun _ => "Amount cannot be negative")
       (Some (amount doc))
  ++ requiredEnum "currency" "Currency is required" currency_enum
       (Some (currency doc))
  ++ requiredEnum "method" "Payment method is required" method_enum
       (Some (method doc))
  ++ inEnum "status" status_enum (Some (status doc))
  ++ inEnum "mobileMoneyDetails.operator" operator_enum
       (operator (mobileMoneyDetails doc))
  ++ inEnum "settlement.status" settlement_status_enum
       (Some (settlement_status (settlement doc))).

(** Schema validation at [save()]: every path of the document, new or
    loaded. *)
Definition validate (doc : Payment.t) : result unit :=
  validated "Payment" (schemaErrors doc).

(** [paymentSchema.pre('save')]: generate the payment ID. *)
Definition preSave (isNew : bool) (this : Payment.t) : M Payment.t :=
  if isNew && negb (truthy (paymentId this)) then
    now <- Date_now ;;
    r <- Math_random36 ;;
    ret (set_paymentId
           (Some ("PAY_" ++ show now ++ "_" ++ r)%string) this)
  else ret this.

(** The unique index on [paymentId] and the primary key on [_id]. *)
Definition duplicateKey (doc : Payment.t) (l : list Payment.t) : bool :=
  existsb (fun q => String.eqb (_id q) (_id doc)
                    || strict_eq (paymentId q) (paymentId doc)) l.

(** [payment.save()] on a document made by [new Payment(...)]:
    validation, the [timestamps] hook, the pre-save hook, the insert.
    Validation comes first: a document without [paymentId] is rejected
    before the hook that would generate one is reached. *)
Definition save_new (doc : Payment.t) : M Payment.t :=
  journal (SavePayment doc) ;;;
  lift (fun _ => validate doc) ;;;
  created <- Date_now ;;
  doc' <- preSave true (set_createdAt (Some created) doc) ;;
  (fun _ w =>
     if duplicateKey doc' (payments w)
     then (Throw "E11000 duplicate key error", w)
     else (Ok doc', set_payments (payments w ++ [doc']) w)).

(** [payment.save()] on a loaded document: validation, then the
    update. *)
Definition save (doc : Payment.t) : M Payment.t :=
  journal (SavePayment doc) ;;;
  lift (fun _ => validate doc) ;;;
  (fun _ w =>
     match findById (_id doc) (payments w) with
     | None => (Throw "DocumentNotFoundError", w)
     | Some old =>
         if negb (strict_eq (paymentId old) (paymentId doc))
            && existsb (fun q => negb (String.eqb (_id q) (_id doc))
                                 && strict_eq (paymentId q)
                                      (paymentId doc)) (payments w)
         then (Throw "E11000 duplicate key error", w)
         else (Ok doc, set_payments (replaceById doc (payments w)) w)
     end).

(** [new Payment({ order, user, amount, currency, method, ... })]: the
    schema defaults are applied when the document is constructed. *)
Definition new (order user : ObjectId) (amount : Z)
    (currency method : string)
    (mobileMoneyDetails : MobileMoneyDetails)
    (stripeDetails : StripeDetails) : M Payment.t :=
  id <- new_ObjectId ;;
  now <- Date_now ;;
  ret {| _id := id; paymentId := None; order := order; user := user;
         amount := amount; currency := currency; method := method;
         status := "pending"; gateway := no_gateway;
         mobileMoneyDetails := mobileMoneyDetails;
         stripeDetails := stripeDetails;
         fees := default_fees; settlement := default_settlement;
         attempts := []; completedAt := None; failedAt := None;
         expiresAt := now + 30 * 60 * 1000; createdAt := None |}.

(** [paymentSchema.methods.markCompleted] *)
Definition markCompleted (gatewayResponse : JObject) (this : Payment.t)
  : M Payment.t :=
  let this := set_status "completed" this in
  now <- Date_now ;;
  let this := set_completedAt (Some now) this in
  let this := set_gatewayResponse (Some gatewayResponse) this in
  save this.

(** [this.attempts.push({ status, errorMessage, gatewayResponse })]; the
    entry's [timestamp] defaults to [Date.now]. *)
Definition push_attempt (st : option string) (message : option string)
    (gatewayResponse : option JObject) (this : Payment.t) : M Payment.t :=
  now <- Date_now ;;
  ret (set_attempts
         (attempts this ++
            [{| timestamp := now; attempt_status := st;
                errorMessage := message;
                attempt_gatewayResponse := gatewayResponse |}]) this).

(** [paymentSchema.methods.markFailed] *)
Definition markFailed (message : string) (gatewayResponse : JObject)
    (this : Payment.t) : M Payment.t :=
  let this := set_status "failed" this in
  now <- Date_now ;;
  let this := set_failedAt (Some now) this in
  this <- push_attempt (Some "failed") (Some message)
            (Some gatewayResponse) this ;;
  save this.

(** [paymentSchema.methods.addAttempt] *)
Definition addAttempt (st : string) (message : string)
    (gatewayResponse : JObject) (this : Payment.t) : M Payment.t :=
  this <- push_attempt (Some st) (Some message) (Some gatewayResponse)
            this ;;
  save this.

(** [paymentSchema.index({ expiresAt: 1 }, { expireAfterSeconds: 0 })]: a
    document is due for removal once [expiresAt] plus the delay has
    passed. *)
Definition expireAfterSeconds : Z := 0.

Definition ttl_expired (now : Date) (p : Payment.t) : bool :=
  expiresAt p + expireAfterSeconds * 1000 <=? now.

(** One pass of the database's TTL monitor at clock reading [now]. *)
Definition ttl_sweep (now : Date) (w : World) : World :=
  set_payments (filter (fun p => negb (ttl_expired now p)) (payments w)) w.

End PaymentModel.

(** ** The gateway classes ([routes/payments.js]) *)

Definition http (r : HttpReq) : M JObject := lift (fun env => axios env r).

Definition field (k : string) (v : option string) : JObject :=
  match v with
  | Some s => [(k, s)]
  | None => []
  end.

Module OrangeMoneyAPI.

Definition getAccessToken : M (option string) :=
  tryCatch
    (data <- http {| endpoint := OrangeToken; bearer := None;
                     referenceId := None;
                     payload := [("grant_type", "client_credentials")] |} ;;
     ret (jget "access_token" data))
    (fun _ => throw "Failed to get Orange Money access token").

Definition initiatePayment (amount : Z) (currency phoneNumber : string)
    (reference : option string) : M JObject :=
  tryCatch
    (token <- getAccessToken ;;
     http {| endpoint := OrangePay; bearer := Some token;
             referenceId := None;
             payload := [("amount", show amount); ("currency", currency);
                         ("msisdn", phoneNumber)]
                        ++ field "reference" reference |})
    (fun _ => throw "Failed to initiate Orange Money payment").

Definition checkPaymentStatus (transactionId : string) : M JObject :=
  tryCatch
    (token <- getAccessToken ;;
     http {| endpoint := OrangeStatus transactionId; bearer := Some token;
             referenceId := None; payload := [] |})
    (fun _ => throw "Failed to check Orange Money payment status").

End OrangeMoneyAPI.

Module MTNMoneyAPI.

Definition getAccessToken : M (option string) :=
  tryCatch
    (data <- http {| endpoint := MtnToken; bearer := None;
                     referenceId := None; payload := [] |} ;;
     ret (jget "access_token" data))
    (fun _ => throw "Failed to get MTN Money access token").

Definition requestPayment (amount : Z) (currency phoneNumber : string)
    (reference : option string) : M JObject :=
  tryCatch
    (token <- getAccessToken ;;
     now <- Date_now ;;
     r <- Math_random36 ;;
     let transactionId := ("mtn_" ++ show now ++ "_" ++ r)%string in
     data <- http {| endpoint := MtnRequestToPay; bearer := Some token;
                     referenceId := Some transactionId;
                     payload := [("amount", show amount);
                                 ("currency", currency);
                                 ("partyId", phoneNumber)]
                                ++ field "externalId" reference |} ;;
     ret (jspread [("transactionId", transactionId)] data))
    (fun _ => throw "Failed to initiate MTN Money payment").

Definition checkPaymentStatus (transactionId : string) : M JObject :=
  tryCatch
    (token <- getAccessToken ;;
     http {| endpoint := MtnStatus transactionId; bearer := Some token;
             referenceId := None; payload := [] |})
    (fun _ => throw "Failed to check MTN Money payment status").

End MTNMoneyAPI.

(** ** Requests and responses *)

Record Request (B : Type) := {
  user_id : ObjectId;
  headers : JObject;
  body : B;
  errors : list string
}.

Record IntentBody := {
  ib_amount : Z;
  ib_currency : string;
  ib_orderId : ObjectId
}.

Record InitiateBody := {
  amount : Z;
  phoneNumber : string;
  orderId : ObjectId
}.

Record PaymentView := {
  v_id : option string;
  v_status : string;
  v_amount : Z;
  v_currency : string;
  v_method : string;
  v_createdAt : option Date;
  v_completedAt : option Date
}.

Inductive Body :=
| JsonFailure (message : string)
| JsonValidationFailed (errors : list string)
| JsonIntent (clientSecret paymentId : option string)
| JsonInitiated (message : string)
    (paymentId transactionId paymentUrl : option string)
| JsonStatus (payment : PaymentView) (gatewayStatus : option JObject)
| JsonSuccess
| JsonReceived
| Text (s : string).

Record Response := { code : Z; json : Body }.

Definition respond (c : Z) (b : Body) : M Response :=
  ret {| code := c; json := b |}.

(** [errors.isEmpty()] *)
Definition isEmpty (errors : list string) : bool :=
  match errors with
  | [] => true
  | _ :: _ => false
  end.

(** [error.message || fallback] *)
Definition orElse (message fallback : string) : string :=
  if String.eqb message "" then fallback else message.

Definition lower (c : Ascii.ascii) : Ascii.ascii :=
  let n := Ascii.nat_of_ascii c in
  if ((65 <=? n) && (n <=? 90))%nat then Ascii.ascii_of_nat (n + 32) else c.

Fixpoint toLowerCase (s : string) : string :=
  match s with
  | EmptyString => EmptyString
  | String c rest => String (lower c) (toLowerCase rest)
  end.

(** The Order Linkage step shared by the three completion paths:
    [order.paymentStatus = 'paid'; order.status = 'confirmed';
     await order.save()] when the order exists. *)
Definition confirmOrder (orderRef : ObjectId) : M unit :=
  order <- OrderModel.findById orderRef ;;
  match order with
  | Some order =>
      let order := Order.set_paymentStatus "paid" order in
      let order := Order.set_status "confirmed" order in
      OrderModel.save order ;;; ret tt
  | None => ret tt
  end.

(** The owner check of the initiation routes:
    [!order || order.buyer.toString() !== req.user.id]. *)
Definition notOwnOrder (order : option Order.t) (user : ObjectId) : bool :=
  match order with
  | None => true
  | Some o => negb (String.eqb (Order.buyer o) user)
  end.

(** ** The route handlers ([routes/payments.js])

    A handler returns its HTTP response; [Throw] is an error that escapes the
    handler to [asyncHandler]. *)

(** [POST /stripe/create-intent] *)
Definition stripeCreateIntent (req : Request IntentBody) : M Response :=
  if negb (isEmpty (errors req)) then
    respond 400 (JsonValidationFailed (errors req))
  else
    let amount := ib_amount (body req) in
    let currency := ib_currency (body req) in
    let orderId := ib_orderId (body req) in
    order <- OrderModel.findById orderId ;;
    if notOwnOrder order (user_id req) then
      respond 404 (JsonFailure "Order not found")
    else
      tryCatch
        (paymentIntent <-
           lift (fun env => paymentIntents_create env (amount * 100)
                              (toLowerCase currency) orderId (user_id req)) ;;
         payment <- PaymentModel.new orderId (user_id req) amount currency
                      "stripe" Payment.no_mobileMoney
                      {| Payment.paymentIntentId := jget "id" paymentIntent;
                         Payment.chargeId := None;
                         Payment.receiptUrl := None |} ;;
         payment <- PaymentModel.save_new payment ;;
         respond 200 (JsonIntent (jget "client_secret" paymentIntent)
                        (Payment.paymentId payment)))
        (fun _ => respond 500 (JsonFailure "Failed to create payment intent")).

(** [POST /orange-money/initiate] *)
Definition orangeMoneyInitiate (req : Request InitiateBody) : M Response :=
  if negb (isEmpty (errors req)) then
    respond 400 (JsonValidationFailed (errors req))
  else
    let amount := amount (body req) in
    let phoneNumber := phoneNumber (body req) in
    let orderId := orderId (body req) in
    order <- OrderModel.findById orderId ;;
    if notOwnOrder order (user_id req) then
      respond 404 (JsonFailure "Order not found")
    else
      tryCatch
        (payment <- PaymentModel.new orderId (user_id req) amount "XOF"
                      "orange_money"
                      {| Payment.phoneNumber := Some phoneNumber;
                         Payment.operator := Some "orange";
                         Payment.reference := None |}
                      Payment.no_stripe ;;
         payment <- PaymentModel.save_new payment ;;
         orangeResponse <- OrangeMoneyAPI.initiatePayment amount "XOF"
                             phoneNumber (Payment.paymentId payment) ;;
         let payment := Payment.set_transactionId
                          (jget "transaction_id" orangeResponse) payment in
         let payment := Payment.set_gatewayResponse
                          (Some orangeResponse) payment in
         let payment := Payment.set_status "processing" payment in
         payment <- PaymentModel.save payment ;;
         respond 200
           (JsonInitiated
              "Orange Money payment initiated. Please complete the payment on your phone."
              (Payment.paymentId payment)
              (jget "transaction_id" orangeResponse)
              (jget "payment_url" orangeResponse)))
        (fun message =>
           respond 500
             (JsonFailure
                (orElse message "Failed to initiate Orange Money payment"))).

(** [POST /mtn-money/initiate] *)
Definition mtnMoneyInitiate (req : Request InitiateBody) : M Response :=
  if negb (isEmpty (errors req)) then
    respond 400 (JsonValidationFailed (errors req))
  else
    let amount := amount (body req) in
    let phoneNumber := phoneNumber (body req) in
    let orderId := orderId (body req) in
    order <- OrderModel.findById orderId ;;
    if notOwnOrder order (user_id req) then
      respond 404 (JsonFailure "Order not found")
    else
      tryCatch
        (payment <- PaymentModel.new orderId (user_id req) amount "XOF"
                      "mtn_money"
                      {| Payment.phoneNumber := Some phoneNumber;
                         Payment.operator := Some "mtn";
                         Payment.reference := None |}
                      Payment.no_stripe ;;
         payment <- PaymentModel.save_new payment ;;
         mtnResponse <- MTNMoneyAPI.requestPayment amount "XOF"
                          phoneNumber (Payment.paymentId payment) ;;
         let payment := Payment.set_transactionId
                          (jget "transactionId" mtnResponse) payment in
         let payment := Payment.set_gatewayResponse
                          (Some mtnResponse) payment in
         let payment := Payment.set_status "processing" payment in
         payment <- PaymentModel.save payment ;;
         respond 200
           (JsonInitiated
              "MTN Money payment initiated. Please complete the payment on your phone."
              (Payment.paymentId payment)
              (jget "transactionId" mtnResponse)
              None))
        (fun message =>
           respond 500
             (JsonFailure
                (orElse message "Failed to initiate MTN Money payment"))).

Definition view (payment : Payment.t) : PaymentView :=
  {| v_id := Payment.paymentId payment;
     v_status := Payment.status payment;
     v_amount := Payment.amount payment;
     v_currency := Payment.currency payment;
     v_method := Payment.method payment;
     v_createdAt := Payment.createdAt payment;
     v_completedAt := Payment.completedAt payment |}.

(** The gateway lookup of the status route, by payment method. *)
Definition checkGateway (payment : Payment.t) : M (option JObject) :=
  let transactionId := Payment.transactionId (Payment.gateway payment) in
  let paymentIntentId :=
    Payment.paymentIntentId (Payment.stripeDetails payment) in
  if String.eqb (Payment.method payment) "orange_money"
     && truthy transactionId then
    match transactionId with
    | Some tx => s <- OrangeMoneyAPI.checkPaymentStatus tx ;; ret (Some s)
    | None => ret None
    end
  else if String.eqb (Payment.method payment) "mtn_money"
          && truthy transactionId then
    match transactionId with
    | Some tx => s <- MTNMoneyAPI.checkPaymentStatus tx ;; ret (Some s)
    | None => ret None
    end
  else if String.eqb (Payment.method payment) "stripe"
          && truthy paymentIntentId then
    match paymentIntentId with
    | Some id =>
        paymentIntent <- lift (fun env => paymentIntents_retrieve env id) ;;
        ret (Some (field "status" (jget "status" paymentIntent)))
    | None => ret None
    end
  else ret None.

Definition isCompleted (gatewayStatus : JObject) : bool :=
  strict_eq (jget "status" gatewayStatus) (Some "succeeded")
  || strict_eq (jget "status" gatewayStatus) (Some "SUCCESSFUL")
  || strict_eq (jget "status" gatewayStatus) (Some "completed").

(** [GET /status/:paymentId].  The order populated by the lookup is not
    read; [Order.findById(payment.order)] resolves it to the same [_id]. *)
Definition getStatus (paymentId : string) (req : Request unit)
  : M Response :=
  payment <- PaymentModel.findOne_paymentId (Some paymentId) ;;
  match payment with
  | None => respond 404 (JsonFailure "Payment not found")
  | Some payment =>
      if negb (String.eqb (Payment.user payment) (user_id req)) then
        respond 404 (JsonFailure "Payment not found")
      else
        tryCatch
          (gatewayStatus <- checkGateway payment ;;
           payment <-
             match gatewayStatus with
             | Some gs =>
                 if isCompleted gs
                    && negb (String.eqb (Payment.status payment) "completed")
                 then
                   let payment := Payment.set_status "completed" payment in
                   now <- Date_now ;;
                   let payment :=
                     Payment.set_completedAt (Some now) payment in
                   confirmOrder (Payment.order payment) ;;;
                   PaymentModel.save payment
                 else ret payment
             | None => ret payment
             end ;;
           respond 200 (JsonStatus (view payment) gatewayStatus))
          (fun _ =>
             respond 500 (JsonFailure "Failed to check payment status"))
  end.

(** [POST /webhook/orange-money] *)
Definition webhookOrangeMoney (req : Request JObject) : M Response :=
  let status := jget "status" (body req) in
  let reference := jget "reference" (body req) in
  tryCatch
    (payment <- PaymentModel.findOne_paymentId reference ;;
     match payment with
     | None => respond 404 (JsonFailure "Payment not found")
     | Some payment =>
         (if strict_eq status (Some "SUCCESS") then
            payment <- PaymentModel.markCompleted (body req) payment ;;
            confirmOrder (Payment.order payment)
          else if strict_eq status (Some "FAILED") then
            PaymentModel.markFailed "Payment failed" (body req) payment ;;;
            ret tt
          else ret tt) ;;;
         respond 200 JsonSuccess
     end)
    (fun _ => respond 500 (JsonFailure "Webhook processing failed")).

(** [POST /webhook/stripe] *)
Definition webhookStripe (req : Request string) : M Response :=
  let sig := jget "stripe-signature" (headers req) in
  fun env =>
    match constructEvent env (body req) sig with
    | Throw message =>
        respond 400 (Text ("Webhook Error: " ++ message)%string) env
    | Ok event =>
        ((if String.eqb (ev_type event) "payment_intent.succeeded" then
            let paymentIntent := ev_object event in
            payment <- PaymentModel.findOne_paymentIntentId
                         (jget "id" paymentIntent) ;;
            match payment with
            | Some payment =>
                payment <- PaymentModel.markCompleted paymentIntent payment ;;
                confirmOrder (Payment.order payment)
            | None => ret tt
            end
          else if String.eqb (ev_type event)
                    "payment_intent.payment_failed" then
            let failedPayment := ev_object event in
            failedPaymentRecord <- PaymentModel.findOne_paymentIntentId
                                     (jget "id" failedPayment) ;;
            match failedPaymentRecord with
            | Some failedPaymentRecord =>
                PaymentModel.markFailed "Payment failed" failedPayment
                  failedPaymentRecord ;;; ret tt
            | None => ret tt
            end
          else ret tt) ;;;
         respond 200 JsonReceived) env
    end.

(** ** Notions used in the statements *)

(** [new Payment(...)] followed by [save()], as each initiation route
    creates its Payment. *)
Definition create (order user : ObjectId) (amount : Z)
    (currency method : string)
    (mobileMoneyDetails : Payment.MobileMoneyDetails)
    (stripeDetails : Payment.StripeDetails) : M Payment.t :=
  payment <- PaymentModel.new order user amount currency method
               mobileMoneyDetails stripeDetails ;;
  PaymentModel.save_new payment.

(** The document [new Payment(...)] builds in world [w]: no [paymentId],
    the schema's defaults, and [expiresAt] thirty minutes after the clock
    reading of the call. *)
Definition constructed (env : Env) (w : World) (order user : ObjectId)
    (amount : Z) (currency method : string)
    (mobileMoneyDetails : Payment.MobileMoneyDetails)
    (stripeDetails : Payment.StripeDetails) : Payment.t :=
  {| Payment._id := objectId env (draws w);
     Payment.paymentId := None;
     Payment.order := order; Payment.user := user;
     Payment.amount := amount; Payment.currency := currency;
     Payment.method := method; Payment.status := "pending";
     Payment.gateway := Payment.no_gateway;
     Payment.mobileMoneyDetails := mobileMoneyDetails;
     Payment.stripeDetails := stripeDetails;
     Payment.fees := Payment.default_fees;
     Payment.settlement := Payment.default_settlement;
     Payment.attempts := [];
     Payment.completedAt := None; Payment.failedAt := None;
     Payment.expiresAt := clock env (ticks w) + 30 * 60 * 1000;
     Payment.createdAt := None |}.

(** The world after [new Payment(...)] built [doc] and [save()] refused
    it: one ObjectId and one clock reading consumed, one [save()]
    journalled, nothing stored. *)
Definition refused (doc : Payment.t) (w : World) : World :=
  {| payments := payments w; orders := orders w;
     saves := saves w ++ [SavePayment doc];
     ticks := S (ticks w); draws := S (draws w) |}.

(** What [save()] says of a document that satisfies the schema but for
    its missing [paymentId]. *)
Definition paymentIdRequired : string :=
  "Payment validation failed: paymentId: Payment ID is required".

(** The HTTP client cannot reach any provider. *)
Definition transportDown (env : Env) : Prop :=
  (forall r, exists e, axios env r = Throw e)
  /\ (forall id, exists e, paymentIntents_retrieve env id = Throw e)
  /\ (forall a c o u, exists e, paymentIntents_create env a c o u = Throw e).

(** The terminal Payment statuses. *)
Definition terminal (s : string) : bool :=
  isIn s ["completed"; "failed"; "cancelled"; "refunded"].

(** The [save()] calls a handler issued on Orders. *)
Fixpoint orderSaves (l : list SaveCall) : list Order.t :=
  match l with
  | [] => []
  | SaveOrder o :: rest => o :: orderSaves rest
  | SavePayment _ :: rest => orderSaves rest
  end.

(** A Hoare triple over the handler monad: from any world satisfying [P],
    running [c] in [env] yields a result and a world related by [Q]. *)
Definition hoare {A : Type} (env : Env) (P : World -> Prop) (c : M A)
    (Q : result A -> World -> Prop) : Prop :=
  forall w, P w -> Q (fst (c env w)) (snd (c env w)).

(** No Payment of [w'] is failed unless it was already stored, failed, and
    identical in [w]. *)
Definition noNewFailure (w w' : World) : Prop :=
  forall p, In p (payments w') -> Payment.status p = "failed" ->
            In p (payments w).

(** [w'] holds the Payments of [w] followed by newly created, pending
    ones. *)
Definition onlyAddedPending (w w' : World) : Prop :=
  exists added,
    payments w' = payments w ++ added
    /\ Forall (fun p => Payment.status p = "pending") added.

(** A property of the world that depends on the Payments collection
    only. *)
Definition storeOnly (I : World -> Prop) : Prop :=
  forall w w', payments w' = payments w -> I w -> I w'.

(** Properties of the collections that survive the insertion of a pending
    Payment. *)
Definition pendingClosed (I : World -> Prop) : Prop :=
  storeOnly I
  /\ forall w w' doc,
       Payment.status doc = "pending" ->
       payments w' = payments w ++ [doc] -> I w -> I w'.

(** Properties of the collections that survive every write of a Payment
    whose status satisfies [ok]: an insertion at the end, or the replacement
    of the stored document with the same [_id]. *)
Definition writeClosed (ok : string -> Prop) (I : World -> Prop) : Prop :=
  storeOnly I
  /\ (forall w w' doc,
        ok (Payment.status doc) ->
        payments w' = payments w ++ [doc] -> I w -> I w')
  /\ (forall w w' doc,
        ok (Payment.status doc) ->
        payments w' = PaymentModel.replaceById doc (payments w) ->
        I w -> I w').

(** Every [_id] stored in [w] is still stored in [w']. *)
Definition keepsRecords (w w' : World) : Prop :=
  forall id, In id (map Payment._id (payments w)) ->
             In id (map Payment._id (payments w')).

(** ** Scenarios *)

Module Scenario.

Definition gateway_up (r : HttpReq) : result JObject :=
  match endpoint r with
  | OrangeToken | MtnToken => Ok [("access_token", "tok")]
  | OrangePay =>
      Ok [("transaction_id", "abc123"); ("payment_url", "https://pay")]
  | MtnRequestToPay => Ok []
  | OrangeStatus _ | MtnStatus _ => Ok [("status", "SUCCESSFUL")]
  end.

(** A signed event: the raw body is the event type, about intent [pi_1]. *)
Definition signed (raw : string) (sig : option string)
  : result StripeEvent :=
  if strict_eq sig (Some "t=1,v1=good") then
    Ok {| ev_type := raw; ev_object := [("id", "pi_1")] |}
  else Throw "No signatures found matching the expected signature".

Definition env_up : Env :=
  {| clock := fun n => 1000 + Z.of_nat n;
     random36 := fun _ => "k3j9x0q1z";
     objectId := fun n => ("65f0c0ffee" ++ show (Z.of_nat n))%string;
     axios := gateway_up;
     paymentIntents_create := fun _ _ _ _ =>
       Ok [("id", "pi_1"); ("client_secret", "pi_1_secret")];
     paymentIntents_retrieve := fun _ => Ok [("status", "succeeded")];
     constructEvent := signed |}.

Definition env_down : Env :=
  {| clock := fun n => 1000 + Z.of_nat n;
     random36 := fun _ => "k3j9x0q1z";
     objectId := fun n => ("65f0c0ffee" ++ show (Z.of_nat n))%string;
     axios := fun _ => Throw "connect ECONNREFUSED";
     paymentIntents_create := fun _ _ _ _ => Throw "connect ECONNREFUSED";
     paymentIntents_retrieve := fun _ => Throw "connect ECONNREFUSED";
     constructEvent := signed |}.

(** An Order of buyer [u1] whose other paths satisfy the schema. *)
Definition order (id : ObjectId) (number status paymentStatus : string)
  : Order.t :=
  {| Order._id := id; Order.orderNumber := Some number;
     Order.buyer := "u1";
     Order.quantity := Some 1; Order.price := Some 60000;
     Order.totalAmount := Some 60000;
     Order.status := status; Order.paymentStatus := paymentStatus;
     Order.paymentMethod := Some "other";
     Order.shippingAddress :=
       {| Order.street := Some "12 rue du Commerce";
          Order.city := Some "Abidjan";
          Order.postalCode := Some "01";
          Order.region := Some "Lagunes" |};
     Order.shipping :=
       {| Order.shipping_method := Some "standard";
          Order.shipping_cost := Some 0 |};
     Order.timeline := [] |}.

Definition order_shipped : Order.t :=
  order "o1" "FD2401150001" "shipped" "pending".

(** An Order stored with a [paymentStatus] the schema does not allow. *)
Definition order_paid : Order.t :=
  order "o2" "FD2401150002" "confirmed" "paid".

Definition order_settled : Order.t :=
  order "o3" "FD2401150003" "delivered" "completed".

Definition pay_processing : Payment.t :=
  {| Payment._id := "p1";
     Payment.paymentId := Some "PAY_900_a1b2c3d4e";
     Payment.order := "o1"; Payment.user := "u1";
     Payment.amount := 60000; Payment.currency := "XOF";
     Payment.method := "orange_money"; Payment.status := "processing";
     Payment.gateway :=
       {| Payment.transactionId := Some "abc123";
          Payment.gatewayResponse := Some [("transaction_id", "abc123")];
          Payment.gatewayFees := None |};
     Payment.mobileMoneyDetails :=
       {| Payment.phoneNumber := Some "+33612345678";
          Payment.operator := Some "orange";
          Payment.reference := None |};
     Payment.stripeDetails := Payment.no_stripe;
     Payment.fees := Payment.default_fees;
     Payment.settlement := Payment.default_settlement;
     Payment.attempts := [];
     Payment.completedAt := None; Payment.failedAt := None;
     Payment.expiresAt := 1800900; Payment.createdAt := Some 900 |}.

Definition pay_card : Payment.t :=
  {| Payment._id := "p2";
     Payment.paymentId := Some "PAY_910_z9y8x7w6v";
     Payment.order := "o1"; Payment.user := "u1";
     Payment.amount := 90; Payment.currency := "EUR";
     Payment.method := "stripe"; Payment.status := "pending";
     Payment.gateway := Payment.no_gateway;
     Payment.mobileMoneyDetails := Payment.no_mobileMoney;
     Payment.stripeDetails :=
       {| Payment.paymentIntentId := Some "pi_1";
          Payment.chargeId := None; Payment.receiptUrl := None |};
     Payment.fees := Payment.default_fees;
     Payment.settlement := Payment.default_settlement;
     Payment.attempts := [];
     Payment.completedAt := None; Payment.failedAt := None;
     Payment.expiresAt := 1800910; Payment.createdAt := Some 910 |}.

Definition pay_failed : Payment.t :=
  Payment.set_failedAt (Some 950)
    (Payment.set_status "failed" pay_processing).

Definition pay_completed : Payment.t :=
  Payment.set_completedAt (Some 950)
    (Payment.set_status "completed" pay_processing).

Definition world (ps : list Payment.t) : World :=
  {| payments := ps; orders := [order_shipped; order_paid; order_settled];
     saves := [];
     ticks := 0; draws := 0 |}.

(** A request whose body the route's validators accept.  ObjectIds are
    written short in the scenarios: [o1], [u1], [p1] stand for 24-digit
    hexadecimal ids. *)
Definition request {B : Type} (user : ObjectId) (b : B) : Request B :=
  {| user_id := user; headers := []; body := b; errors := [] |}.

(** The phone number is one [isMobilePhone()] accepts. *)
Definition initiate (order : ObjectId) : Request InitiateBody :=
  request "u1" {| amount := 60000; phoneNumber := "+33612345678";
                  orderId := order |}.

Definition hook (status : string) : Request JObject :=
  request "" [("transaction_id", "abc123"); ("status", status);
              ("reference", "PAY_900_a1b2c3d4e")].

Definition stripe_event (type : string) : Request string :=
  {| user_id := ""; headers := [("stripe-signature", "t=1,v1=good")];
     body := type; errors := [] |}.

End Scenario.

(** ** The rest of the two models and of the payment routes *)

(** [orderSchema.methods.updateStatus(newStatus, note = '', updatedBy =
    null)].  The entry's [updatedBy] is not kept in the model. *)
Definition updateStatus (newStatus note : string) (this : Order.t)
  : M Order.t :=
  let this := Order.set_status newStatus this in
  now <- Date_now ;;
  let this :=
    Order.push_timeline
      {| Order.tl_status := newStatus; Order.tl_timestamp := now;
         Order.tl_note :=
           orElse note ("Status changed to " ++ newStatus)%string |} this in
  OrderModel.save this.

(** The query string of [GET /my-payments] after [parseInt]: [None] is
    [NaN]. *)
Record PageQuery := { q_page : option Z; q_limit : option Z }.

(** [parseInt(x) || d]: [NaN] and [0] are falsy. *)
Definition orDefault (n : option Z) (d : Z) : Z :=
  match n with
  | Some v => if v =? 0 then d else v
  | None => d
  end.

(** The order of [sort({ createdAt: -1 })]: newest first, a missing date
    last. *)
Definition newerOrSame (p q : Payment.t) : bool :=
  match Payment.createdAt p, Payment.createdAt q with
  | Some a, Some b => b <=? a
  | Some _, None => true
  | None, Some _ => false
  | None, None => true
  end.

Fixpoint insertByCreatedAt (p : Payment.t) (l : list Payment.t)
  : list Payment.t :=
  match l with
  | [] => [p]
  | q :: rest =>
      if newerOrSame p q then p :: q :: rest
      else q :: insertByCreatedAt p rest
  end.

(** Documents with equal dates keep their natural order. *)
Definition sortByCreatedAtDesc (l : list Payment.t) : list Payment.t :=
  fold_right insertByCreatedAt [] l.

(** [.skip(skip).limit(limit)]: the server refuses a negative skip; a
    negative limit is sent as its absolute value and a zero limit is no
    limit. *)
Definition skipLimit (skip limit : Z) (l : list Payment.t)
  : result (list Payment.t) :=
  if skip <? 0 then Throw "Skip value must be non-negative"
  else
    let rest := skipn (Z.to_nat skip) l in
    Ok (if limit =? 0 then rest
        else firstn (Z.to_nat (Z.abs limit)) rest).

(** [Math.ceil(a / b)] for [b <> 0]. *)
Definition ceilDiv (a b : Z) : Z := - ((- a) / b).

Record Page := {
  pg_payments : list Payment.t;
  pg_page : Z;
  pg_limit : Z;
  pg_total : Z;
  pg_pages : Z
}.

(** [GET /my-payments]; the handler has no [try], a rejected query escapes
    it.  The populated order fields of each payment are not modelled. *)
Definition myPayments (req : Request PageQuery) : M Page :=
  let page := orDefault (q_page (body req)) 1 in
  let limit := orDefault (q_limit (body req)) 10 in
  let skip := (page - 1) * limit in
  fun _ w =>
    let mine :=
      filter (fun p => String.eqb (Payment.user p) (user_id req))
        (payments w) in
    match skipLimit skip limit (sortByCreatedAtDesc mine) with
    | Throw e => (Throw e, w)
    | Ok payments =>
        let total := Z.of_nat (List.length mine) in
        (Ok {| pg_payments := payments; pg_page := page; pg_limit := limit;
               pg_total := total; pg_pages := ceilDiv total limit |}, w)
    end.

(** The same request for page [k]. *)
Definition atPage (k : Z) (req : Request PageQuery) : Request PageQuery :=
  {| user_id := user_id req; headers := headers req;
     body := {| q_page := Some k; q_limit := q_limit (body req) |};
     errors := errors req |}.

(** ** Further notions used in the statements *)

(** [w'] has the collections of [w] and the same [save()] calls on
    Orders. *)
Definition untouched (w w' : World) : Prop :=
  payments w' = payments w
  /\ orders w' = orders w
  /\ orderSaves (saves w') = orderSaves (saves w).

(** A property of the two collections and of the Order saves only. *)
Definition quiet (I : World -> Prop) : Prop :=
  forall w w', untouched w w' -> I w -> I w'.

(** No two stored Payments share an [_id], and no two share a reference. *)
Definition uniqueKeys (w : World) : Prop :=
  NoDup (map Payment._id (payments w))
  /\ NoDup (map Payment.paymentId (payments w)).

(** The Orders are as in [w], and no [save()] was issued on one. *)
Definition ordersUntouched (w w' : World) : Prop :=
  orders w' = orders w /\ orderSaves (saves w') = orderSaves (saves w).

(** The Orders collection holds the same [_id]s, in the same places. *)
Definition sameOrderIds (w w' : World) : Prop :=
  map Order._id (orders w') = map Order._id (orders w).

(** The Orders collection holds the same [_id]s as in [w], and every Order
    that is not as in [w] is paid and confirmed. *)
Definition ordersOnlyConfirmed (w w' : World) : Prop :=
  sameOrderIds w w'
  /\ forall o, In o (orders w') ->
       In o (orders w)
       \/ (Order.status o = "confirmed" /\ Order.paymentStatus o = "paid").

(** [q] has every field of [p] that no route assigns once the Payment is
    stored: all but [status], [gateway], [attempts], [completedAt] and
    [failedAt]. *)
Definition sameCore (p q : Payment.t) : Prop :=
  Payment._id q = Payment._id p
  /\ Payment.paymentId q = Payment.paymentId p
  /\ Payment.order q = Payment.order p
  /\ Payment.user q = Payment.user p
  /\ Payment.amount q = Payment.amount p
  /\ Payment.currency q = Payment.currency p
  /\ Payment.method q = Payment.method p
  /\ Payment.mobileMoneyDetails q = Payment.mobileMoneyDetails p
  /\ Payment.stripeDetails q = Payment.stripeDetails p
  /\ Payment.fees q = Payment.fees p
  /\ Payment.settlement q = Payment.settlement p
  /\ Payment.expiresAt q = Payment.expiresAt p
  /\ Payment.createdAt q = Payment.createdAt p.

(** Every Payment of [w] is still stored in [w'], under the same [_id] and
    with the same core. *)
Definition coreKept (w w' : World) : Prop :=
  keepsRecords w w'
  /\ forall p q, In p (payments w) -> In q (payments w') ->
       Payment._id q = Payment._id p -> sameCore p q.

(** The core is kept, and [p] is stored. *)
Definition holding (w0 : World) (p : Payment.t) (w : World) : Prop :=
  coreKept w0 w /\ In p (payments w).

(** Every Payment of [w'] is a Payment of [w] as it was, or holds one of
    the [allowed] statuses. *)
Definition changedOnlyTo (allowed : list string) (w w' : World) : Prop :=
  forall p, In p (payments w') ->
    In p (payments w) \/ isIn (Payment.status p) allowed = true.

(** A request to one of the routes of [routes/payments.js]. *)
Inductive Call :=
| CreateIntent (req : Request IntentBody)
| InitiateOrange (req : Request InitiateBody)
| InitiateMtn (req : Request InitiateBody)
| Status (paymentId : string) (req : Request unit)
| HookOrange (req : Request JObject)
| HookStripe (req : Request string)
| MyPayments (req : Request PageQuery).

(** The world a request leaves behind. *)
Definition handle (env : Env) (c : Call) (w : World) : World :=
  match c with
  | CreateIntent req => snd (stripeCreateIntent req env w)
  | InitiateOrange req => snd (orangeMoneyInitiate req env w)
  | InitiateMtn req => snd (mtnMoneyInitiate req env w)
  | Status paymentId req => snd (getStatus paymentId req env w)
  | HookOrange req => snd (webhookOrangeMoney req env w)
  | HookStripe req => snd (webhookStripe req env w)
  | MyPayments req => snd (myPayments req env w)
  end.

(** Requests served one after the other. *)
Fixpoint serve (env : Env) (calls : list Call) (w : World) : World :=
  match calls with
  | [] => w
  | c :: rest => serve env rest (handle env c w)
  end.

(** ** More scenarios *)

Module Cases.

Definition two_payments : World :=
  Scenario.world [Scenario.pay_processing; Scenario.pay_card].

(** What a failed Orange initiation leaves behind: pending, no transaction
    id. *)
Definition pay_uninitiated : Payment.t :=
  Payment.set_gateway Payment.no_gateway
    (Payment.set_status "pending" Scenario.pay_processing).

(** The providers answer, and report the transaction as failed. *)
Definition env_reports_failure : Env :=
  {| clock := clock Scenario.env_up;
     random36 := random36 Scenario.env_up;
     objectId := objectId Scenario.env_up;
     axios := fun r =>
       match endpoint r with
       | OrangeStatus _ | MtnStatus _ => Ok [("status", "FAILED")]
       | _ => Scenario.gateway_up r
       end;
     paymentIntents_create := paymentIntents_create Scenario.env_up;
     paymentIntents_retrieve := fun _ => Ok [("status", "canceled")];
     constructEvent := Scenario.signed |}.

End Cases.

(** * Properties *)

#[local] Arguments isIn : simpl never.
#[local] Arguments show : simpl never.
#[local] Arguments String.append : simpl never.

(** ** Validation *)

Lemma validated_ok (model : string) (errs : list ValidationError) :
  validated model errs = Ok tt <-> errs = [].
Proof. destruct errs; simpl; split; intros H; try reflexivity; discriminate. Qed.

Lemma validated_throw (model : string) (errs : list ValidationError)
    (e : ValidationError) :
  In e errs -> validated model errs = Throw (validationMessage model errs).
Proof. destruct errs; simpl; [tauto | reflexivity]. Qed.

(** Splits [H : a ++ b ++ ... = []] into its parts. *)
Ltac split_errors H :=
  repeat match type of H with
         | _ ++ _ = [] =>
             let H1 := fresh "E" in
             apply app_eq_nil in H; destruct H as [H1 H]
         end.

(** ** Stored documents and [replaceById] *)

Lemma strict_eq_refl (a : option string) : strict_eq a a = true.
Proof. destruct a; simpl; [apply String.eqb_refl | reflexivity]. Qed.

Section ReplaceById.
Import Payment PaymentModel.

Lemma findById_replaceById (doc old : Payment.t) (l : list Payment.t) :
  findById (_id doc) l = Some old ->
  findById (_id doc) (replaceById doc l) = Some doc.
Proof.
  unfold findById. induction l as [|x rest IH]; simpl; [discriminate|].
  destruct (String.eqb (_id x) (_id doc)) eqn:E; simpl.
  - intros _. now rewrite String.eqb_refl.
  - rewrite E. exact IH.
Qed.

Lemma In_replaceById (doc x : Payment.t) (l : list Payment.t) :
  In x (replaceById doc l) -> x = doc \/ In x l.
Proof.
  induction l as [|y rest IH]; simpl; [tauto|].
  destruct (String.eqb (_id y) (_id doc)); simpl; intuition auto.
Qed.

Lemma ids_replaceById (doc : Payment.t) (l : list Payment.t) :
  map _id (replaceById doc l) = map _id l.
Proof.
  induction l as [|y rest IH]; simpl; [reflexivity|].
  destruct (String.eqb (_id y) (_id doc)) eqn:E; simpl.
  - apply String.eqb_eq in E. now rewrite E.
  - now rewrite IH.
Qed.


(** A document that satisfies the schema still does after [status] was
    set to a value of the enum and paths without a validator were
    rewritten. *)
Lemma validate_status_only (old doc : Payment.t) :
  validate old = Ok tt ->
  paymentId doc = paymentId old ->
  amount doc = amount old -> currency doc = currency old ->
  method doc = method old ->
  mobileMoneyDetails doc = mobileMoneyDetails old ->
  settlement doc = settlement old ->
  isIn (status doc) status_enum = true ->
  validate doc = Ok tt.
Proof.
  unfold validate. intros Hv Hp Ha Hc Hm Ho Hse Hs.
  apply validated_ok in Hv. apply validated_ok.
  unfold schemaErrors in *. rewrite Hp, Ha, Hc, Hm, Ho, Hse.
  split_errors Hv.
  rewrite E, E0, E1, E2, E4, Hv. cbn [inEnum]. now rewrite Hs.
Qed.

(** What the schema asks of a Payment. *)
Lemma validate_ok (p : Payment.t) :
  validate p = Ok tt <->
  truthy (paymentId p) = true
  /\ 0 <= amount p
  /\ isIn (currency p) currency_enum = true
  /\ isIn (method p) method_enum = true
  /\ isIn (status p) status_enum = true
  /\ match operator (mobileMoneyDetails p) with
     | Some op => isIn op operator_enum = true
     | None => True
     end
  /\ isIn (settlement_status (settlement p)) settlement_status_enum = true.
Proof.
  unfold validate. rewrite validated_ok. unfold schemaErrors.
  unfold requiredString, requiredEnum, atLeast, inEnum.
  assert (T : forall c l, isIn c l = true -> truthy (Some c) = true
                          \/ isIn "" l = true).
  { intros c l H. cbn. destruct (String.eqb_spec c ""); [subst|]; auto. }
  split.
  - intros H. split_errors H.
    destruct (truthy (paymentId p)); [|discriminate].
    destruct (Z.ltb_spec (amount p) 0); [discriminate|].
    destruct (truthy (Some (currency p))); [|discriminate].
    destruct (isIn (currency p) currency_enum); [|discriminate].
    destruct (truthy (Some (method p))); [|discriminate].
    destruct (isIn (method p) method_enum); [|discriminate].
    destruct (isIn (status p) status_enum); [|discriminate].
    destruct (isIn (settlement_status (settlement p)) _); [|discriminate].
    repeat split; auto.
    destruct (operator (mobileMoneyDetails p)) as [op|]; [|exact I].
    now destruct (isIn op operator_enum).
  - intros (H1 & H2 & H3 & H4 & H5 & H6 & H7).
    rewrite H1, H3, H4, H5, H7.
    destruct (Z.ltb_spec (amount p) 0); [lia|].
    assert (C : truthy (Some (currency p)) = true).
    { destruct (T _ _ H3) as [X|X]; [exact X | discriminate X]. }
    assert (M : truthy (Some (method p)) = true).
    { destruct (T _ _ H4) as [X|X]; [exact X | discriminate X]. }
    rewrite C, M.
    destruct (operator (mobileMoneyDetails p)) as [op|];
      [rewrite H6|]; reflexivity.
Qed.

End ReplaceById.

(** ** The Ledger's terminal writes *)

Section Ledger.
Import Payment PaymentModel.
Variables (env : Env) (w : World) (p : Payment.t).
Hypothesis stored : findById (_id p) (payments w) = Some p.
Hypothesis valid : validate p = Ok tt.

Lemma save_stored (doc : Payment.t) :
  _id doc = _id p -> paymentId doc = paymentId p ->
  amount doc = amount p -> currency doc = currency p ->
  method doc = method p ->
  mobileMoneyDetails doc = mobileMoneyDetails p ->
  settlement doc = settlement p ->
  isIn (status doc) status_enum = true ->
  forall w0, payments w0 = payments w ->
  save doc env w0 =
    (Ok doc,
     {| payments := replaceById doc (payments w); orders := orders w0;
        saves := saves w0 ++ [SavePayment doc];
        ticks := ticks w0; draws := draws w0 |}).
Proof.
  intros Hid Hpid Ha Hc Hm Ho Hse Hs w0 Hw0.
  unfold save, bind, journal, lift. cbn -[validate findById].
  rewrite (@validate_status_only p doc valid Hpid Ha Hc Hm Ho Hse Hs).
  rewrite Hw0, Hid, stored.
  rewrite Hpid, strict_eq_refl. simpl. reflexivity.
Qed.

Lemma markCompleted_run (gatewayResponse : JObject) :
  let doc :=
    set_gatewayResponse (Some gatewayResponse)
      (set_completedAt (Some (clock env (ticks w)))
         (set_status "completed" p)) in
  markCompleted gatewayResponse p env w =
    (Ok doc,
     {| payments := replaceById doc (payments w); orders := orders w;
        saves := saves w ++ [SavePayment doc];
        ticks := S (ticks w); draws := draws w |}).
Proof.
  intros doc. unfold markCompleted, bind, Date_now. simpl. fold doc.
  now rewrite (@save_stored doc) by reflexivity.
Qed.

Lemma markFailed_run (message : string) (gatewayResponse : JObject) :
  let doc :=
    set_attempts
      (attempts p ++
         [{| timestamp := clock env (S (ticks w));
             attempt_status := Some "failed";
             errorMessage := Some message;
             attempt_gatewayResponse := Some gatewayResponse |}])
      (set_failedAt (Some (clock env (ticks w))) (set_status "failed" p)) in
  markFailed message gatewayResponse p env w =
    (Ok doc,
     {| payments := replaceById doc (payments w); orders := orders w;
        saves := saves w ++ [SavePayment doc];
        ticks := S (S (ticks w)); draws := draws w |}).
Proof.
  intros doc.
  unfold markFailed, push_attempt, bind, ret, Date_now. simpl. fold doc.
  now rewrite (@save_stored doc) by reflexivity.
Qed.

End Ledger.

(** C1 (as amended).  The Ledger's terminal writes are unconditional.  On a
    stored Payment that satisfies the schema, whatever its status (completed
    and failed included), [markCompleted] succeeds and leaves it stored as
    completed with [completedAt] set to the clock reading of the call, and
    [markFailed] succeeds and leaves it stored as failed with [failedAt] set
    and exactly one attempt appended: the last terminal write wins and
    nothing is rejected on account of the status. *)
Theorem terminal_writes_unconditional
    (env : Env) (w : World) (p : Payment.t)
    (message : string) (gatewayResponse : JObject) :
  PaymentModel.findById (Payment._id p) (payments w) = Some p ->
  PaymentModel.validate p = Ok tt ->
  (exists pc,
      fst (PaymentModel.markCompleted gatewayResponse p env w) = Ok pc
      /\ PaymentModel.findById (Payment._id p)
           (payments (snd (PaymentModel.markCompleted gatewayResponse p env w)))
         = Some pc
      /\ Payment.status pc = "completed"
      /\ Payment.completedAt pc = Some (clock env (ticks w))
      /\ Payment.attempts pc = Payment.attempts p)
  /\ (exists pf,
      fst (PaymentModel.markFailed message gatewayResponse p env w) = Ok pf
      /\ PaymentModel.findById (Payment._id p)
           (payments
              (snd (PaymentModel.markFailed message gatewayResponse p env w)))
         = Some pf
      /\ Payment.status pf = "failed"
      /\ Payment.failedAt pf = Some (clock env (ticks w))
      /\ Payment.attempts pf =
           Payment.attempts p ++
             [{| Payment.timestamp := clock env (S (ticks w));
                 Payment.attempt_status := Some "failed";
                 Payment.errorMessage := Some message;
                 Payment.attempt_gatewayResponse := Some gatewayResponse |}]).
Proof.
  intros Hst Hv. split.
  - rewrite (@markCompleted_run env w p Hst Hv gatewayResponse). cbn zeta.
    eexists. split; [reflexivity|]. split; [|now simpl].
    cbn [snd payments]. match goal with
    | |- PaymentModel.findById _ (PaymentModel.replaceById ?d _) = _ =>
        exact (@findById_replaceById d p (payments w) Hst)
    end.
  - rewrite (@markFailed_run env w p Hst Hv message gatewayResponse).
    cbn zeta.
    eexists. split; [reflexivity|]. split; [|now simpl].
    cbn [snd payments]. match goal with
    | |- PaymentModel.findById _ (PaymentModel.replaceById ?d _) = _ =>
        exact (@findById_replaceById d p (payments w) Hst)
    end.
Qed.

Lemma terminal_writes_unconditional_witness :
  exists pc,
    fst (PaymentModel.markCompleted [("status", "SUCCESS")]
           Scenario.pay_failed Scenario.env_up
           (Scenario.world [Scenario.pay_failed])) = Ok pc
    /\ Payment.status pc = "completed".
Proof.
  destruct (@terminal_writes_unconditional Scenario.env_up
              (Scenario.world [Scenario.pay_failed]) Scenario.pay_failed
              "Payment failed" [("status", "SUCCESS")] eq_refl eq_refl)
    as [[pc (H1 & _ & H3 & _)] _].
  exists pc. split; assumption.
Defined.

(** C1 (as stated) fails.  A Payment stored as failed is stored as completed
    after [markCompleted], which returns normally; a Payment stored as
    completed is stored as failed after a late FAILED webhook. *)
Lemma first_terminal_write_does_not_win :
  terminal (Payment.status Scenario.pay_failed) = true
  /\ (exists pc,
        fst (PaymentModel.markCompleted [("status", "SUCCESS")]
               Scenario.pay_failed Scenario.env_up
               (Scenario.world [Scenario.pay_failed])) = Ok pc)
  /\ map Payment.status
       (payments
          (snd (PaymentModel.markCompleted [("status", "SUCCESS")]
                  Scenario.pay_failed Scenario.env_up
                  (Scenario.world [Scenario.pay_failed]))))
     = ["completed"]
  /\ terminal (Payment.status Scenario.pay_completed) = true
  /\ map Payment.status
       (payments
          (snd (webhookOrangeMoney (Scenario.hook "FAILED") Scenario.env_up
                  (Scenario.world [Scenario.pay_completed]))))
     = ["failed"].
Proof.
  split; [reflexivity|]. split; [|repeat split; reflexivity].
  eexists. cbv. reflexivity.
Qed.

(** ** Order Linkage *)

Lemma orderSaves_app (a b : list SaveCall) :
  orderSaves (a ++ b) = orderSaves a ++ orderSaves b.
Proof.
  induction a as [|[q|o] rest IH]; simpl; [reflexivity|exact IH|].
  now rewrite IH.
Qed.

(** ['paid'] is not a value of the Order schema's [paymentStatus] enum, so
    the document of the linkage step never passes validation. *)
Lemma confirmOrder_invalid (o : Order.t) :
  OrderModel.validate
    (Order.set_status "confirmed" (Order.set_paymentStatus "paid" o))
  = Throw (validationMessage "Order"
             (OrderModel.schemaErrors
                (Order.set_status "confirmed"
                   (Order.set_paymentStatus "paid" o)))).
Proof.
  unfold OrderModel.validate.
  apply validated_throw
    with (e := ("paymentStatus", enumMessage "paymentStatus" "paid")).
  unfold OrderModel.schemaErrors.
  do 5 (apply in_or_app; right). apply in_or_app. left. now left.
Qed.

(** The linkage step on an Order that is there: the Order is handed to
    [save()] with [paymentStatus = 'paid'] and [status = 'confirmed'],
    whatever it held before, and [save()] rejects it.  Nothing is stored. *)
Lemma confirmOrder_run (env : Env) (w : World) (ref : ObjectId)
    (o : Order.t) :
  find (fun x => String.eqb (Order._id x) ref) (orders w) = Some o ->
  let written :=
    Order.set_status "confirmed" (Order.set_paymentStatus "paid" o) in
  confirmOrder ref env w =
    (Throw (validationMessage "Order" (OrderModel.schemaErrors written)),
     {| payments := payments w; orders := orders w;
        saves := saves w ++ [SaveOrder written];
        ticks := ticks w; draws := draws w |}).
Proof.
  intros Hf written.
  unfold confirmOrder, bind, OrderModel.findById.
  cbn -[OrderModel.save]. rewrite Hf.
  unfold OrderModel.save, bind, journal, lift.
  cbn -[OrderModel.validate]. fold written.
  unfold written. now rewrite confirmOrder_invalid.
Qed.

(** When the Order satisfies the schema, the one complaint is about
    [paymentStatus]. *)
Lemma confirmOrder_message (o : Order.t) :
  OrderModel.validate o = Ok tt ->
  validationMessage "Order"
    (OrderModel.schemaErrors
       (Order.set_status "confirmed" (Order.set_paymentStatus "paid" o)))
  = "Order validation failed: paymentStatus: `paid` is not a valid enum value for path `paymentStatus`.".
Proof.
  unfold OrderModel.validate. intros H. apply validated_ok in H.
  unfold OrderModel.schemaErrors in *. split_errors H.
  cbn [Order.set_status Order.set_paymentStatus Order.orderNumber
       Order.quantity Order.price Order.totalAmount Order.status
       Order.paymentStatus Order.paymentMethod Order.shippingAddress
       Order.shipping Order.timeline].
  rewrite E, E0, E1, E2, E5, E6, E7, E8, E9, E10, E11, H.
  reflexivity.
Qed.

Lemma confirmOrder_saves (env : Env) (w : World) (ref : ObjectId)
    (o : Order.t) :
  find (fun x => String.eqb (Order._id x) ref) (orders w) = Some o ->
  saves (snd (confirmOrder ref env w)) =
    saves w ++
      [SaveOrder (Order.set_status "confirmed"
                    (Order.set_paymentStatus "paid" o))]
  /\ payments (snd (confirmOrder ref env w)) = payments w.
Proof.
  intros Hf. rewrite (@confirmOrder_run env w ref o Hf). split; reflexivity.
Qed.

Lemma confirmOrder_missing (env : Env) (w : World) (ref : ObjectId) :
  find (fun x => String.eqb (Order._id x) ref) (orders w) = None ->
  confirmOrder ref env w = (Ok tt, w).
Proof.
  intros Hf. unfold confirmOrder, bind, OrderModel.findById, ret.
  now rewrite Hf.
Qed.




(** C7: a SUCCESS webhook delivered twice for the same Payment.  The second
    [markCompleted] leaves the status at completed but overwrites
    [completedAt] with the later clock reading; the status poll, by contrast,
    leaves an already completed Payment untouched. *)
Theorem markCompleted_again_restamps_completedAt :
  let w0 := Scenario.world [Scenario.pay_processing] in
  let w1 := snd (webhookOrangeMoney (Scenario.hook "SUCCESS")
                   Scenario.env_up w0) in
  let w2 := snd (webhookOrangeMoney (Scenario.hook "SUCCESS")
                   Scenario.env_up w1) in
  let w2' := snd (getStatus "PAY_900_a1b2c3d4e" (Scenario.request "u1" tt)
                    Scenario.env_up w1) in
  map Payment.status (payments w1) = ["completed"]
  /\ map Payment.completedAt (payments w1) = [Some 1000]
  /\ map Payment.status (payments w2) = ["completed"]
  /\ map Payment.completedAt (payments w2) = [Some 1001]
  /\ payments w2' = payments w1.
Proof. cbv zeta. repeat split. Qed.

(** ** Creating a Payment *)

Lemma strict_eq_neq (a b : option string) : a <> b -> strict_eq a b = false.
Proof.
  destruct a as [x|], b as [y|]; simpl; intros H; try reflexivity.
  - destruct (String.eqb_spec x y); [subst; contradiction | reflexivity].
  - contradiction.
Qed.

Lemma strict_eq_eq (a b : option string) : strict_eq a b = true -> a = b.
Proof.
  destruct a as [x|], b as [y|]; simpl; intros H; try discriminate.
  - apply String.eqb_eq in H. now subst.
  - reflexivity.
Qed.

(** A document without [paymentId] does not pass validation. *)
Lemma validate_unreferenced (doc : Payment.t) :
  truthy (Payment.paymentId doc) = false ->
  PaymentModel.validate doc =
    Throw (validationMessage "Payment" (PaymentModel.schemaErrors doc)).
Proof.
  intros H. unfold PaymentModel.validate.
  apply validated_throw with (e := ("paymentId", "Payment ID is required")).
  unfold PaymentModel.schemaErrors, requiredString. rewrite H. now left.
Qed.

(** [new Payment(...)] followed by [save()]: validation runs before the
    pre-save hook that would generate [paymentId], so the save is refused
    and nothing is stored. *)
Lemma create_run (env : Env) (w : World) (order user : ObjectId)
    (amount : Z) (currency method : string)
    (mm : Payment.MobileMoneyDetails) (sd : Payment.StripeDetails) :
  let doc := constructed env w order user amount currency method mm sd in
  create order user amount currency method mm sd env w =
    (Throw (validationMessage "Payment" (PaymentModel.schemaErrors doc)),
     refused doc w).
Proof.
  intros doc.
  unfold create, PaymentModel.new, PaymentModel.save_new, bind, ret, lift,
    journal, new_ObjectId, Date_now.
  cbn -[PaymentModel.validate]. fold (constructed env w order user amount
                                        currency method mm sd). fold doc.
  now rewrite validate_unreferenced by reflexivity.
Qed.

(** The same inside a handler: the steps after the save are not reached. *)
Lemma create_then (A : Type) (env : Env) (w : World) (order user : ObjectId)
    (amount : Z) (currency method : string)
    (mm : Payment.MobileMoneyDetails) (sd : Payment.StripeDetails)
    (k : Payment.t -> M A) :
  let doc := constructed env w order user amount currency method mm sd in
  bind (PaymentModel.new order user amount currency method mm sd)
    (fun payment => bind (PaymentModel.save_new payment) k) env w =
  (Throw (validationMessage "Payment" (PaymentModel.schemaErrors doc)),
   refused doc w).
Proof.
  intros doc.
  pose proof (@create_run env w order user amount currency method mm sd)
    as R. cbv zeta in R. fold doc in R.
  unfold create in R. unfold bind in *.
  destruct (PaymentModel.new order user amount currency method mm sd env w)
    as [[a|e] w1]; [|injection R as -> ->; reflexivity].
  destruct (PaymentModel.save_new a env w1) as [[a'|e'] w2];
    [discriminate R | injection R as -> ->; reflexivity].
Qed.

Lemma truthy_isIn (c : string) (l : list string) :
  isIn c l = true -> isIn "" l = false -> truthy (Some c) = true.
Proof.
  intros H N. cbn. destruct (String.eqb_spec c ""); [subst; congruence|].
  reflexivity.
Qed.

(** The message when the input is valid: the one complaint is the missing
    [paymentId]. *)
Lemma constructed_message (env : Env) (w : World) (order user : ObjectId)
    (amount : Z) (currency method : string)
    (mm : Payment.MobileMoneyDetails) (sd : Payment.StripeDetails) :
  0 <= amount ->
  isIn currency Payment.currency_enum = true ->
  isIn method Payment.method_enum = true ->
  inEnum "mobileMoneyDetails.operator" PaymentModel.operator_enum
    (Payment.operator mm) = [] ->
  validationMessage "Payment"
    (PaymentModel.schemaErrors
       (constructed env w order user amount currency method mm sd))
  = paymentIdRequired.
Proof.
  intros Ha Hc Hm Ho.
  unfold PaymentModel.schemaErrors, constructed.
  cbn [Payment.paymentId Payment.amount Payment.currency Payment.method
       Payment.status Payment.mobileMoneyDetails Payment.settlement
       Payment.settlement_status Payment.default_settlement].
  rewrite Ho. unfold requiredString, atLeast, requiredEnum, inEnum.
  rewrite (@truthy_isIn _ _ Hc eq_refl), (@truthy_isIn _ _ Hm eq_refl), Hc, Hm.
  destruct (Z.ltb_spec amount 0); [lia|].
  reflexivity.
Qed.

(** The message when the amount is negative and the rest is valid. *)
Lemma constructed_message_negative (env : Env) (w : World)
    (order user : ObjectId) (amount : Z) (currency method : string)
    (mm : Payment.MobileMoneyDetails) (sd : Payment.StripeDetails) :
  amount < 0 ->
  isIn currency Payment.currency_enum = true ->
  isIn method Payment.method_enum = true ->
  inEnum "mobileMoneyDetails.operator" PaymentModel.operator_enum
    (Payment.operator mm) = [] ->
  validationMessage "Payment"
    (PaymentModel.schemaErrors
       (constructed env w order user amount currency method mm sd))
  = "Payment validation failed: paymentId: Payment ID is required, amount: Amount cannot be negative".
Proof.
  intros Ha Hc Hm Ho.
  unfold PaymentModel.schemaErrors, constructed.
  cbn [Payment.paymentId Payment.amount Payment.currency Payment.method
       Payment.status Payment.mobileMoneyDetails Payment.settlement
       Payment.settlement_status Payment.default_settlement].
  rewrite Ho. unfold requiredString, atLeast, requiredEnum, inEnum.
  rewrite (@truthy_isIn _ _ Hc eq_refl), (@truthy_isIn _ _ Hm eq_refl), Hc, Hm.
  destruct (Z.ltb_spec amount 0); [|lia].
  reflexivity.
Qed.

(** C9: creating a Payment stores nothing.  [paymentId] is [required] by
    the schema and only generated by the [pre('save')] hook; [save()]
    validates before it runs that hook, so for every input the save of the
    document built by [new Payment(...)] is refused and no record is
    produced.  For the valid input of the failing case the error is
    'Payment validation failed: paymentId: Payment ID is required'. *)
Theorem create_is_refused_for_want_of_a_reference :
  (forall (env : Env) (w : World) (order user : ObjectId) (amount : Z)
          (currency method : string)
          (mm : Payment.MobileMoneyDetails) (sd : Payment.StripeDetails),
      exists e w',
        create order user amount currency method mm sd env w = (Throw e, w')
        /\ payments w' = payments w)
  /\ (let w0 := Scenario.world [] in
      let r := create "o1" "u1" 60000 "XOF" "orange_money"
                 {| Payment.phoneNumber := Some "+33612345678";
                    Payment.operator := Some "orange";
                    Payment.reference := None |}
                 Payment.no_stripe Scenario.env_up w0 in
      fst r
        = Throw "Payment validation failed: paymentId: Payment ID is required"
      /\ payments (snd r) = []).
Proof.
  split.
  - intros. do 2 eexists. rewrite create_run. split; reflexivity.
  - cbv zeta. rewrite create_run. cbn [fst snd].
    rewrite constructed_message by (reflexivity || lia).
    split; reflexivity.
Qed.

(** ** Initiation *)

Section TransportDown.
Variable env : Env.
Hypothesis down : forall r, exists e, axios env r = Throw e.

Lemma orange_initiatePayment_down (amount : Z)
    (currency phoneNumber : string) (reference : option string)
    (w : World) :
  OrangeMoneyAPI.initiatePayment amount currency phoneNumber reference
    env w = (Throw "Failed to initiate Orange Money payment", w).
Proof.
  unfold OrangeMoneyAPI.initiatePayment, OrangeMoneyAPI.getAccessToken,
    tryCatch, bind, http, lift, throw.
  match goal with
  | |- context [axios env ?r] => destruct (down r) as [e ->]
  end. reflexivity.
Qed.

Lemma mtn_requestPayment_down (amount : Z)
    (currency phoneNumber : string) (reference : option string)
    (w : World) :
  MTNMoneyAPI.requestPayment amount currency phoneNumber reference
    env w = (Throw "Failed to initiate MTN Money payment", w).
Proof.
  unfold MTNMoneyAPI.requestPayment, MTNMoneyAPI.getAccessToken,
    tryCatch, bind, http, lift, throw.
  match goal with
  | |- context [axios env ?r] => destruct (down r) as [e ->]
  end. reflexivity.
Qed.

Lemma orange_checkPaymentStatus_down (transactionId : string) (w : World) :
  OrangeMoneyAPI.checkPaymentStatus transactionId env w =
    (Throw "Failed to check Orange Money payment status", w).
Proof.
  unfold OrangeMoneyAPI.checkPaymentStatus, OrangeMoneyAPI.getAccessToken,
    tryCatch, bind, http, lift, throw.
  match goal with
  | |- context [axios env ?r] => destruct (down r) as [e ->]
  end. reflexivity.
Qed.

Lemma mtn_checkPaymentStatus_down (transactionId : string) (w : World) :
  MTNMoneyAPI.checkPaymentStatus transactionId env w =
    (Throw "Failed to check MTN Money payment status", w).
Proof.
  unfold MTNMoneyAPI.checkPaymentStatus, MTNMoneyAPI.getAccessToken,
    tryCatch, bind, http, lift, throw.
  match goal with
  | |- context [axios env ?r] => destruct (down r) as [e ->]
  end. reflexivity.
Qed.

End TransportDown.

Lemma orElse_validationMessage (model : string)
    (errs : list ValidationError) (fallback : string) :
  model <> "" ->
  orElse (validationMessage model errs) fallback
  = validationMessage model errs.
Proof.
  intros H. unfold orElse, validationMessage.
  destruct model as [|c rest]; [contradiction | reflexivity].
Qed.

(** The mobile-money routes past their two guards: the Payment is built,
    its save is refused, and the catch block answers 500 with the
    validation message.  The gateway client is not reached. *)
Lemma orangeMoneyInitiate_run (env : Env) (w : World)
    (req : Request InitiateBody) :
  errors req = [] ->
  notOwnOrder (find (fun x => String.eqb (Order._id x) (orderId (body req)))
                 (orders w)) (user_id req) = false ->
  let doc :=
    constructed env w (orderId (body req)) (user_id req)
      (amount (body req)) "XOF" "orange_money"
      {| Payment.phoneNumber := Some (phoneNumber (body req));
         Payment.operator := Some "orange";
         Payment.reference := None |} Payment.no_stripe in
  orangeMoneyInitiate req env w =
    (Ok {| code := 500;
           json := JsonFailure
                     (validationMessage "Payment"
                        (PaymentModel.schemaErrors doc)) |},
     refused doc w).
Proof.
  intros He Ho doc. unfold orangeMoneyInitiate. rewrite He.
  cbn [isEmpty negb]. unfold bind at 1, OrderModel.findById at 1.
  rewrite Ho. unfold tryCatch. rewrite create_then. fold doc.
  unfold respond, ret.
  now rewrite orElse_validationMessage by discriminate.
Qed.

Lemma mtnMoneyInitiate_run (env : Env) (w : World)
    (req : Request InitiateBody) :
  errors req = [] ->
  notOwnOrder (find (fun x => String.eqb (Order._id x) (orderId (body req)))
                 (orders w)) (user_id req) = false ->
  let doc :=
    constructed env w (orderId (body req)) (user_id req)
      (amount (body req)) "XOF" "mtn_money"
      {| Payment.phoneNumber := Some (phoneNumber (body req));
         Payment.operator := Some "mtn";
         Payment.reference := None |} Payment.no_stripe in
  mtnMoneyInitiate req env w =
    (Ok {| code := 500;
           json := JsonFailure
                     (validationMessage "Payment"
                        (PaymentModel.schemaErrors doc)) |},
     refused doc w).
Proof.
  intros He Ho doc. unfold mtnMoneyInitiate. rewrite He.
  cbn [isEmpty negb]. unfold bind at 1, OrderModel.findById at 1.
  rewrite Ho. unfold tryCatch. rewrite create_then. fold doc.
  unfold respond, ret.
  now rewrite orElse_validationMessage by discriminate.
Qed.

(** The card route past its two guards: Stripe is asked for an intent
    first; whether it makes one or not, the answer is the same 500. *)
Lemma stripeCreateIntent_run (env : Env) (w : World)
    (req : Request IntentBody) :
  errors req = [] ->
  notOwnOrder (find (fun x => String.eqb (Order._id x)
                                (ib_orderId (body req))) (orders w))
    (user_id req) = false ->
  stripeCreateIntent req env w =
    (Ok {| code := 500; json := JsonFailure "Failed to create payment intent" |},
     match paymentIntents_create env (ib_amount (body req) * 100)
             (toLowerCase (ib_currency (body req))) (ib_orderId (body req))
             (user_id req) with
     | Ok intent =>
         refused
           (constructed env w (ib_orderId (body req)) (user_id req)
              (ib_amount (body req)) (ib_currency (body req)) "stripe"
              Payment.no_mobileMoney
              {| Payment.paymentIntentId := jget "id" intent;
                 Payment.chargeId := None; Payment.receiptUrl := None |}) w
     | Throw _ => w
     end).
Proof.
  intros He Ho. unfold stripeCreateIntent. rewrite He.
  cbn [isEmpty negb]. unfold bind at 1, OrderModel.findById at 1.
  rewrite Ho. unfold tryCatch. unfold bind at 1, lift at 1.
  destruct (paymentIntents_create env _ _ _ _) as [intent|e];
    [|reflexivity].
  now rewrite create_then.
Qed.

(** Every answer of an initiation route: 400, 404 or 500, and no Payment
    stored. *)
Lemma orangeMoneyInitiate_answer (env : Env) (w : World)
    (req : Request InitiateBody) :
  exists r w',
    orangeMoneyInitiate req env w = (Ok r, w')
    /\ (code r = 400 \/ code r = 404 \/ code r = 500)
    /\ payments w' = payments w /\ orders w' = orders w.
Proof.
  destruct (errors req) as [|e rest] eqn:He.
  2: { unfold orangeMoneyInitiate. rewrite He. do 2 eexists.
       split; [reflexivity|]. cbn. auto. }
  destruct (notOwnOrder
              (find (fun x => String.eqb (Order._id x) (orderId (body req)))
                 (orders w)) (user_id req)) eqn:Ho.
  - unfold orangeMoneyInitiate, bind, OrderModel.findById. rewrite He.
    cbn [isEmpty negb]. rewrite Ho. do 2 eexists.
    split; [reflexivity|]. cbn. auto.
  - rewrite (orangeMoneyInitiate_run env w req He Ho). do 2 eexists.
    split; [reflexivity|]. cbn. auto.
Qed.

Lemma mtnMoneyInitiate_answer (env : Env) (w : World)
    (req : Request InitiateBody) :
  exists r w',
    mtnMoneyInitiate req env w = (Ok r, w')
    /\ (code r = 400 \/ code r = 404 \/ code r = 500)
    /\ payments w' = payments w /\ orders w' = orders w.
Proof.
  destruct (errors req) as [|e rest] eqn:He.
  2: { unfold mtnMoneyInitiate. rewrite He. do 2 eexists.
       split; [reflexivity|]. cbn. auto. }
  destruct (notOwnOrder
              (find (fun x => String.eqb (Order._id x) (orderId (body req)))
                 (orders w)) (user_id req)) eqn:Ho.
  - unfold mtnMoneyInitiate, bind, OrderModel.findById. rewrite He.
    cbn [isEmpty negb]. rewrite Ho. do 2 eexists.
    split; [reflexivity|]. cbn. auto.
  - rewrite (mtnMoneyInitiate_run env w req He Ho). do 2 eexists.
    split; [reflexivity|]. cbn. auto.
Qed.

Lemma stripeCreateIntent_answer (env : Env) (w : World)
    (req : Request IntentBody) :
  exists r w',
    stripeCreateIntent req env w = (Ok r, w')
    /\ (code r = 400 \/ code r = 404 \/ code r = 500)
    /\ payments w' = payments w /\ orders w' = orders w.
Proof.
  destruct (errors req) as [|e rest] eqn:He.
  2: { unfold stripeCreateIntent. rewrite He. do 2 eexists.
       split; [reflexivity|]. cbn. auto. }
  destruct (notOwnOrder
              (find (fun x => String.eqb (Order._id x)
                                (ib_orderId (body req))) (orders w))
              (user_id req)) eqn:Ho.
  - unfold stripeCreateIntent, bind, OrderModel.findById. rewrite He.
    cbn [isEmpty negb]. rewrite Ho. do 2 eexists.
    split; [reflexivity|]. cbn. auto.
  - rewrite (stripeCreateIntent_run env w req He Ho). do 2 eexists.
    split; [reflexivity|]. cbn [code].
    split; [auto|]. now destruct (paymentIntents_create env _ _ _ _).
Qed.




(** C6.  A paid Order is never given a Payment.  Whatever the request and
    whatever the providers answer, an initiation that names an Order
    already marked paid is answered with an error and stores no Payment,
    on each of the three routes: 400 when the request validators object,
    404 'Order not found' when the Order is not the caller's, and 500 for a
    valid request of the Order's buyer.  No route accepts an Order that is
    missing or belongs to another user: a valid request for one is answered
    404 and changes nothing.  (No route reads [paymentStatus]: the request
    of the buyer ends in the 500 of the refused save, as it does for an
    Order that is not paid.) *)
Theorem paid_order_is_never_given_a_payment (env : Env) (w : World) :
  let rejected (out : result Response * World) :=
    exists r,
      fst out = Ok r
      /\ (code r = 400 \/ code r = 404 \/ code r = 500)
      /\ payments (snd out) = payments w
      /\ orders (snd out) = orders w in
  (forall (o : Order.t) (req : Request InitiateBody),
      In o (orders w) ->
      Order.paymentStatus o = "paid" ->
      orderId (body req) = Order._id o ->
      rejected (orangeMoneyInitiate req env w)
      /\ rejected (mtnMoneyInitiate req env w))
  /\ (forall (o : Order.t) (req : Request IntentBody),
      In o (orders w) ->
      Order.paymentStatus o = "paid" ->
      ib_orderId (body req) = Order._id o ->
      rejected (stripeCreateIntent req env w))
  /\ (forall (o : Order.t) (req : Request InitiateBody),
      errors req = [] ->
      find (fun x => String.eqb (Order._id x) (orderId (body req)))
        (orders w) = Some o ->
      Order.paymentStatus o = "paid" ->
      Order.buyer o = user_id req ->
      option_map code
        (match fst (orangeMoneyInitiate req env w) with
         | Ok r => Some r
         | Throw _ => None
         end) = Some 500
      /\ option_map code
           (match fst (mtnMoneyInitiate req env w) with
            | Ok r => Some r
            | Throw _ => None
            end) = Some 500)
  /\ (forall (o : Order.t) (req : Request IntentBody),
      errors req = [] ->
      find (fun x => String.eqb (Order._id x) (ib_orderId (body req)))
        (orders w) = Some o ->
      Order.paymentStatus o = "paid" ->
      Order.buyer o = user_id req ->
      fst (stripeCreateIntent req env w) =
        Ok {| code := 500; json := JsonFailure "Failed to create payment intent" |})
  /\ (forall req : Request InitiateBody,
      errors req = [] ->
      notOwnOrder
        (find (fun x => String.eqb (Order._id x) (orderId (body req)))
           (orders w)) (user_id req) = true ->
      orangeMoneyInitiate req env w =
        (Ok {| code := 404; json := JsonFailure "Order not found" |}, w)
      /\ mtnMoneyInitiate req env w =
        (Ok {| code := 404; json := JsonFailure "Order not found" |}, w))
  /\ (forall req : Request IntentBody,
      errors req = [] ->
      notOwnOrder
        (find (fun x => String.eqb (Order._id x) (ib_orderId (body req)))
           (orders w)) (user_id req) = true ->
      stripeCreateIntent req env w =
        (Ok {| code := 404; json := JsonFailure "Order not found" |}, w)).
Proof.
  intros rejected. unfold rejected.
  split; [|split; [|split; [|split; [|split]]]].
  - intros o req _ _ _. split.
    + destruct (orangeMoneyInitiate_answer env w req)
        as (r & w' & -> & H). now exists r.
    + destruct (mtnMoneyInitiate_answer env w req)
        as (r & w' & -> & H). now exists r.
  - intros o req _ _ _.
    destruct (stripeCreateIntent_answer env w req)
      as (r & w' & -> & H). now exists r.
  - intros o req He Ho _ Hb.
    assert (Hown : notOwnOrder
                     (find (fun x => String.eqb (Order._id x)
                                       (orderId (body req))) (orders w))
                     (user_id req) = false).
    { rewrite Ho. unfold notOwnOrder. now rewrite Hb, String.eqb_refl. }
    rewrite (orangeMoneyInitiate_run env w req He Hown),
      (mtnMoneyInitiate_run env w req He Hown).
    split; reflexivity.
  - intros o req He Ho _ Hb.
    assert (Hown : notOwnOrder
                     (find (fun x => String.eqb (Order._id x)
                                       (ib_orderId (body req))) (orders w))
                     (user_id req) = false).
    { rewrite Ho. unfold notOwnOrder. now rewrite Hb, String.eqb_refl. }
    now rewrite (stripeCreateIntent_run env w req He Hown).
  - intros req He Hn.
    unfold orangeMoneyInitiate, mtnMoneyInitiate. rewrite He.
    cbn [isEmpty negb]. unfold bind, OrderModel.findById. rewrite Hn.
    split; reflexivity.
  - intros req He Hn.
    unfold stripeCreateIntent. rewrite He.
    cbn [isEmpty negb]. unfold bind, OrderModel.findById. now rewrite Hn.
Qed.

Lemma paid_order_is_never_given_a_payment_witness :
  Order.paymentStatus Scenario.order_paid = "paid"
  /\ option_map code
       (match fst (orangeMoneyInitiate (Scenario.initiate "o2")
                     Scenario.env_up (Scenario.world [])) with
        | Ok r => Some r
        | Throw _ => None
        end) = Some 500
  /\ payments (snd (orangeMoneyInitiate (Scenario.initiate "o2")
                      Scenario.env_up (Scenario.world []))) = []
  /\ orangeMoneyInitiate
       (Scenario.request "u2"
          {| amount := 60000; phoneNumber := "+33612345678";
             orderId := "o2" |})
       Scenario.env_up (Scenario.world []) =
     (Ok {| code := 404; json := JsonFailure "Order not found" |},
      Scenario.world []).
Proof.
  split; [reflexivity|].
  destruct (@paid_order_is_never_given_a_payment Scenario.env_up
              (Scenario.world []))
    as (H1 & _ & H3 & _ & H5 & _).
  split; [|split].
  - exact (proj1 (H3 Scenario.order_paid (Scenario.initiate "o2")
                    eq_refl eq_refl eq_refl eq_refl)).
  - destruct (proj1 (H1 Scenario.order_paid (Scenario.initiate "o2")
                       ltac:(right; left; reflexivity) eq_refl eq_refl))
      as (r & _ & _ & Hp & _). exact Hp.
  - exact (proj1 (H5 (Scenario.request "u2"
                        {| amount := 60000; phoneNumber := "+33612345678";
                           orderId := "o2" |}) eq_refl eq_refl)).
Defined.

(** ** A Hoare logic for handlers *)

Section Hoare.
Variable env : Env.

Lemma hoare_conseq (A : Type) (P P' : World -> Prop) (c : M A)
    (Q Q' : result A -> World -> Prop) :
  hoare env P' c Q' ->
  (forall w, P w -> P' w) ->
  (forall r w, Q' r w -> Q r w) ->
  hoare env P c Q.
Proof. unfold hoare. intros H HP HQ w Hw. auto. Qed.

Lemma hoare_ret (A : Type) (a : A) (P : World -> Prop)
    (Q : result A -> World -> Prop) :
  (forall w, P w -> Q (Ok a) w) -> hoare env P (ret a) Q.
Proof. unfold hoare, ret. simpl. auto. Qed.

Lemma hoare_respond (c : Z) (b : Body) (P : World -> Prop)
    (Q : result Response -> World -> Prop) :
  (forall w, P w -> Q (Ok {| code := c; json := b |}) w) ->
  hoare env P (respond c b) Q.
Proof. apply hoare_ret. Qed.

Lemma hoare_throw (A : Type) (e : string) (P : World -> Prop)
    (Q : result A -> World -> Prop) :
  (forall w, P w -> Q (Throw e) w) -> hoare env P (throw e) Q.
Proof. unfold hoare, throw. simpl. auto. Qed.

Lemma hoare_bind (A B : Type) (c : M A) (k : A -> M B)
    (P : World -> Prop) (Q : result A -> World -> Prop)
    (R : result B -> World -> Prop) :
  hoare env P c Q ->
  (forall a, hoare env (Q (Ok a)) (k a) R) ->
  (forall e w, Q (Throw e) w -> R (Throw e) w) ->
  hoare env P (bind c k) R.
Proof.
  unfold hoare, bind. intros Hc Hk He w Hw. specialize (Hc w Hw).
  destruct (c env w) as [[a|e] w1]; simpl in *.
  - now apply Hk.
  - now apply He.
Qed.

Lemma hoare_tryCatch (A : Type) (c : M A) (h : string -> M A)
    (P : World -> Prop) (Q R : result A -> World -> Prop) :
  hoare env P c Q ->
  (forall a w, Q (Ok a) w -> R (Ok a) w) ->
  (forall e, hoare env (Q (Throw e)) (h e) R) ->
  hoare env P (tryCatch c h) R.
Proof.
  unfold hoare, tryCatch. intros Hc Hok Hh w Hw. specialize (Hc w Hw).
  destruct (c env w) as [[a|e] w1]; simpl in *.
  - now apply Hok.
  - now apply Hh.
Qed.

Lemma hoare_frame (A : Type) (c : M A) (I : World -> Prop) :
  storeOnly I ->
  (forall w, payments (snd (c env w)) = payments w) ->
  hoare env I c (fun _ w' => I w').
Proof. unfold hoare. intros HI Hc w Hw. exact (HI w _ (Hc w) Hw). Qed.

End Hoare.

(** ** What each step does to the Payments collection *)

Ltac case_match :=
  match goal with
  | |- context [match ?x with _ => _ end] => destruct x eqn:?
  end.

Lemma save_payments (doc : Payment.t) (env : Env) (w : World) :
  payments (snd (PaymentModel.save doc env w)) = payments w
  \/ payments (snd (PaymentModel.save doc env w))
     = PaymentModel.replaceById doc (payments w).
Proof.
  unfold PaymentModel.save, bind, journal. cbn.
  case_match; [|now left].
  case_match; [|now left].
  case_match; [now left | now right].
Qed.


Lemma new_run (env : Env) (w : World) (order user : ObjectId) (amount : Z)
    (currency method : string) (mm : Payment.MobileMoneyDetails)
    (sd : Payment.StripeDetails) :
  exists doc w',
    PaymentModel.new order user amount currency method mm sd env w
      = (Ok doc, w')
    /\ payments w' = payments w
    /\ Payment.status doc = "pending".
Proof. do 2 eexists. repeat split. Qed.

Lemma confirmOrder_payments (ref : ObjectId) (env : Env) (w : World) :
  payments (snd (confirmOrder ref env w)) = payments w.
Proof.
  destruct (find (fun x => String.eqb (Order._id x) ref) (orders w))
    as [o|] eqn:Hf.
  - now destruct (confirmOrder_saves env w ref Hf).
  - now rewrite confirmOrder_missing.
Qed.


Lemma orange_initiatePayment_frame (env : Env) (w : World) (amount : Z)
    (currency phoneNumber : string) (reference : option string) :
  snd (OrangeMoneyAPI.initiatePayment amount currency phoneNumber reference
         env w) = w.
Proof.
  unfold OrangeMoneyAPI.initiatePayment, OrangeMoneyAPI.getAccessToken,
    tryCatch, bind, http, lift, throw, ret.
  destruct (axios env _); [|reflexivity]. now destruct (axios env _).
Qed.

Lemma orange_checkPaymentStatus_frame (env : Env) (w : World)
    (transactionId : string) :
  snd (OrangeMoneyAPI.checkPaymentStatus transactionId env w) = w.
Proof.
  unfold OrangeMoneyAPI.checkPaymentStatus, OrangeMoneyAPI.getAccessToken,
    tryCatch, bind, http, lift, throw, ret.
  destruct (axios env _); [|reflexivity]. now destruct (axios env _).
Qed.

Lemma mtn_checkPaymentStatus_frame (env : Env) (w : World)
    (transactionId : string) :
  snd (MTNMoneyAPI.checkPaymentStatus transactionId env w) = w.
Proof.
  unfold MTNMoneyAPI.checkPaymentStatus, MTNMoneyAPI.getAccessToken,
    tryCatch, bind, http, lift, throw, ret.
  destruct (axios env _); [|reflexivity]. now destruct (axios env _).
Qed.

Lemma mtn_requestPayment_frame (env : Env) (w : World) (amount : Z)
    (currency phoneNumber : string) (reference : option string) :
  payments (snd (MTNMoneyAPI.requestPayment amount currency phoneNumber
                   reference env w)) = payments w.
Proof.
  unfold MTNMoneyAPI.requestPayment, MTNMoneyAPI.getAccessToken,
    tryCatch, bind, http, lift, throw, ret, Date_now, Math_random36.
  destruct (axios env _); [|reflexivity]. cbn. now destruct (axios env _).
Qed.

Lemma checkGateway_frame (env : Env) (w : World) (p : Payment.t) :
  snd (checkGateway p env w) = w.
Proof.
  unfold checkGateway.
  destruct (_ && _).
  { destruct (Payment.transactionId _); [|reflexivity].
    unfold bind.
    pose proof (orange_checkPaymentStatus_frame env w s) as F.
    destruct (OrangeMoneyAPI.checkPaymentStatus s env w) as [[a|e] w1];
      exact F. }
  destruct (_ && _).
  { destruct (Payment.transactionId _); [|reflexivity].
    unfold bind.
    pose proof (mtn_checkPaymentStatus_frame env w s) as F.
    destruct (MTNMoneyAPI.checkPaymentStatus s env w) as [[a|e] w1];
      exact F. }
  destruct (_ && _); [|reflexivity].
  destruct (Payment.paymentIntentId _); [|reflexivity].
  unfold bind, lift. now destruct (paymentIntents_retrieve env s).
Qed.

(** With no provider reachable, the gateway lookup of the status route
    either is skipped or throws. *)
Lemma checkGateway_down (env : Env) (w : World) (p : Payment.t) :
  transportDown env ->
  fst (checkGateway p env w) = Ok None
  \/ exists e, fst (checkGateway p env w) = Throw e.
Proof.
  intros (Hax & Hst & _). unfold checkGateway.
  destruct (_ && _).
  { destruct (Payment.transactionId _); [|now left]. right.
    unfold bind. rewrite orange_checkPaymentStatus_down by assumption.
    eexists; reflexivity. }
  destruct (_ && _).
  { destruct (Payment.transactionId _); [|now left]. right.
    unfold bind. rewrite mtn_checkPaymentStatus_down by assumption.
    eexists; reflexivity. }
  destruct (_ && _); [|now left].
  destruct (Payment.paymentIntentId _); [|now left]. right.
  unfold bind, lift. destruct (Hst s) as [e ->]. eexists; reflexivity.
Qed.

(** ** Invariants of the Payments collection *)

Lemma noNewFailure_refl (w : World) : noNewFailure w w.
Proof. intros p Hp _. exact Hp. Qed.

Lemma noNewFailure_storeOnly (w0 : World) : storeOnly (noNewFailure w0).
Proof. intros w w' E H p Hp. rewrite E in Hp. now apply H. Qed.

Lemma noNewFailure_append (w0 w w' : World) (doc : Payment.t) :
  Payment.status doc <> "failed" ->
  payments w' = payments w ++ [doc] ->
  noNewFailure w0 w -> noNewFailure w0 w'.
Proof.
  intros Hd E H p Hp Hs. rewrite E in Hp. apply in_app_or in Hp.
  destruct Hp as [Hp|[<-|[]]]; [now apply H | contradiction].
Qed.

Lemma noNewFailure_replace (w0 w w' : World) (doc : Payment.t) :
  Payment.status doc <> "failed" ->
  payments w' = PaymentModel.replaceById doc (payments w) ->
  noNewFailure w0 w -> noNewFailure w0 w'.
Proof.
  intros Hd E H p Hp Hs. rewrite E in Hp. apply In_replaceById in Hp.
  destruct Hp as [->|Hp]; [contradiction | now apply H].
Qed.


Lemma onlyAddedPending_refl (w : World) : onlyAddedPending w w.
Proof. exists []. split; [now rewrite app_nil_r | constructor]. Qed.

Lemma onlyAddedPending_pendingClosed (w0 : World) :
  pendingClosed (onlyAddedPending w0).
Proof.
  split.
  - intros w w' E (added & H1 & H2). exists added. now rewrite E.
  - intros w w' doc Hs E (added & H1 & H2). exists (added ++ [doc]).
    split; [now rewrite E, H1, app_assoc|].
    apply Forall_app. split; [exact H2 | now constructor].
Qed.


Lemma noNewFailure_writeClosed (w0 : World) :
  writeClosed (fun s => s <> "failed") (noNewFailure w0).
Proof.
  split; [apply noNewFailure_storeOnly|]. split.
  - intros w w' doc Hd E. exact (@noNewFailure_append w0 w w' doc Hd E).
  - intros w w' doc Hd E. exact (@noNewFailure_replace w0 w w' doc Hd E).
Qed.

Lemma keepsRecords_refl (w : World) : keepsRecords w w.
Proof. intros id H. exact H. Qed.

Lemma keepsRecords_writeClosed (w0 : World) :
  writeClosed (fun _ => True) (keepsRecords w0).
Proof.
  split; [|split].
  - intros w w' E H id Hid. rewrite E. now apply H.
  - intros w w' doc _ E H id Hid. rewrite E, map_app.
    apply in_or_app. left. now apply H.
  - intros w w' doc _ E H id Hid. rewrite E, ids_replaceById. now apply H.
Qed.

(** ** Hoare rules for the steps *)

Lemma save_new_cases (doc : Payment.t) (env : Env) (w : World) :
  (exists e w',
      PaymentModel.save_new doc env w = (Throw e, w')
      /\ payments w' = payments w)
  \/ (exists doc' w',
      PaymentModel.save_new doc env w = (Ok doc', w')
      /\ payments w' = payments w ++ [doc']
      /\ Payment.status doc' = Payment.status doc).
Proof.
  unfold PaymentModel.save_new, bind, journal, lift, Date_now.
  cbn -[PaymentModel.validate].
  destruct (PaymentModel.validate doc);
    [|left; do 2 eexists; split; reflexivity]. cbn.
  unfold PaymentModel.preSave, bind, ret, Date_now, Math_random36.
  destruct (true && _); cbn; case_match; cbn;
    try (left; do 2 eexists; split; reflexivity);
    right; do 2 eexists; repeat split; reflexivity.
Qed.

Section HoareSteps.
Variable env : Env.

Lemma hoare_create_then (A : Type) (I : World -> Prop)
    (order user : ObjectId) (amount : Z) (currency method : string)
    (mm : Payment.MobileMoneyDetails) (sd : Payment.StripeDetails)
    (k : Payment.t -> M A) (R : result A -> World -> Prop) :
  pendingClosed I ->
  (forall a, Payment.status a = "pending" -> hoare env I (k a) R) ->
  (forall e w, I w -> R (Throw e) w) ->
  hoare env I
    (bind (PaymentModel.new order user amount currency method mm sd)
       (fun payment => bind (PaymentModel.save_new payment) k)) R.
Proof.
  intros [Hso Hap] Hk He w Hw. unfold bind.
  destruct (new_run env w order user amount currency method mm sd)
    as (doc & w1 & -> & Hp1 & Hs1).
  assert (Hw1 : I w1) by exact (Hso w w1 Hp1 Hw).
  destruct (save_new_cases doc env w1)
    as [(e & w2 & -> & Hp2)|(doc' & w2 & -> & Hp2 & Hs2)].
  - cbn. apply He. exact (Hso w1 w2 Hp2 Hw1).
  - apply Hk; [congruence|]. exact (Hap w1 w2 doc' ltac:(congruence) Hp2 Hw1).
Qed.

(** The validation and ownership guards of an initiation route. *)
Lemma hoare_guarded (I : World -> Prop) (invalid : bool)
    (orderId user : ObjectId) (r400 r404 : M Response) (body : M Response) :
  storeOnly I ->
  hoare env I r400 (fun _ w => I w) ->
  hoare env I r404 (fun _ w => I w) ->
  hoare env I body (fun _ w => I w) ->
  hoare env I
    (if invalid then r400
     else bind (OrderModel.findById orderId)
            (fun order => if notOwnOrder order user then r404 else body))
    (fun _ w => I w).
Proof.
  intros Hso H400 H404 Hb. destruct invalid; [exact H400|].
  apply hoare_bind with (Q := fun _ w => I w).
  - apply hoare_frame; [exact Hso | reflexivity].
  - intros order. destruct (notOwnOrder order user); assumption.
  - auto.
Qed.

Section Closed.
Variables (ok : string -> Prop) (I : World -> Prop).
Hypothesis closed : writeClosed ok I.

Lemma writeClosed_pendingClosed : ok "pending" -> pendingClosed I.
Proof.
  destruct closed as (Hso & Hap & _). intros Hp. split; [exact Hso|].
  intros w w' doc Hs. apply Hap. now rewrite Hs.
Qed.

Lemma hoare_save_closed (doc : Payment.t) :
  ok (Payment.status doc) ->
  hoare env I (PaymentModel.save doc) (fun _ w => I w).
Proof.
  destruct closed as (Hso & _ & Hre).
  intros Hd w Hw. destruct (save_payments doc env w) as [E|E].
  - exact (Hso w _ E Hw).
  - exact (Hre w _ doc Hd E Hw).
Qed.

Lemma hoare_markCompleted_closed (p : Payment.t)
    (gatewayResponse : JObject) :
  ok "completed" ->
  hoare env I (PaymentModel.markCompleted gatewayResponse p)
    (fun _ w => I w).
Proof.
  intros Hc. unfold PaymentModel.markCompleted.
  apply hoare_bind with (Q := fun _ w => I w).
  - apply hoare_frame; [apply closed | reflexivity].
  - intros now. apply hoare_save_closed. exact Hc.
  - auto.
Qed.

Lemma hoare_markFailed_closed (p : Payment.t) (message : string)
    (gatewayResponse : JObject) :
  ok "failed" ->
  hoare env I (PaymentModel.markFailed message gatewayResponse p)
    (fun _ w => I w).
Proof.
  intros Hf w Hw.
  unfold PaymentModel.markFailed, PaymentModel.push_attempt, bind, ret,
    Date_now.
  cbn -[PaymentModel.save].
  match goal with
  | |- I (snd (PaymentModel.save ?d env ?w1)) =>
      apply (@hoare_save_closed d Hf w1)
  end.
  destruct closed as (Hso & _). apply (Hso w); [reflexivity | exact Hw].
Qed.

End Closed.

Lemma hoare_confirmOrder (I : World -> Prop) (ref : ObjectId) :
  storeOnly I -> hoare env I (confirmOrder ref) (fun _ w => I w).
Proof.
  intros Hso. apply hoare_frame; [exact Hso|].
  intros w. apply confirmOrder_payments.
Qed.

End HoareSteps.

(** ** What the handlers preserve *)

Section Preserved.
Variables (env : Env) (ok : string -> Prop) (J : World -> Prop).
Hypothesis closed : writeClosed ok J.
Hypothesis ok_pending : ok "pending".
Hypothesis ok_processing : ok "processing".
Hypothesis ok_completed : ok "completed".

Let Hso : storeOnly J := proj1 closed.

Ltac frame_step :=
  apply hoare_frame;
  [exact Hso
  | intros; first [ reflexivity
                  | now rewrite orange_initiatePayment_frame
                  | apply mtn_requestPayment_frame
                  | now rewrite checkGateway_frame ] ].

Ltac done_step := first [apply hoare_respond | apply hoare_ret]; auto.

Lemma orangeMoneyInitiate_preserves (req : Request InitiateBody) :
  hoare env J (orangeMoneyInitiate req) (fun _ w => J w).
Proof.
  unfold orangeMoneyInitiate. cbv zeta.
  apply hoare_guarded;
    [exact Hso | done_step | done_step |].
  apply hoare_tryCatch with (Q := fun _ w => J w); [|auto|intros; done_step].
  apply hoare_create_then;
    [exact (writeClosed_pendingClosed closed ok_pending)| |auto].
  intros a Ha.
  apply hoare_bind with (Q := fun _ w => J w); [frame_step| |auto].
  intros resp.
  apply hoare_bind with (Q := fun _ w => J w); [| intros; done_step | auto].
  apply (hoare_save_closed env closed). exact ok_processing.
Qed.

Lemma mtnMoneyInitiate_preserves (req : Request InitiateBody) :
  hoare env J (mtnMoneyInitiate req) (fun _ w => J w).
Proof.
  unfold mtnMoneyInitiate. cbv zeta.
  apply hoare_guarded;
    [exact Hso | done_step | done_step |].
  apply hoare_tryCatch with (Q := fun _ w => J w); [|auto|intros; done_step].
  apply hoare_create_then;
    [exact (writeClosed_pendingClosed closed ok_pending)| |auto].
  intros a Ha.
  apply hoare_bind with (Q := fun _ w => J w); [frame_step| |auto].
  intros resp.
  apply hoare_bind with (Q := fun _ w => J w); [| intros; done_step | auto].
  apply (hoare_save_closed env closed). exact ok_processing.
Qed.

Lemma stripeCreateIntent_preserves (req : Request IntentBody) :
  hoare env J (stripeCreateIntent req) (fun _ w => J w).
Proof.
  unfold stripeCreateIntent. cbv zeta.
  apply hoare_guarded;
    [exact Hso | done_step | done_step |].
  apply hoare_tryCatch with (Q := fun _ w => J w); [|auto|intros; done_step].
  apply hoare_bind with (Q := fun _ w => J w); [frame_step| |auto].
  intros intent.
  apply hoare_create_then;
    [exact (writeClosed_pendingClosed closed ok_pending)| |auto].
  intros a Ha. done_step.
Qed.

Lemma getStatus_preserves (paymentId : string) (req : Request unit) :
  hoare env J (getStatus paymentId req) (fun _ w => J w).
Proof.
  unfold getStatus.
  apply hoare_bind with (Q := fun _ w => J w); [frame_step| |auto].
  intros [payment|]; [|done_step].
  destruct (negb _); [done_step|].
  apply hoare_tryCatch with (Q := fun _ w => J w); [|auto|intros; done_step].
  apply hoare_bind with (Q := fun _ w => J w); [frame_step| |auto].
  intros gatewayStatus.
  apply hoare_bind with (Q := fun _ w => J w); [|intros; done_step|auto].
  destruct gatewayStatus as [gs|]; [|done_step].
  destruct (_ && _); [|done_step].
  apply hoare_bind with (Q := fun _ w => J w); [frame_step| |auto].
  intros now.
  apply hoare_bind with (Q := fun _ w => J w);
    [apply hoare_confirmOrder, Hso| |auto].
  intros _. apply (hoare_save_closed env closed). exact ok_completed.
Qed.

Lemma webhookOrangeMoney_preserves (req : Request JObject) :
  (jget "status" (body req) = Some "FAILED" -> ok "failed") ->
  hoare env J (webhookOrangeMoney req) (fun _ w => J w).
Proof.
  intros Hst. unfold webhookOrangeMoney. cbv zeta.
  apply hoare_tryCatch with (Q := fun _ w => J w); [|auto|intros; done_step].
  apply hoare_bind with (Q := fun _ w => J w); [frame_step| |auto].
  intros [payment|]; [|done_step].
  apply hoare_bind with (Q := fun _ w => J w); [|intros; done_step|auto].
  destruct (strict_eq _ (Some "SUCCESS")).
  - apply hoare_bind with (Q := fun _ w => J w);
      [apply (hoare_markCompleted_closed env closed), ok_completed| |auto].
    intros p. apply hoare_confirmOrder, Hso.
  - destruct (strict_eq _ (Some "FAILED")) eqn:E; [|done_step].
    apply strict_eq_eq in E.
    apply hoare_bind with (Q := fun _ w => J w); [|intros; done_step|auto].
    apply (hoare_markFailed_closed env closed). exact (Hst E).
Qed.

Lemma webhookStripe_preserves (req : Request string) :
  (forall event,
      constructEvent env (body req) (jget "stripe-signature" (headers req))
        = Ok event ->
      ev_type event = "payment_intent.payment_failed" -> ok "failed") ->
  hoare env J (webhookStripe req) (fun _ w => J w).
Proof.
  intros Hty w Hw. unfold webhookStripe.
  destruct (constructEvent env _ _) as [event|e] eqn:E; [|exact Hw].
  specialize (Hty event eq_refl).
  revert w Hw.
  match goal with
  | |- forall w, J w -> J (snd (?c env w)) =>
      change (hoare env J c (fun _ w => J w))
  end.
  apply hoare_bind with (Q := fun _ w => J w); [|intros; done_step|auto].
  destruct (String.eqb _ "payment_intent.succeeded").
  - apply hoare_bind with (Q := fun _ w => J w); [frame_step| |auto].
    intros [payment|]; [|done_step].
    apply hoare_bind with (Q := fun _ w => J w);
      [apply (hoare_markCompleted_closed env closed), ok_completed| |auto].
    intros p. apply hoare_confirmOrder, Hso.
  - destruct (String.eqb_spec (ev_type event)
                "payment_intent.payment_failed") as [E'|_]; [|done_step].
    apply hoare_bind with (Q := fun _ w => J w); [frame_step| |auto].
    intros [payment|]; [|done_step].
    apply hoare_bind with (Q := fun _ w => J w); [|intros; done_step|auto].
    apply (hoare_markFailed_closed env closed). exact (Hty E').
Qed.

End Preserved.

(** ** Transport errors *)

Section Down.
Variables (env : Env) (w0 : World).
Hypothesis down : transportDown env.

Lemma orangeMoneyInitiate_down (req : Request InitiateBody) :
  hoare env (onlyAddedPending w0) (orangeMoneyInitiate req)
    (fun _ w => onlyAddedPending w0 w).
Proof.
  destruct (onlyAddedPending_pendingClosed w0) as [Hso Hap].
  unfold orangeMoneyInitiate. cbv zeta.
  apply hoare_guarded; [exact Hso | | |];
    try (apply hoare_respond; now auto).
  apply hoare_tryCatch with (Q := fun _ w => onlyAddedPending w0 w);
    [|auto|intros; apply hoare_respond; now auto].
  apply hoare_create_then; [now split| |auto].
  intros a Ha w Hw. unfold bind.
  now rewrite orange_initiatePayment_down by apply down.
Qed.

Lemma mtnMoneyInitiate_down (req : Request InitiateBody) :
  hoare env (onlyAddedPending w0) (mtnMoneyInitiate req)
    (fun _ w => onlyAddedPending w0 w).
Proof.
  destruct (onlyAddedPending_pendingClosed w0) as [Hso Hap].
  unfold mtnMoneyInitiate. cbv zeta.
  apply hoare_guarded; [exact Hso | | |];
    try (apply hoare_respond; now auto).
  apply hoare_tryCatch with (Q := fun _ w => onlyAddedPending w0 w);
    [|auto|intros; apply hoare_respond; now auto].
  apply hoare_create_then; [now split| |auto].
  intros a Ha w Hw. unfold bind.
  now rewrite mtn_requestPayment_down by apply down.
Qed.

Lemma stripeCreateIntent_down (req : Request IntentBody) :
  payments (snd (stripeCreateIntent req env w0)) = payments w0.
Proof.
  unfold stripeCreateIntent.
  destruct (negb _); [reflexivity|]. cbv zeta.
  unfold bind at 1, OrderModel.findById.
  destruct (notOwnOrder _ _); [reflexivity|].
  unfold tryCatch, bind, lift.
  destruct down as (_ & _ & Hc).
  match goal with
  | |- context [paymentIntents_create env ?a ?c ?o ?u] =>
      destruct (Hc a c o u) as [e ->]
  end. reflexivity.
Qed.

Lemma getStatus_down (paymentId : string) (req : Request unit) :
  payments (snd (getStatus paymentId req env w0)) = payments w0
  /\ orders (snd (getStatus paymentId req env w0)) = orders w0.
Proof.
  unfold getStatus, bind, tryCatch, PaymentModel.findOne_paymentId.
  destruct (find _ (payments w0)) as [p|]; [|split; reflexivity].
  destruct (negb _); [split; reflexivity|].
  pose proof (checkGateway_frame env w0 p) as F.
  pose proof (@checkGateway_down env w0 p down) as D.
  destruct (checkGateway p env w0) as [[gs|e] w1]; cbn in F, D; subst w1.
  - destruct D as [D|[e D]]; [|discriminate].
    injection D as ->. split; reflexivity.
  - split; reflexivity.
Qed.

End Down.

(** C4.  A transport error of the provider call is never turned into a
    failed Payment.  With no provider reachable, an initiation route leaves
    every stored Payment as it was and at most adds Payments that are
    [pending] (none for Stripe, whose Payment is created after the provider
    call); the status route leaves both collections unchanged.  And
    whatever the providers answer, no initiation route and no status poll
    ever stores [failed], nor does a webhook whose payload does not report a
    failure ([FAILED] for Orange, [payment_intent.payment_failed] for
    Stripe): only an explicit provider-reported failure moves a Payment to
    failed. *)
Theorem transport_error_never_fails_a_payment (env : Env) (w : World) :
  (transportDown env ->
     (forall req : Request InitiateBody,
         onlyAddedPending w (snd (orangeMoneyInitiate req env w))
         /\ onlyAddedPending w (snd (mtnMoneyInitiate req env w)))
     /\ (forall req : Request IntentBody,
         payments (snd (stripeCreateIntent req env w)) = payments w)
     /\ (forall (paymentId : string) (req : Request unit),
         payments (snd (getStatus paymentId req env w)) = payments w
         /\ orders (snd (getStatus paymentId req env w)) = orders w))
  /\ (forall req : Request InitiateBody,
         noNewFailure w (snd (orangeMoneyInitiate req env w))
         /\ noNewFailure w (snd (mtnMoneyInitiate req env w)))
  /\ (forall req : Request IntentBody,
         noNewFailure w (snd (stripeCreateIntent req env w)))
  /\ (forall (paymentId : string) (req : Request unit),
         noNewFailure w (snd (getStatus paymentId req env w)))
  /\ (forall req : Request JObject,
         jget "status" (body req) <> Some "FAILED" ->
         noNewFailure w (snd (webhookOrangeMoney req env w)))
  /\ (forall req : Request string,
         (forall event,
             constructEvent env (body req)
               (jget "stripe-signature" (headers req)) = Ok event ->
             ev_type event <> "payment_intent.payment_failed") ->
         noNewFailure w (snd (webhookStripe req env w))).
Proof.
  pose proof (noNewFailure_refl w) as J0.
  pose proof (onlyAddedPending_refl w) as I0.
  pose proof (noNewFailure_writeClosed w) as C.
  assert (P1 : "pending" <> "failed") by discriminate.
  assert (P2 : "processing" <> "failed") by discriminate.
  assert (P3 : "completed" <> "failed") by discriminate.
  split; [intros Hd; split; [|split]|repeat split].
  - intros req. split.
    + exact (@orangeMoneyInitiate_down env w Hd req w I0).
    + exact (@mtnMoneyInitiate_down env w Hd req w I0).
  - intros req. now apply stripeCreateIntent_down.
  - intros paymentId req. now apply getStatus_down.
  - exact (@orangeMoneyInitiate_preserves env _ _ C P1 P2 req w J0).
  - exact (@mtnMoneyInitiate_preserves env _ _ C P1 P2 req w J0).
  - intros req.
    exact (@stripeCreateIntent_preserves env _ _ C P1 req w J0).
  - intros paymentId req.
    exact (@getStatus_preserves env _ _ C P3 paymentId req w J0).
  - intros req H.
    apply (@webhookOrangeMoney_preserves env _ _ C P3 req); [|exact J0].
    intros E. contradiction.
  - intros req H.
    apply (@webhookStripe_preserves env _ _ C P3 req); [|exact J0].
    intros event E E'. exfalso. exact (H event E E').
Qed.

Lemma transport_error_never_fails_a_payment_witness :
  transportDown Scenario.env_down
  /\ onlyAddedPending (Scenario.world [Scenario.pay_processing])
       (snd (orangeMoneyInitiate (Scenario.initiate "o1") Scenario.env_down
               (Scenario.world [Scenario.pay_processing])))
  /\ payments (snd (getStatus "PAY_900_a1b2c3d4e" (Scenario.request "u1" tt)
                      Scenario.env_down
                      (Scenario.world [Scenario.pay_processing])))
     = [Scenario.pay_processing].
Proof.
  assert (Hd : transportDown Scenario.env_down)
    by (repeat split; intros; eexists; reflexivity).
  split; [exact Hd|].
  destruct (proj1 (@transport_error_never_fails_a_payment Scenario.env_down
                     (Scenario.world [Scenario.pay_processing])) Hd)
    as (Hi & _ & Hp).
  split.
  - exact (proj1 (Hi (Scenario.initiate "o1"))).
  - exact (proj1 (Hp "PAY_900_a1b2c3d4e" (Scenario.request "u1" tt))).
Defined.

(** ** Webhooks for unknown payments *)

(** C8 (as amended).  A webhook delivery that matches no stored Payment
    changes nothing in either collection.  The Stripe handler answers
    [{ received: true }] with status 200; the Orange handler answers status
    404 with [{ success: false, message: 'Payment not found' }]. *)
Theorem unknown_payment_webhook_changes_nothing (env : Env) (w : World) :
  (forall req : Request JObject,
      find (fun p => strict_eq (Payment.paymentId p)
                       (jget "reference" (body req))) (payments w) = None ->
      webhookOrangeMoney req env w =
        (Ok {| code := 404; json := JsonFailure "Payment not found" |}, w))
  /\ (forall (req : Request string) (event : StripeEvent),
      constructEvent env (body req) (jget "stripe-signature" (headers req))
        = Ok event ->
      find (fun p => strict_eq
                       (Payment.paymentIntentId (Payment.stripeDetails p))
                       (jget "id" (ev_object event))) (payments w) = None ->
      webhookStripe req env w =
        (Ok {| code := 200; json := JsonReceived |}, w)).
Proof.
  split.
  - intros req Hf.
    unfold webhookOrangeMoney, tryCatch, bind,
      PaymentModel.findOne_paymentId.
    now rewrite Hf.
  - intros req event He Hf.
    unfold webhookStripe, bind, PaymentModel.findOne_paymentIntentId.
    rewrite He.
    destruct (String.eqb _ "payment_intent.succeeded");
      [now rewrite Hf|].
    destruct (String.eqb _ "payment_intent.payment_failed");
      [now rewrite Hf | reflexivity].
Qed.

Lemma unknown_payment_webhook_changes_nothing_witness :
  webhookStripe (Scenario.stripe_event "payment_intent.succeeded")
    Scenario.env_up (Scenario.world [Scenario.pay_processing]) =
    (Ok {| code := 200; json := JsonReceived |},
     Scenario.world [Scenario.pay_processing]).
Proof.
  exact (proj2 (@unknown_payment_webhook_changes_nothing Scenario.env_up
                  (Scenario.world [Scenario.pay_processing]))
           (Scenario.stripe_event "payment_intent.succeeded")
           {| ev_type := "payment_intent.succeeded";
              ev_object := [("id", "pi_1")] |} eq_refl eq_refl).
Defined.

(** C8 (as stated) fails.  An Orange webhook whose reference matches no
    stored Payment is answered with status 404 and [success: false], not
    with a success. *)
Lemma unknown_reference_orange_webhook_is_answered_404 :
  webhookOrangeMoney (Scenario.hook "SUCCESS") Scenario.env_up
    (Scenario.world []) =
    (Ok {| code := 404; json := JsonFailure "Payment not found" |},
     Scenario.world []).
Proof. reflexivity. Qed.

(** ** Expiry *)

Lemma markCompleted_expiresAt (env : Env) (w : World) (p pc : Payment.t)
    (gatewayResponse : JObject) :
  fst (PaymentModel.markCompleted gatewayResponse p env w) = Ok pc ->
  Payment.expiresAt pc = Payment.expiresAt p.
Proof.
  unfold PaymentModel.markCompleted, PaymentModel.save, bind, journal,
    Date_now. cbn.
  repeat case_match; cbn; intros H; try discriminate.
  now injection H as <-.
Qed.

Lemma markFailed_expiresAt (env : Env) (w : World) (p pf : Payment.t)
    (message : string) (gatewayResponse : JObject) :
  fst (PaymentModel.markFailed message gatewayResponse p env w) = Ok pf ->
  Payment.expiresAt pf = Payment.expiresAt p.
Proof.
  unfold PaymentModel.markFailed, PaymentModel.push_attempt,
    PaymentModel.save, bind, ret, journal, Date_now. cbn.
  repeat case_match; cbn; intros H; try discriminate.
  now injection H as <-.
Qed.

(** C5 (as amended).  The expiry-based cleanup takes no account of status.
    A Payment is due for removal by the TTL index exactly when its
    [expiresAt] has been reached, whether or not its status is terminal, and
    a pass of the TTL monitor removes exactly those records and touches no
    Order.  [markCompleted] and [markFailed] leave [expiresAt] as it was, so
    reaching a terminal status does not shield a record.  No route handler
    removes a stored Payment. *)
Theorem ttl_purge_ignores_status (env : Env) (w : World) (now : Date) :
  (forall p, PaymentModel.ttl_expired now p = true
             <-> Payment.expiresAt p <= now)
  /\ (forall p, In p (payments (PaymentModel.ttl_sweep now w))
                <-> In p (payments w) /\ now < Payment.expiresAt p)
  /\ orders (PaymentModel.ttl_sweep now w) = orders w
  /\ (forall p pc gatewayResponse,
        fst (PaymentModel.markCompleted gatewayResponse p env w) = Ok pc ->
        Payment.expiresAt pc = Payment.expiresAt p)
  /\ (forall p pf message gatewayResponse,
        fst (PaymentModel.markFailed message gatewayResponse p env w)
          = Ok pf ->
        Payment.expiresAt pf = Payment.expiresAt p)
  /\ (forall req, keepsRecords w (snd (stripeCreateIntent req env w)))
  /\ (forall req, keepsRecords w (snd (orangeMoneyInitiate req env w)))
  /\ (forall req, keepsRecords w (snd (mtnMoneyInitiate req env w)))
  /\ (forall paymentId req,
        keepsRecords w (snd (getStatus paymentId req env w)))
  /\ (forall req, keepsRecords w (snd (webhookOrangeMoney req env w)))
  /\ (forall req, keepsRecords w (snd (webhookStripe req env w))).
Proof.
  assert (E : forall p, PaymentModel.ttl_expired now p = true
                        <-> Payment.expiresAt p <= now).
  { intros p. unfold PaymentModel.ttl_expired, PaymentModel.expireAfterSeconds.
    rewrite Z.leb_le. lia. }
  pose proof (keepsRecords_refl w) as K0.
  pose proof (keepsRecords_writeClosed w) as C.
  split; [exact E|]. split; [|split; [reflexivity|]].
  - intros p. unfold PaymentModel.ttl_sweep. cbn.
    rewrite filter_In, negb_true_iff.
    split; intros [Hin H]; split; try exact Hin.
    + destruct (PaymentModel.ttl_expired now p) eqn:X; [discriminate|].
      destruct (Z.le_gt_cases (Payment.expiresAt p) now) as [L|L]; [|lia].
      apply E in L. congruence.
    + destruct (PaymentModel.ttl_expired now p) eqn:X; [|reflexivity].
      apply E in X. lia.
  - split; [intros p pc gw; apply markCompleted_expiresAt|].
    split; [intros p pf m gw; apply markFailed_expiresAt|].
    repeat split.
    + intros req. exact (@stripeCreateIntent_preserves env _ _ C I req w K0).
    + intros req.
      exact (@orangeMoneyInitiate_preserves env _ _ C I I req w K0).
    + intros req.
      exact (@mtnMoneyInitiate_preserves env _ _ C I I req w K0).
    + intros paymentId req.
      exact (@getStatus_preserves env _ _ C I paymentId req w K0).
    + intros req.
      exact (@webhookOrangeMoney_preserves env _ _ C I req (fun _ => I) w K0).
    + intros req.
      exact (@webhookStripe_preserves env _ _ C I req (fun _ _ _ => I) w K0).
Qed.

(** C5 (as stated) fails.  A completed Payment whose [expiresAt] has been
    reached is due for removal, and a pass of the TTL monitor deletes it. *)
Lemma completed_payment_is_purged_at_expiry :
  terminal (Payment.status Scenario.pay_completed) = true
  /\ Payment.expiresAt Scenario.pay_completed = 1800900
  /\ PaymentModel.ttl_expired 1800900 Scenario.pay_completed = true
  /\ payments (PaymentModel.ttl_sweep 1800900
                 (Scenario.world [Scenario.pay_completed])) = [].
Proof. repeat split. Qed.

(** ** The Orange webhook *)

(** The handler reads nothing of the request but its body: no header, no
    signature, no caller identity. *)
Lemma webhookOrangeMoney_reads_body_only (r1 r2 : Request JObject) :
  body r1 = body r2 -> webhookOrangeMoney r1 = webhookOrangeMoney r2.
Proof. unfold webhookOrangeMoney. now intros ->. Qed.

(** ['paid'] is not a value of the Order schema's [paymentStatus] enum: the
    linkage step is rejected by validation whenever the Order is there,
    whatever it held. *)
Lemma confirmOrder_rejected (env : Env) (w : World) (ref : ObjectId)
    (o : Order.t) :
  find (fun x => String.eqb (Order._id x) ref) (orders w) = Some o ->
  (exists e, fst (confirmOrder ref env w) = Throw e)
  /\ orders (snd (confirmOrder ref env w)) = orders w.
Proof.
  intros Hf. rewrite (@confirmOrder_run env w ref o Hf).
  split; [eexists|]; reflexivity.
Qed.

(** C10: the failing input.  A SUCCESS webhook for a stored Payment linked to
    a stored Order marks the Payment completed, then hands the Order to
    [save()] with [paymentStatus = 'paid'], which the Order schema's enum
    does not allow: the save is rejected, the stored Order is unchanged, and
    the provider is answered 500. *)
Theorem orange_success_webhook_leaves_order_unpaid :
  let w0 := Scenario.world [Scenario.pay_processing] in
  let r := webhookOrangeMoney (Scenario.hook "SUCCESS") Scenario.env_up w0 in
  fst r = Ok {| code := 500; json := JsonFailure "Webhook processing failed" |}
  /\ map Payment.status (payments (snd r)) = ["completed"]
  /\ orderSaves (saves (snd r))
     = [Order.set_status "confirmed"
          (Order.set_paymentStatus "paid" Scenario.order_shipped)]
  /\ isIn "paid" Order.paymentStatus_enum = false
  /\ orders (snd r) = orders w0
  /\ find (fun o => String.eqb (Order._id o) "o1") (orders (snd r))
     = Some Scenario.order_shipped
  /\ Order.paymentStatus Scenario.order_shipped = "pending".
Proof. cbv zeta. repeat split. Qed.

(** * Further properties *)

(** ** Steps that leave the collections alone *)

Lemma untouched_refl (w : World) : untouched w w.
Proof. repeat split. Qed.

Lemma save_orders (doc : Payment.t) (env : Env) (w : World) :
  ordersUntouched w (snd (PaymentModel.save doc env w)).
Proof.
  unfold ordersUntouched, PaymentModel.save, bind, journal. cbn.
  repeat case_match; cbn; rewrite ?orderSaves_app, ?app_nil_r;
    split; reflexivity.
Qed.

Lemma save_new_orders (doc : Payment.t) (env : Env) (w : World) :
  ordersUntouched w (snd (PaymentModel.save_new doc env w)).
Proof.
  unfold ordersUntouched, PaymentModel.save_new, bind, journal, lift,
    Date_now. cbn -[PaymentModel.validate].
  destruct (PaymentModel.validate doc); cbn;
    [|rewrite orderSaves_app, app_nil_r; split; reflexivity].
  unfold PaymentModel.preSave, bind, ret, Date_now, Math_random36.
  destruct (true && _); cbn; case_match; cbn;
    rewrite orderSaves_app, app_nil_r; split; reflexivity.
Qed.

Lemma mtn_requestPayment_untouched (env : Env) (w : World) (amount : Z)
    (currency phoneNumber : string) (reference : option string) :
  untouched w (snd (MTNMoneyAPI.requestPayment amount currency phoneNumber
                      reference env w)).
Proof.
  unfold MTNMoneyAPI.requestPayment, MTNMoneyAPI.getAccessToken,
    tryCatch, bind, http, lift, throw, ret, Date_now, Math_random36.
  destruct (axios env _); [|repeat split]. cbn.
  destruct (axios env _); repeat split.
Qed.

Section Traverse.
Variables (env : Env) (I : World -> Prop).
Hypothesis Iquiet : quiet I.
Hypothesis Isave :
  forall doc, hoare env I (PaymentModel.save doc) (fun _ w => I w).
Hypothesis Isave_new :
  forall doc, hoare env I (PaymentModel.save_new doc) (fun _ w => I w).

Lemma hoare_quiet (A : Type) (c : M A) :
  (forall w, untouched w (snd (c env w))) ->
  hoare env I c (fun _ w => I w).
Proof. intros Hc w Hw. exact (Iquiet (Hc w) Hw). Qed.

Ltac quiet_step :=
  apply hoare_quiet; intros;
  first [ apply untouched_refl
        | rewrite orange_initiatePayment_frame; apply untouched_refl
        | rewrite checkGateway_frame; apply untouched_refl
        | apply mtn_requestPayment_untouched
        | repeat split ].

Ltac stop_step := first [apply hoare_respond | apply hoare_ret]; auto.

Lemma hoare_new_then (A : Type) (order user : ObjectId) (amount : Z)
    (currency method : string) (mm : Payment.MobileMoneyDetails)
    (sd : Payment.StripeDetails) (k : Payment.t -> M A)
    (R : result A -> World -> Prop) :
  (forall a, hoare env I (k a) R) ->
  (forall e w, I w -> R (Throw e) w) ->
  hoare env I
    (bind (PaymentModel.new order user amount currency method mm sd)
       (fun payment => bind (PaymentModel.save_new payment) k)) R.
Proof.
  intros Hk He.
  apply hoare_bind with (Q := fun _ w => I w); [quiet_step| |auto].
  intros doc.
  apply hoare_bind with (Q := fun _ w => I w); [apply Isave_new| |auto].
  exact Hk.
Qed.

Lemma orangeMoneyInitiate_keeps (req : Request InitiateBody) :
  hoare env I (orangeMoneyInitiate req) (fun _ w => I w).
Proof.
  unfold orangeMoneyInitiate. cbv zeta.
  destruct (negb _); [stop_step|].
  apply hoare_bind with (Q := fun _ w => I w); [quiet_step| |auto].
  intros order. destruct (notOwnOrder _ _); [stop_step|].
  apply hoare_tryCatch with (Q := fun _ w => I w); [|auto|intros; stop_step].
  apply hoare_new_then; [|auto]. intros a.
  apply hoare_bind with (Q := fun _ w => I w); [quiet_step| |auto].
  intros resp.
  apply hoare_bind with (Q := fun _ w => I w);
    [apply Isave | intros; stop_step | auto].
Qed.

Lemma mtnMoneyInitiate_keeps (req : Request InitiateBody) :
  hoare env I (mtnMoneyInitiate req) (fun _ w => I w).
Proof.
  unfold mtnMoneyInitiate. cbv zeta.
  destruct (negb _); [stop_step|].
  apply hoare_bind with (Q := fun _ w => I w); [quiet_step| |auto].
  intros order. destruct (notOwnOrder _ _); [stop_step|].
  apply hoare_tryCatch with (Q := fun _ w => I w); [|auto|intros; stop_step].
  apply hoare_new_then; [|auto]. intros a.
  apply hoare_bind with (Q := fun _ w => I w); [quiet_step| |auto].
  intros resp.
  apply hoare_bind with (Q := fun _ w => I w);
    [apply Isave | intros; stop_step | auto].
Qed.

Lemma stripeCreateIntent_keeps (req : Request IntentBody) :
  hoare env I (stripeCreateIntent req) (fun _ w => I w).
Proof.
  unfold stripeCreateIntent. cbv zeta.
  destruct (negb _); [stop_step|].
  apply hoare_bind with (Q := fun _ w => I w); [quiet_step| |auto].
  intros order. destruct (notOwnOrder _ _); [stop_step|].
  apply hoare_tryCatch with (Q := fun _ w => I w); [|auto|intros; stop_step].
  apply hoare_bind with (Q := fun _ w => I w); [quiet_step| |auto].
  intros intent.
  apply hoare_new_then; [|auto]. intros a. stop_step.
Qed.

Lemma markCompleted_keeps (p : Payment.t) (gatewayResponse : JObject) :
  hoare env I (PaymentModel.markCompleted gatewayResponse p)
    (fun _ w => I w).
Proof.
  unfold PaymentModel.markCompleted.
  apply hoare_bind with (Q := fun _ w => I w); [quiet_step| |auto].
  intros now. apply Isave.
Qed.

Lemma markFailed_keeps (p : Payment.t) (message : string)
    (gatewayResponse : JObject) :
  hoare env I (PaymentModel.markFailed message gatewayResponse p)
    (fun _ w => I w).
Proof.
  intros w Hw.
  unfold PaymentModel.markFailed, PaymentModel.push_attempt, bind, ret,
    Date_now.
  cbn -[PaymentModel.save].
  match goal with
  | |- I (snd (PaymentModel.save ?d env ?w1)) => apply (Isave d)
  end.
  apply (Iquiet (w := w)); [repeat split | exact Hw].
Qed.

Section Completion.
Hypothesis Iconfirm :
  forall ref, hoare env I (confirmOrder ref) (fun _ w => I w).

Lemma getStatus_keeps (paymentId : string) (req : Request unit) :
  hoare env I (getStatus paymentId req) (fun _ w => I w).
Proof.
  unfold getStatus.
  apply hoare_bind with (Q := fun _ w => I w); [quiet_step| |auto].
  intros [payment|]; [|stop_step].
  destruct (negb _); [stop_step|].
  apply hoare_tryCatch with (Q := fun _ w => I w); [|auto|intros; stop_step].
  apply hoare_bind with (Q := fun _ w => I w); [quiet_step| |auto].
  intros gatewayStatus.
  apply hoare_bind with (Q := fun _ w => I w); [|intros; stop_step|auto].
  destruct gatewayStatus as [gs|]; [|stop_step].
  destruct (_ && _); [|stop_step].
  apply hoare_bind with (Q := fun _ w => I w); [quiet_step| |auto].
  intros now.
  apply hoare_bind with (Q := fun _ w => I w); [apply Iconfirm| |auto].
  intros _. apply Isave.
Qed.

Lemma webhookOrangeMoney_keeps (req : Request JObject) :
  hoare env I (webhookOrangeMoney req) (fun _ w => I w).
Proof.
  unfold webhookOrangeMoney. cbv zeta.
  apply hoare_tryCatch with (Q := fun _ w => I w); [|auto|intros; stop_step].
  apply hoare_bind with (Q := fun _ w => I w); [quiet_step| |auto].
  intros [payment|]; [|stop_step].
  apply hoare_bind with (Q := fun _ w => I w); [|intros; stop_step|auto].
  destruct (strict_eq _ (Some "SUCCESS")).
  - apply hoare_bind with (Q := fun _ w => I w);
      [apply markCompleted_keeps| |auto].
    intros p. apply Iconfirm.
  - destruct (strict_eq _ (Some "FAILED")); [|stop_step].
    apply hoare_bind with (Q := fun _ w => I w);
      [apply markFailed_keeps | intros; stop_step | auto].
Qed.

Lemma webhookStripe_keeps (req : Request string) :
  hoare env I (webhookStripe req) (fun _ w => I w).
Proof.
  intros w Hw. unfold webhookStripe.
  destruct (constructEvent env _ _) as [event|e] eqn:E; [|exact Hw].
  revert w Hw.
  match goal with
  | |- forall w, I w -> I (snd (?c env w)) =>
      change (hoare env I c (fun _ w => I w))
  end.
  apply hoare_bind with (Q := fun _ w => I w); [|intros; stop_step|auto].
  destruct (String.eqb _ "payment_intent.succeeded").
  - apply hoare_bind with (Q := fun _ w => I w); [quiet_step| |auto].
    intros [payment|]; [|stop_step].
    apply hoare_bind with (Q := fun _ w => I w);
      [apply markCompleted_keeps| |auto].
    intros p. apply Iconfirm.
  - destruct (String.eqb _ "payment_intent.payment_failed"); [|stop_step].
    apply hoare_bind with (Q := fun _ w => I w); [quiet_step| |auto].
    intros [payment|]; [|stop_step].
    apply hoare_bind with (Q := fun _ w => I w);
      [apply markFailed_keeps | intros; stop_step | auto].
Qed.

End Completion.

End Traverse.

(** ** Unique keys *)

Section UniqueKeys.
Import Payment PaymentModel.

Lemma NoDup_snoc (A : Type) (l : list A) (x : A) :
  NoDup l -> ~ In x l -> NoDup (l ++ [x]).
Proof.
  induction l as [|y rest IH]; simpl; intros Hn Hx.
  - constructor; [tauto | constructor].
  - inversion Hn as [|? ? Hy Hr]; subst. constructor.
    + rewrite in_app_iff. simpl. intros [H|[H|[]]]; [tauto|].
      apply Hx. now left.
    + apply IH; [exact Hr | tauto].
Qed.

Lemma duplicateKey_false (doc : Payment.t) (l : list Payment.t) :
  duplicateKey doc l = false ->
  ~ In (_id doc) (map _id l) /\ ~ In (paymentId doc) (map paymentId l).
Proof.
  unfold duplicateKey. induction l as [|q rest IH]; simpl; [tauto|].
  intros H. apply orb_false_iff in H. destruct H as [H Hr].
  apply orb_false_iff in H. destruct H as [H1 H2].
  destruct (IH Hr) as [I1 I2]. split; intros [E|E]; try tauto.
  - rewrite E, String.eqb_refl in H1. discriminate.
  - rewrite E, strict_eq_refl in H2. discriminate.
Qed.

Lemma NoDup_replaceById (doc : Payment.t) (l : list Payment.t) :
  NoDup (map _id l) -> NoDup (map paymentId l) ->
  (forall q, In q l -> _id q <> _id doc -> paymentId q <> paymentId doc) ->
  NoDup (map paymentId (replaceById doc l)).
Proof.
  induction l as [|x rest IH]; simpl; intros Hi Hp Hc; [constructor|].
  inversion Hi as [|? ? Hxi Hri]; inversion Hp as [|? ? Hxp Hrp]; subst.
  destruct (String.eqb_spec (_id x) (_id doc)) as [E|E]; simpl.
  - constructor; [|exact Hrp].
    rewrite in_map_iff. intros (q & Hq & Hin).
    apply (Hc q (or_intror Hin)); [|exact Hq].
    intros Eq. apply Hxi. rewrite E, <- Eq. now apply in_map.
  - constructor.
    + rewrite in_map_iff. intros (q & Hq & Hin).
      apply In_replaceById in Hin. destruct Hin as [->|Hin].
      * apply (Hc x (or_introl eq_refl) E). now symmetry.
      * apply Hxp. rewrite <- Hq. now apply in_map.
    + apply IH; auto.
Qed.

Lemma NoDup_map_eq (A B : Type) (f : A -> B) (l : list A) (a b : A) :
  NoDup (map f l) -> In a l -> In b l -> f a = f b -> a = b.
Proof.
  induction l as [|x rest IH]; simpl; [tauto|].
  intros Hn Ha Hb E. inversion Hn as [|? ? Hx Hr]; subst.
  destruct Ha as [->|Ha], Hb as [->|Hb]; auto.
  - exfalso. apply Hx. rewrite E. now apply in_map.
  - exfalso. apply Hx. rewrite <- E. now apply in_map.
Qed.

Lemma find_In_first (id : ObjectId) (old : Payment.t) (l : list Payment.t) :
  findById id l = Some old -> In old l /\ _id old = id.
Proof.
  unfold findById. intros H. apply find_some in H.
  destruct H as [Hin He]. apply String.eqb_eq in He. auto.
Qed.

Lemma save_uniqueKeys (env : Env) (doc : Payment.t) :
  hoare env uniqueKeys (save doc) (fun _ w => uniqueKeys w).
Proof.
  intros w [Hi Hp]. unfold uniqueKeys, save, bind, journal, lift.
  cbn -[findById validate].
  destruct (validate doc); cbn -[findById]; [|split; assumption].
  destruct (findById (_id doc) (payments w)) as [old|] eqn:Ef;
    [|split; assumption].
  destruct (negb _ && _) eqn:Ec; cbn; [split; assumption|].
  split; [now rewrite ids_replaceById|].
  apply NoDup_replaceById; try assumption.
  intros q Hq Hne Epid.
  destruct (find_In_first _ _ Ef) as [Hold Eold].
  apply andb_false_iff in Ec. destruct Ec as [Ec|Ec].
  - apply negb_false_iff, strict_eq_eq in Ec.
    apply Hne. rewrite <- Eold. f_equal.
    apply (NoDup_map_eq paymentId (payments w)); auto. congruence.
  - assert (X : existsb
                  (fun q0 => negb (String.eqb (_id q0) (_id doc))
                             && strict_eq (paymentId q0) (paymentId doc))
                  (payments w) = true).
    { apply existsb_exists. exists q. split; [exact Hq|].
      rewrite Epid, strict_eq_refl, andb_true_r.
      destruct (String.eqb_spec (_id q) (_id doc)); [contradiction|].
      reflexivity. }
    congruence.
Qed.

Lemma save_new_uniqueKeys (env : Env) (doc : Payment.t) :
  hoare env uniqueKeys (save_new doc) (fun _ w => uniqueKeys w).
Proof.
  intros w [Hi Hp]. unfold uniqueKeys, save_new, bind, journal, lift,
    Date_now. cbn -[duplicateKey validate preSave].
  destruct (validate doc); cbn -[duplicateKey preSave];
    [|split; assumption].
  unfold preSave, bind, ret, Date_now, Math_random36.
  destruct (true && _); cbn -[duplicateKey];
    match goal with
    | |- context [duplicateKey ?d (payments w)] =>
        destruct (duplicateKey d (payments w)) eqn:Ed
    end; cbn; try (split; assumption);
    apply duplicateKey_false in Ed; destruct Ed as [D1 D2];
    rewrite !map_app; cbn; split; apply NoDup_snoc; assumption.
Qed.

Lemma uniqueKeys_quiet : quiet uniqueKeys.
Proof. intros w w' (E & _ & _) H. unfold uniqueKeys. now rewrite E. Qed.

Lemma confirmOrder_uniqueKeys (env : Env) (ref : ObjectId) :
  hoare env uniqueKeys (confirmOrder ref) (fun _ w => uniqueKeys w).
Proof.
  intros w H. unfold uniqueKeys. now rewrite confirmOrder_payments.
Qed.

End UniqueKeys.

(** X1.  The unique index holds through every route.  If no two stored
    Payments share an [_id] and no two share a reference, the same is true
    after any of the six handlers, whatever the request and whatever the
    providers answer. *)
Theorem handlers_keep_keys_unique (env : Env) (w : World) :
  uniqueKeys w ->
  (forall req, uniqueKeys (snd (stripeCreateIntent req env w)))
  /\ (forall req, uniqueKeys (snd (orangeMoneyInitiate req env w)))
  /\ (forall req, uniqueKeys (snd (mtnMoneyInitiate req env w)))
  /\ (forall paymentId req, uniqueKeys (snd (getStatus paymentId req env w)))
  /\ (forall req, uniqueKeys (snd (webhookOrangeMoney req env w)))
  /\ (forall req, uniqueKeys (snd (webhookStripe req env w))).
Proof.
  intros H.
  pose proof uniqueKeys_quiet as Q.
  pose proof (save_uniqueKeys env) as S1.
  pose proof (save_new_uniqueKeys env) as S2.
  pose proof (confirmOrder_uniqueKeys env) as S3.
  split; [|split; [|split; [|split; [|split]]]]; intros.
  - exact (@stripeCreateIntent_keeps env _ Q S2 req w H).
  - exact (@orangeMoneyInitiate_keeps env _ Q S1 S2 req w H).
  - exact (@mtnMoneyInitiate_keeps env _ Q S1 S2 req w H).
  - exact (@getStatus_keeps env _ Q S1 S3 paymentId req w H).
  - exact (@webhookOrangeMoney_keeps env _ Q S1 S3 req w H).
  - exact (@webhookStripe_keeps env _ Q S1 S3 req w H).
Qed.

Lemma handlers_keep_keys_unique_witness :
  uniqueKeys Cases.two_payments
  /\ uniqueKeys (snd (orangeMoneyInitiate (Scenario.initiate "o1")
                        Scenario.env_up Cases.two_payments))
  /\ List.length (payments (snd (orangeMoneyInitiate (Scenario.initiate "o1")
                                   Scenario.env_up Cases.two_payments)))
     = 2%nat.
Proof.
  assert (H : uniqueKeys Cases.two_payments).
  { split; repeat constructor; simpl; intuition discriminate. }
  split; [exact H|]. split; [|reflexivity].
  exact (proj1 (proj2 (@handlers_keep_keys_unique Scenario.env_up
                         Cases.two_payments H))
           (Scenario.initiate "o1")).
Defined.

(** ** Orders under the payment routes *)

Section OrderSteps.
Import Order OrderModel.

(** The linkage step leaves the Orders alone: its one write is refused. *)
Lemma confirmOrder_orders (ref : ObjectId) (env : Env) (w : World) :
  orders (snd (confirmOrder ref env w)) = orders w.
Proof.
  destruct (find (fun x => String.eqb (Order._id x) ref) (orders w))
    as [o|] eqn:Hf.
  - now rewrite (@confirmOrder_run env w ref o Hf).
  - now rewrite confirmOrder_missing.
Qed.

End OrderSteps.

Lemma ordersUntouched_quiet (w0 : World) : quiet (ordersUntouched w0).
Proof.
  intros w w' (_ & E1 & E2) [H1 H2]. split; congruence.
Qed.

Lemma ordersOnlyConfirmed_refl (w : World) : ordersOnlyConfirmed w w.
Proof. split; [reflexivity|]. intros o H. now left. Qed.

Lemma ordersOnlyConfirmed_quiet (w0 : World) :
  quiet (ordersOnlyConfirmed w0).
Proof.
  intros w w' (_ & E & _) [H1 H2]. unfold ordersOnlyConfirmed, sameOrderIds.
  rewrite E. split; assumption.
Qed.

Lemma confirmOrder_ordersOnlyConfirmed (env : Env) (w0 : World)
    (ref : ObjectId) :
  hoare env (ordersOnlyConfirmed w0) (confirmOrder ref)
    (fun _ w => ordersOnlyConfirmed w0 w).
Proof.
  intros w [H1 H2]. unfold ordersOnlyConfirmed, sameOrderIds in *.
  rewrite (confirmOrder_orders ref env w). split; assumption.
Qed.

(** X2.  No initiation route touches an Order: whatever the request and
    whatever the providers answer (success included), the Orders collection
    is left exactly as it was and no [save()] is issued on an Order. *)
Theorem initiation_never_touches_orders (env : Env) (w : World) :
  (forall req, ordersUntouched w (snd (stripeCreateIntent req env w)))
  /\ (forall req, ordersUntouched w (snd (orangeMoneyInitiate req env w)))
  /\ (forall req, ordersUntouched w (snd (mtnMoneyInitiate req env w))).
Proof.
  assert (H : ordersUntouched w w) by (split; reflexivity).
  pose proof (@ordersUntouched_quiet w) as Q.
  assert (S1 : forall doc, hoare env (ordersUntouched w)
                 (PaymentModel.save doc) (fun _ w' => ordersUntouched w w')).
  { intros doc w1 [H1 H2]. destruct (save_orders doc env w1) as [E1 E2].
    split; congruence. }
  assert (S2 : forall doc, hoare env (ordersUntouched w)
                 (PaymentModel.save_new doc)
                 (fun _ w' => ordersUntouched w w')).
  { intros doc w1 [H1 H2]. destruct (save_new_orders doc env w1) as [E1 E2].
    split; congruence. }
  split; [|split]; intros req.
  - exact (@stripeCreateIntent_keeps env _ Q S2 req w H).
  - exact (@orangeMoneyInitiate_keeps env _ Q S1 S2 req w H).
  - exact (@mtnMoneyInitiate_keeps env _ Q S1 S2 req w H).
Qed.

(** X3.  No payment route creates or deletes an Order, and the only change a
    route makes to one is the completion write: after the status route or a
    webhook, the Orders collection holds the same [_id]s in the same places,
    and every Order that differs from before has [status = 'confirmed'] and
    [paymentStatus = 'paid']. *)
Theorem completion_is_the_only_order_write (env : Env) (w : World) :
  (forall paymentId req,
      ordersOnlyConfirmed w (snd (getStatus paymentId req env w)))
  /\ (forall req, ordersOnlyConfirmed w (snd (webhookOrangeMoney req env w)))
  /\ (forall req, ordersOnlyConfirmed w (snd (webhookStripe req env w))).
Proof.
  pose proof (ordersOnlyConfirmed_refl w) as H.
  pose proof (@ordersOnlyConfirmed_quiet w) as Q.
  pose proof (@confirmOrder_ordersOnlyConfirmed env w) as S3.
  assert (S1 : forall doc, hoare env (ordersOnlyConfirmed w)
                 (PaymentModel.save doc)
                 (fun _ w' => ordersOnlyConfirmed w w')).
  { intros doc w1 [H1 H2]. destruct (save_orders doc env w1) as [E1 _].
    unfold ordersOnlyConfirmed, sameOrderIds. rewrite E1.
    split; assumption. }
  split; [|split]; intros.
  - exact (@getStatus_keeps env _ Q S1 S3 paymentId req w H).
  - exact (@webhookOrangeMoney_keeps env _ Q S1 S3 req w H).
  - exact (@webhookStripe_keeps env _ Q S1 S3 req w H).
Qed.

(** ** What an initiation leaves behind *)

Lemma orangeMoneyInitiate_fst (env env' : Env) (w : World)
    (req : Request InitiateBody) :
  fst (orangeMoneyInitiate req env w) = fst (orangeMoneyInitiate req env' w).
Proof.
  destruct (errors req) as [|e rest] eqn:He.
  2: { unfold orangeMoneyInitiate. now rewrite He. }
  destruct (notOwnOrder
              (find (fun x => String.eqb (Order._id x) (orderId (body req)))
                 (orders w)) (user_id req)) eqn:Ho.
  - unfold orangeMoneyInitiate, bind, OrderModel.findById. rewrite He.
    cbn [isEmpty negb]. now rewrite Ho.
  - now rewrite (orangeMoneyInitiate_run env w req He Ho),
      (orangeMoneyInitiate_run env' w req He Ho).
Qed.

Lemma mtnMoneyInitiate_fst (env env' : Env) (w : World)
    (req : Request InitiateBody) :
  fst (mtnMoneyInitiate req env w) = fst (mtnMoneyInitiate req env' w).
Proof.
  destruct (errors req) as [|e rest] eqn:He.
  2: { unfold mtnMoneyInitiate. now rewrite He. }
  destruct (notOwnOrder
              (find (fun x => String.eqb (Order._id x) (orderId (body req)))
                 (orders w)) (user_id req)) eqn:Ho.
  - unfold mtnMoneyInitiate, bind, OrderModel.findById. rewrite He.
    cbn [isEmpty negb]. now rewrite Ho.
  - now rewrite (mtnMoneyInitiate_run env w req He Ho),
      (mtnMoneyInitiate_run env' w req He Ho).
Qed.

Lemma stripeCreateIntent_fst (env env' : Env) (w : World)
    (req : Request IntentBody) :
  fst (stripeCreateIntent req env w) = fst (stripeCreateIntent req env' w).
Proof.
  destruct (errors req) as [|e rest] eqn:He.
  2: { unfold stripeCreateIntent. now rewrite He. }
  destruct (notOwnOrder
              (find (fun x => String.eqb (Order._id x)
                                (ib_orderId (body req))) (orders w))
              (user_id req)) eqn:Ho.
  - unfold stripeCreateIntent, bind, OrderModel.findById. rewrite He.
    cbn [isEmpty negb]. now rewrite Ho.
  - now rewrite (stripeCreateIntent_run env w req He Ho),
      (stripeCreateIntent_run env' w req He Ho).
Qed.

(** X4.  No initiation stores a Payment, and none hands a reference back.
    Whatever the request and whatever the providers answer, each of the
    three initiation routes answers 400, 404 or 500 (never 200), leaves the
    Payments collection as it was, and gives the same answer under any
    other providers, clock and identifiers: the save of the freshly built
    Payment is refused before any answer of a provider is used. *)
Theorem initiation_stores_no_payment (env env' : Env) (w : World) :
  (forall req : Request InitiateBody,
      (exists r, fst (orangeMoneyInitiate req env w) = Ok r
                 /\ (code r = 400 \/ code r = 404 \/ code r = 500))
      /\ payments (snd (orangeMoneyInitiate req env w)) = payments w
      /\ fst (orangeMoneyInitiate req env w)
         = fst (orangeMoneyInitiate req env' w))
  /\ (forall req : Request InitiateBody,
      (exists r, fst (mtnMoneyInitiate req env w) = Ok r
                 /\ (code r = 400 \/ code r = 404 \/ code r = 500))
      /\ payments (snd (mtnMoneyInitiate req env w)) = payments w
      /\ fst (mtnMoneyInitiate req env w) = fst (mtnMoneyInitiate req env' w))
  /\ (forall req : Request IntentBody,
      (exists r, fst (stripeCreateIntent req env w) = Ok r
                 /\ (code r = 400 \/ code r = 404 \/ code r = 500))
      /\ payments (snd (stripeCreateIntent req env w)) = payments w
      /\ fst (stripeCreateIntent req env w)
         = fst (stripeCreateIntent req env' w)).
Proof.
  split; [|split]; intros req.
  - destruct (orangeMoneyInitiate_answer env w req)
      as (r & w' & E & Hc & Hp & _).
    split; [exists r; now rewrite E|].
    split; [now rewrite E | apply orangeMoneyInitiate_fst].
  - destruct (mtnMoneyInitiate_answer env w req)
      as (r & w' & E & Hc & Hp & _).
    split; [exists r; now rewrite E|].
    split; [now rewrite E | apply mtnMoneyInitiate_fst].
  - destruct (stripeCreateIntent_answer env w req)
      as (r & w' & E & Hc & Hp & _).
    split; [exists r; now rewrite E|].
    split; [now rewrite E | apply stripeCreateIntent_fst].
Qed.

(** ** The status route *)

(** X5.  The status route treats a Payment that does not exist and a Payment
    of another user alike: both are answered 404 'Payment not found', no
    provider is asked, and nothing changes. *)
Theorem status_of_foreign_payment_is_not_found
    (env : Env) (w : World) (paymentId : string) (req : Request unit) :
  (forall p,
      find (fun q => strict_eq (Payment.paymentId q) (Some paymentId))
        (payments w) = Some p ->
      Payment.user p <> user_id req) ->
  getStatus paymentId req env w =
    (Ok {| code := 404; json := JsonFailure "Payment not found" |}, w).
Proof.
  intros H. unfold getStatus, bind, PaymentModel.findOne_paymentId.
  destruct (find _ (payments w)) as [p|]; [|reflexivity].
  specialize (H p eq_refl).
  destruct (String.eqb_spec (Payment.user p) (user_id req));
    [contradiction | reflexivity].
Qed.

Lemma status_of_foreign_payment_is_not_found_witness :
  getStatus "PAY_900_a1b2c3d4e" (Scenario.request "u2" tt) Scenario.env_up
    Cases.two_payments =
    (Ok {| code := 404; json := JsonFailure "Payment not found" |},
     Cases.two_payments)
  /\ getStatus "PAY_0_unknown" (Scenario.request "u1" tt) Scenario.env_up
       Cases.two_payments =
     (Ok {| code := 404; json := JsonFailure "Payment not found" |},
      Cases.two_payments).
Proof.
  split; apply status_of_foreign_payment_is_not_found; intros p H;
    vm_compute in H; [injection H as <-|]; discriminate.
Defined.

(** What the status route does once the Payment is found and owned. *)
Lemma getStatus_found (env : Env) (w : World) (paymentId : string)
    (req : Request unit) (p : Payment.t) :
  find (fun q => strict_eq (Payment.paymentId q) (Some paymentId))
    (payments w) = Some p ->
  Payment.user p = user_id req ->
  getStatus paymentId req env w =
    tryCatch
      (gatewayStatus <- checkGateway p ;;
       payment <-
         match gatewayStatus with
         | Some gs =>
             if isCompleted gs
                && negb (String.eqb (Payment.status p) "completed")
             then
               now <- Date_now ;;
               confirmOrder (Payment.order p) ;;;
               PaymentModel.save
                 (Payment.set_completedAt (Some now)
                    (Payment.set_status "completed" p))
             else ret p
         | None => ret p
         end ;;
       respond 200 (JsonStatus (view payment) gatewayStatus))
      (fun _ => respond 500 (JsonFailure "Failed to check payment status"))
      env w.
Proof.
  intros Hf Hu. unfold getStatus, PaymentModel.findOne_paymentId.
  unfold bind at 1. rewrite Hf, Hu, String.eqb_refl. reflexivity.
Qed.

(** The gateway is not asked for a Payment that carries no correlation
    id. *)
Lemma checkGateway_uncorrelated (env : Env) (w : World) (p : Payment.t) :
  (Payment.method p = "orange_money" \/ Payment.method p = "mtn_money" ->
   truthy (Payment.transactionId (Payment.gateway p)) = false) ->
  (Payment.method p = "stripe" ->
   truthy (Payment.paymentIntentId (Payment.stripeDetails p)) = false) ->
  checkGateway p env w = (Ok None, w).
Proof.
  intros H1 H2. unfold checkGateway.
  destruct (String.eqb_spec (Payment.method p) "orange_money") as [E|_].
  { rewrite (H1 (or_introl E)), E. reflexivity. }
  destruct (String.eqb_spec (Payment.method p) "mtn_money") as [E|_].
  { rewrite (H1 (or_intror E)), E. reflexivity. }
  destruct (String.eqb_spec (Payment.method p) "stripe") as [E|_].
  { rewrite (H2 E). reflexivity. }
  reflexivity.
Qed.

(** X6.  A Payment without gateway correlation is never polled.  If an
    Orange or MTN Payment has no transaction id (its initiation failed
    before one was stored), a card Payment has no payment-intent id, or the
    method has no gateway at all, the status route answers 200 with the
    stored view and no gateway status, and changes nothing, whatever the
    providers would answer. *)
Theorem uncorrelated_payment_is_not_polled
    (env : Env) (w : World) (paymentId : string) (req : Request unit)
    (p : Payment.t) :
  find (fun q => strict_eq (Payment.paymentId q) (Some paymentId))
    (payments w) = Some p ->
  Payment.user p = user_id req ->
  (Payment.method p = "orange_money" \/ Payment.method p = "mtn_money" ->
   truthy (Payment.transactionId (Payment.gateway p)) = false) ->
  (Payment.method p = "stripe" ->
   truthy (Payment.paymentIntentId (Payment.stripeDetails p)) = false) ->
  getStatus paymentId req env w =
    (Ok {| code := 200; json := JsonStatus (view p) None |}, w).
Proof.
  intros Hf Hu H1 H2. rewrite (@getStatus_found env w paymentId req p Hf Hu).
  unfold tryCatch, bind. now rewrite checkGateway_uncorrelated.
Qed.

(** X7.  The status route acts on three words only.  When the provider's
    status is none of [succeeded], [SUCCESSFUL], [completed] (a reported
    failure included), or when the Payment is already completed, the route
    answers 200 with the stored view and the provider's status, and changes
    nothing. *)
Theorem poll_without_new_success_changes_nothing
    (env : Env) (w : World) (paymentId : string) (req : Request unit)
    (p : Payment.t) (gs : JObject) :
  find (fun q => strict_eq (Payment.paymentId q) (Some paymentId))
    (payments w) = Some p ->
  Payment.user p = user_id req ->
  fst (checkGateway p env w) = Ok (Some gs) ->
  (jget "status" gs <> Some "succeeded"
   /\ jget "status" gs <> Some "SUCCESSFUL"
   /\ jget "status" gs <> Some "completed")
  \/ Payment.status p = "completed" ->
  getStatus paymentId req env w =
    (Ok {| code := 200; json := JsonStatus (view p) (Some gs) |}, w).
Proof.
  intros Hf Hu Hg Hn. rewrite (@getStatus_found env w paymentId req p Hf Hu).
  unfold tryCatch, bind.
  pose proof (checkGateway_frame env w p) as F.
  destruct (checkGateway p env w) as [r w1]. cbn in Hg, F. subst r w1.
  assert (X : isCompleted gs
              && negb (String.eqb (Payment.status p) "completed") = false).
  { destruct Hn as [(N1 & N2 & N3)|E].
    - unfold isCompleted.
      now rewrite (strict_eq_neq N1), (strict_eq_neq N2),
        (strict_eq_neq N3).
    - rewrite E, String.eqb_refl. apply andb_false_r. }
  now rewrite X.
Qed.

Lemma uncorrelated_payment_is_not_polled_witness :
  getStatus "PAY_900_a1b2c3d4e" (Scenario.request "u1" tt) Scenario.env_up
    (Scenario.world [Cases.pay_uninitiated]) =
    (Ok {| code := 200;
           json := JsonStatus (view Cases.pay_uninitiated) None |},
     Scenario.world [Cases.pay_uninitiated]).
Proof.
  apply uncorrelated_payment_is_not_polled;
    [reflexivity | reflexivity | reflexivity | discriminate].
Defined.

Lemma poll_without_new_success_changes_nothing_witness :
  getStatus "PAY_900_a1b2c3d4e" (Scenario.request "u1" tt)
    Cases.env_reports_failure Cases.two_payments =
    (Ok {| code := 200;
           json := JsonStatus (view Scenario.pay_processing)
                     (Some [("status", "FAILED")]) |},
     Cases.two_payments).
Proof.
  apply poll_without_new_success_changes_nothing;
    [reflexivity | reflexivity | reflexivity |].
  left. repeat split; discriminate.
Defined.

(** ** Polling twice *)

Lemma orange_checkPaymentStatus_fst (env env' : Env) (w w' : World)
    (transactionId : string) :
  (forall r, axios env' r = axios env r) ->
  fst (OrangeMoneyAPI.checkPaymentStatus transactionId env' w') =
  fst (OrangeMoneyAPI.checkPaymentStatus transactionId env w).
Proof.
  intros H.
  unfold OrangeMoneyAPI.checkPaymentStatus, OrangeMoneyAPI.getAccessToken,
    tryCatch, bind, http, lift, throw, ret.
  rewrite H. destruct (axios env _); [|reflexivity].
  rewrite H. now destruct (axios env _).
Qed.

Lemma mtn_checkPaymentStatus_fst (env env' : Env) (w w' : World)
    (transactionId : string) :
  (forall r, axios env' r = axios env r) ->
  fst (MTNMoneyAPI.checkPaymentStatus transactionId env' w') =
  fst (MTNMoneyAPI.checkPaymentStatus transactionId env w).
Proof.
  intros H.
  unfold MTNMoneyAPI.checkPaymentStatus, MTNMoneyAPI.getAccessToken,
    tryCatch, bind, http, lift, throw, ret.
  rewrite H. destruct (axios env _); [|reflexivity].
  rewrite H. now destruct (axios env _).
Qed.

(** What the gateway lookup returns depends on the method and the two
    correlation ids of the Payment and on what the providers answer, and on
    nothing stored. *)
Lemma checkGateway_fst (env env' : Env) (w w' : World) (p q : Payment.t) :
  (forall r, axios env' r = axios env r) ->
  (forall id, paymentIntents_retrieve env' id
              = paymentIntents_retrieve env id) ->
  Payment.method q = Payment.method p ->
  Payment.transactionId (Payment.gateway q) =
    Payment.transactionId (Payment.gateway p) ->
  Payment.paymentIntentId (Payment.stripeDetails q) =
    Payment.paymentIntentId (Payment.stripeDetails p) ->
  fst (checkGateway q env' w') = fst (checkGateway p env w).
Proof.
  intros Hax Hre Hm Ht Hi. unfold checkGateway. rewrite Hm, Ht, Hi.
  clear Hm Ht Hi.
  destruct (_ && _).
  { destruct (Payment.transactionId _) as [tx|]; [|reflexivity].
    unfold bind.
    pose proof (@orange_checkPaymentStatus_fst env env' w w' tx Hax) as F.
    destruct (OrangeMoneyAPI.checkPaymentStatus tx env w) as [[a|e] w1],
      (OrangeMoneyAPI.checkPaymentStatus tx env' w') as [[a'|e'] w1'];
      cbn in F; inversion F; reflexivity. }
  destruct (_ && _).
  { destruct (Payment.transactionId _) as [tx|]; [|reflexivity].
    unfold bind.
    pose proof (@mtn_checkPaymentStatus_fst env env' w w' tx Hax) as F.
    destruct (MTNMoneyAPI.checkPaymentStatus tx env w) as [[a|e] w1],
      (MTNMoneyAPI.checkPaymentStatus tx env' w') as [[a'|e'] w1'];
      cbn in F; inversion F; reflexivity. }
  destruct (_ && _); [|reflexivity].
  destruct (Payment.paymentIntentId _) as [id|]; [|reflexivity].
  unfold bind, lift. rewrite Hre.
  now destruct (paymentIntents_retrieve env id).
Qed.

(** Whether the linkage step is accepted depends on the Orders only. *)
Lemma confirmOrder_fst (ref : ObjectId) (env env' : Env) (w w' : World) :
  orders w' = orders w ->
  fst (confirmOrder ref env' w') = fst (confirmOrder ref env w).
Proof.
  intros E.
  destruct (find (fun x => String.eqb (Order._id x) ref) (orders w))
    as [o|] eqn:Hf.
  - assert (Hf' : find (fun x => String.eqb (Order._id x) ref) (orders w')
                  = Some o) by now rewrite E.
    now rewrite (@confirmOrder_run env w ref o Hf),
      (@confirmOrder_run env' w' ref o Hf').
  - assert (Hf' : find (fun x => String.eqb (Order._id x) ref) (orders w')
                  = None) by now rewrite E.
    now rewrite (@confirmOrder_missing env w ref Hf),
      (@confirmOrder_missing env' w' ref Hf').
Qed.

(** The linkage step throws exactly when the Order is there. *)
Lemma confirmOrder_throw_found (ref : ObjectId) (env : Env) (w : World)
    (e : string) :
  fst (confirmOrder ref env w) = Throw e ->
  exists o,
    find (fun x => String.eqb (Order._id x) ref) (orders w) = Some o.
Proof.
  destruct (find (fun x => String.eqb (Order._id x) ref) (orders w))
    as [o|] eqn:Hf; [now exists o|].
  now rewrite (@confirmOrder_missing env w ref Hf).
Qed.

Section Poll.
Import Payment PaymentModel.

Lemma findById_unique (p : Payment.t) (l : list Payment.t) :
  NoDup (map _id l) -> In p l -> findById (_id p) l = Some p.
Proof.
  unfold findById. induction l as [|x rest IH]; simpl; [tauto|].
  intros Hn [->|Hin]; [now rewrite String.eqb_refl|].
  inversion Hn as [|? ? Hx Hr]; subst.
  destruct (String.eqb_spec (_id x) (_id p)) as [E|_]; [|auto].
  exfalso. apply Hx. rewrite E. now apply in_map.
Qed.

(** After the stored document was replaced by one with the same
    reference, the reference finds the replacement. *)
Lemma find_reference_replaceById (ref : string) (p doc : Payment.t)
    (l : list Payment.t) :
  NoDup (map _id l) ->
  find (fun q => strict_eq (paymentId q) (Some ref)) l = Some p ->
  _id doc = _id p -> paymentId doc = paymentId p ->
  find (fun q => strict_eq (paymentId q) (Some ref)) (replaceById doc l)
    = Some doc.
Proof.
  intros Hn Hf Hid Hpid. induction l as [|x rest IH]; simpl in *;
    [discriminate|].
  inversion Hn as [|? ? Hx Hr]; subst.
  destruct (strict_eq (paymentId x) (Some ref)) eqn:E.
  - injection Hf as ->. rewrite Hid, String.eqb_refl. simpl.
    now rewrite Hpid, E.
  - destruct (String.eqb_spec (_id x) (_id doc)) as [E'|_].
    + exfalso. apply Hx. rewrite E', Hid. apply in_map.
      now apply find_some in Hf.
    + simpl. rewrite E. auto.
Qed.

(** A document that does not pass validation is not written. *)
Lemma save_refused (doc : Payment.t) (e : string) (env : Env) (w : World) :
  validate doc = Throw e ->
  save doc env w =
    (Throw e,
     {| payments := payments w; orders := orders w;
        saves := saves w ++ [SavePayment doc];
        ticks := ticks w; draws := draws w |}).
Proof.
  intros H. unfold save, bind, journal, lift. cbn -[validate].
  now rewrite H.
Qed.

(** A valid document replaces the stored one it was loaded from. *)
Lemma save_replaces (doc p : Payment.t) (env : Env) (w : World) :
  findById (_id doc) (payments w) = Some p ->
  paymentId doc = paymentId p ->
  validate doc = Ok tt ->
  save doc env w =
    (Ok doc,
     {| payments := replaceById doc (payments w); orders := orders w;
        saves := saves w ++ [SavePayment doc];
        ticks := ticks w; draws := draws w |}).
Proof.
  intros Hf Hpid Hv. unfold save, bind, journal, lift.
  cbn -[validate findById]. rewrite Hv, Hf.
  rewrite Hpid, strict_eq_refl. reflexivity.
Qed.

End Poll.

(** The status route when nothing is to be recorded. *)
Lemma getStatus_unchanged (env : Env) (w : World) (paymentId : string)
    (req : Request unit) (p : Payment.t) (gso : option JObject) :
  find (fun q => strict_eq (Payment.paymentId q) (Some paymentId))
    (payments w) = Some p ->
  Payment.user p = user_id req ->
  fst (checkGateway p env w) = Ok gso ->
  match gso with
  | Some gs =>
      isCompleted gs && negb (String.eqb (Payment.status p) "completed")
  | None => false
  end = false ->
  getStatus paymentId req env w =
    (Ok {| code := 200; json := JsonStatus (view p) gso |}, w).
Proof.
  intros Hf Hu Hg Hn. rewrite (@getStatus_found env w paymentId req p Hf Hu).
  unfold tryCatch, bind.
  pose proof (checkGateway_frame env w p) as F.
  destruct (checkGateway p env w) as [r w1]. cbn in Hg, F. subst r w1.
  destruct gso as [gs|]; [now rewrite Hn | reflexivity].
Qed.

(** The status route when the provider's lookup throws. *)
Lemma getStatus_lookup_throws (env : Env) (w : World) (paymentId : string)
    (req : Request unit) (p : Payment.t) (e : string) :
  find (fun q => strict_eq (Payment.paymentId q) (Some paymentId))
    (payments w) = Some p ->
  Payment.user p = user_id req ->
  fst (checkGateway p env w) = Throw e ->
  getStatus paymentId req env w =
    (Ok {| code := 500;
           json := JsonFailure "Failed to check payment status" |}, w).
Proof.
  intros Hf Hu Hg. rewrite (@getStatus_found env w paymentId req p Hf Hu).
  unfold tryCatch, bind.
  pose proof (checkGateway_frame env w p) as F.
  destruct (checkGateway p env w) as [r w1]. cbn in Hg, F. subst r w1.
  reflexivity.
Qed.

(** The status route when a success is to be recorded: the Order is
    written first, and the Payment only if that write was accepted. *)
Lemma getStatus_records (env : Env) (w : World) (paymentId : string)
    (req : Request unit) (p : Payment.t) (gs : JObject) :
  find (fun q => strict_eq (Payment.paymentId q) (Some paymentId))
    (payments w) = Some p ->
  Payment.user p = user_id req ->
  fst (checkGateway p env w) = Ok (Some gs) ->
  isCompleted gs = true ->
  Payment.status p <> "completed" ->
  let doc :=
    Payment.set_completedAt (Some (clock env (ticks w)))
      (Payment.set_status "completed" p) in
  getStatus paymentId req env w =
    match confirmOrder (Payment.order p) env (snd (Date_now env w)) with
    | (Ok _, w2) =>
        match PaymentModel.save doc env w2 with
        | (Ok saved, w3) =>
            (Ok {| code := 200; json := JsonStatus (view saved) (Some gs) |},
             w3)
        | (Throw _, w3) =>
            (Ok {| code := 500;
                   json := JsonFailure "Failed to check payment status" |},
             w3)
        end
    | (Throw _, w2) =>
        (Ok {| code := 500;
               json := JsonFailure "Failed to check payment status" |}, w2)
    end.
Proof.
  intros Hf Hu Hg Hc Hn doc.
  rewrite (@getStatus_found env w paymentId req p Hf Hu).
  unfold tryCatch, bind at 1.
  pose proof (checkGateway_frame env w p) as F.
  destruct (checkGateway p env w) as [r w1]. cbn in Hg, F. subst r w1.
  rewrite Hc. apply String.eqb_neq in Hn. rewrite Hn. cbn [negb andb].
  unfold bind at 1. unfold bind at 1.
  change (Date_now env w) with (Ok (clock env (ticks w)), snd (Date_now env w)).
  cbv iota beta. unfold bind at 1.
  destruct (confirmOrder _ env _) as [[[]|e] w2]; [|reflexivity].
  fold doc. now destruct (PaymentModel.save doc env w2) as [[saved|e] w3].
Qed.

(** The success is not recorded when the Order is there, or when the
    Payment does not pass validation: the route answers 500 and the
    collections are as they were. *)
Lemma getStatus_rejected (env : Env) (w : World) (paymentId : string)
    (req : Request unit) (p : Payment.t) (gs : JObject) :
  find (fun q => strict_eq (Payment.paymentId q) (Some paymentId))
    (payments w) = Some p ->
  Payment.user p = user_id req ->
  fst (checkGateway p env w) = Ok (Some gs) ->
  isCompleted gs = true ->
  Payment.status p <> "completed" ->
  (exists o, find (fun x => String.eqb (Order._id x) (Payment.order p))
               (orders w) = Some o)
  \/ (exists e, PaymentModel.validate (Payment.set_status "completed" p)
                = Throw e) ->
  fst (getStatus paymentId req env w) =
    Ok {| code := 500; json := JsonFailure "Failed to check payment status" |}
  /\ payments (snd (getStatus paymentId req env w)) = payments w
  /\ orders (snd (getStatus paymentId req env w)) = orders w.
Proof.
  intros Hf Hu Hg Hc Hn Hr.
  rewrite (@getStatus_records env w paymentId req p gs Hf Hu Hg Hc Hn).
  destruct (find (fun x => String.eqb (Order._id x) (Payment.order p))
              (orders w)) as [o|] eqn:Ho.
  - rewrite (@confirmOrder_run env (snd (Date_now env w)) (Payment.order p)
               o Ho). repeat split.
  - destruct Hr as [[o Hr]|[e Hr]]; [discriminate|].
    rewrite (@confirmOrder_missing env (snd (Date_now env w))
               (Payment.order p) Ho).
    rewrite (@save_refused
               (Payment.set_completedAt (Some (clock env (ticks w)))
                  (Payment.set_status "completed" p))
               e env (snd (Date_now env w)) Hr).
    repeat split.
Qed.

(** The success is recorded when there is no such Order and the Payment
    passes validation. *)
Lemma getStatus_recorded (env : Env) (w : World) (paymentId : string)
    (req : Request unit) (p : Payment.t) (gs : JObject) :
  find (fun q => strict_eq (Payment.paymentId q) (Some paymentId))
    (payments w) = Some p ->
  Payment.user p = user_id req ->
  PaymentModel.findById (Payment._id p) (payments w) = Some p ->
  fst (checkGateway p env w) = Ok (Some gs) ->
  isCompleted gs = true ->
  Payment.status p <> "completed" ->
  find (fun x => String.eqb (Order._id x) (Payment.order p)) (orders w)
    = None ->
  PaymentModel.validate (Payment.set_status "completed" p) = Ok tt ->
  let doc :=
    Payment.set_completedAt (Some (clock env (ticks w)))
      (Payment.set_status "completed" p) in
  getStatus paymentId req env w =
    (Ok {| code := 200; json := JsonStatus (view doc) (Some gs) |},
     {| payments := PaymentModel.replaceById doc (payments w);
        orders := orders w;
        saves := saves w ++ [SavePayment doc];
        ticks := S (ticks w); draws := draws w |}).
Proof.
  intros Hf Hu Hst Hg Hc Hn Ho Hv doc.
  rewrite (@getStatus_records env w paymentId req p gs Hf Hu Hg Hc Hn).
  rewrite (@confirmOrder_missing env (snd (Date_now env w))
             (Payment.order p) Ho).
  fold doc.
  now rewrite (@save_replaces doc p env (snd (Date_now env w)) Hst eq_refl Hv).
Qed.

(** X8.  Polling is idempotent on the collections as long as the providers
    do not change their answer.  Whatever is stored, when the providers
    answer the second call of the status route as they answered the first
    (the clock and everything else may differ), the second call gets the
    same response and leaves the Payments and the Orders exactly as the
    first call left them: a recorded success is not recorded again, and a
    rejected one is rejected again. *)
Theorem second_poll_repeats_the_first
    (env env' : Env) (w : World) (paymentId : string) (req : Request unit) :
  NoDup (map Payment._id (payments w)) ->
  (forall r, axios env' r = axios env r) ->
  (forall id, paymentIntents_retrieve env' id
              = paymentIntents_retrieve env id) ->
  let first := getStatus paymentId req env w in
  let second := getStatus paymentId req env' (snd first) in
  fst second = fst first
  /\ payments (snd second) = payments (snd first)
  /\ orders (snd second) = orders (snd first).
Proof.
  intros Hnd Hax Hre first second. subst second.
  destruct (find (fun q => strict_eq (Payment.paymentId q) (Some paymentId))
              (payments w)) as [p|] eqn:Hf.
  2: { assert (R : forall e, getStatus paymentId req e w =
                     (Ok {| code := 404;
                            json := JsonFailure "Payment not found" |}, w)).
       { intros e. unfold getStatus, bind, PaymentModel.findOne_paymentId.
         now rewrite Hf. }
       subst first. rewrite (R env). cbn [fst snd]. rewrite (R env').
       auto. }
  destruct (String.eqb_spec (Payment.user p) (user_id req)) as [Hu|Hu].
  2: { assert (R : forall e, getStatus paymentId req e w =
                     (Ok {| code := 404;
                            json := JsonFailure "Payment not found" |}, w)).
       { intros e. unfold getStatus, bind, PaymentModel.findOne_paymentId.
         rewrite Hf. apply String.eqb_neq in Hu. now rewrite Hu. }
       subst first. rewrite (R env). cbn [fst snd]. rewrite (R env').
       auto. }
  assert (Hgg : forall w1 w2, fst (checkGateway p env' w2)
                              = fst (checkGateway p env w1)).
  { intros w1 w2. now apply checkGateway_fst. }
  destruct (fst (checkGateway p env w)) as [gso|e] eqn:Hg.
  2: { subst first.
       rewrite (@getStatus_lookup_throws env w paymentId req p e Hf Hu Hg).
       cbn [fst snd].
       rewrite (@getStatus_lookup_throws env' w paymentId req p e Hf Hu);
         [auto|]. now rewrite (Hgg w w). }
  destruct (match gso with
            | Some gs =>
                isCompleted gs
                && negb (String.eqb (Payment.status p) "completed")
            | None => false
            end) eqn:Hc.
  2: { subst first.
       rewrite (@getStatus_unchanged env w paymentId req p gso Hf Hu Hg Hc).
       cbn [fst snd].
       rewrite (@getStatus_unchanged env' w paymentId req p gso Hf Hu);
         [auto| |exact Hc]. now rewrite (Hgg w w). }
  destruct gso as [gs|]; [|discriminate].
  apply andb_true_iff in Hc. destruct Hc as [Hc Hs].
  apply negb_true_iff, String.eqb_neq in Hs.
  assert (Hst : PaymentModel.findById (Payment._id p) (payments w) = Some p).
  { apply findById_unique; [assumption|]. now apply find_some in Hf. }
  assert (Again :
             (exists o, find (fun x => String.eqb (Order._id x)
                                         (Payment.order p)) (orders w)
                        = Some o)
             \/ (exists e, PaymentModel.validate
                             (Payment.set_status "completed" p) = Throw e) ->
             fst (getStatus paymentId req env' (snd first)) = fst first
             /\ payments (snd (getStatus paymentId req env' (snd first)))
                = payments (snd first)
             /\ orders (snd (getStatus paymentId req env' (snd first)))
                = orders (snd first)).
  { intros Hr.
    destruct (@getStatus_rejected env w paymentId req p gs Hf Hu Hg Hc Hs Hr)
      as (F1 & P1 & O1).
    fold first in F1, P1, O1.
    assert (Hf1 : find (fun q => strict_eq (Payment.paymentId q)
                                   (Some paymentId)) (payments (snd first))
                  = Some p) by now rewrite P1.
    assert (Hg1 : fst (checkGateway p env' (snd first)) = Ok (Some gs))
      by now rewrite (Hgg w (snd first)).
    assert (Hr1 : (exists o,
                      find (fun x => String.eqb (Order._id x)
                                       (Payment.order p))
                        (orders (snd first)) = Some o)
                  \/ (exists e,
                         PaymentModel.validate
                           (Payment.set_status "completed" p) = Throw e))
      by now rewrite O1.
    destruct (@getStatus_rejected env' (snd first) paymentId req p gs Hf1 Hu
                Hg1 Hc Hs Hr1) as (F2 & P2 & O2).
    rewrite F1, F2. auto. }
  destruct (find (fun x => String.eqb (Order._id x) (Payment.order p))
              (orders w)) as [o|] eqn:Ho.
  { apply Again. left. now exists o. }
  destruct (PaymentModel.validate (Payment.set_status "completed" p))
    as [[]|e] eqn:Hv.
  2: { apply Again. right. now exists e. }
  clear Again.
  pose proof (@getStatus_recorded env w paymentId req p gs Hf Hu Hst Hg Hc Hs
                Ho Hv) as R.
  cbv zeta in R. fold first in R.
  set (doc := Payment.set_completedAt (Some (clock env (ticks w)))
                (Payment.set_status "completed" p)) in *.
  rewrite R. cbn [fst snd].
  rewrite (@getStatus_unchanged env' _ paymentId req doc (Some gs)).
  - auto.
  - cbn [payments].
    now apply find_reference_replaceById with (p := p).
  - exact Hu.
  - rewrite <- Hg. now apply checkGateway_fst.
  - apply andb_false_r.
Qed.

Lemma second_poll_repeats_the_first_witness :
  let w := set_orders [] Cases.two_payments in
  let first :=
    getStatus "PAY_900_a1b2c3d4e" (Scenario.request "u1" tt) Scenario.env_up
      w in
  let second :=
    getStatus "PAY_900_a1b2c3d4e" (Scenario.request "u1" tt) Scenario.env_up
      (snd first) in
  map Payment.status (payments (snd first)) = ["completed"; "pending"]
  /\ fst second = fst first
  /\ payments (snd second) = payments (snd first)
  /\ orders (snd second) = orders (snd first).
Proof.
  intros w. split; [reflexivity|].
  apply (@second_poll_repeats_the_first Scenario.env_up Scenario.env_up w).
  - simpl. constructor; [intros [H|[]]; discriminate|].
    constructor; [intros []|constructor].
  - reflexivity.
  - reflexivity.
Defined.

(** ** A rejected Order write *)

(** X9.  The completion paths differ in what a rejected Order write leaves
    behind.  The two webhooks store the Payment as completed before they
    write the Order, so when the Order write throws, a Payment that
    satisfies the schema stays completed: the Orange webhook answers 500,
    the Stripe webhook's handler answers nothing and lets the error escape
    to [asyncHandler].  The status route writes the Order first, so the
    same rejection leaves the stored Payments as they were and is answered
    500.  In all three cases the Orders are unchanged. *)
Theorem rejected_order_write_keeps_webhook_completion
    (env : Env) (w : World) (p : Payment.t) (e : string) :
  PaymentModel.findById (Payment._id p) (payments w) = Some p ->
  fst (confirmOrder (Payment.order p) env w) = Throw e ->
  (forall req : Request JObject,
      PaymentModel.validate p = Ok tt ->
      find (fun q => strict_eq (Payment.paymentId q)
                       (jget "reference" (body req))) (payments w) = Some p ->
      jget "status" (body req) = Some "SUCCESS" ->
      let out := webhookOrangeMoney req env w in
      fst out =
        Ok {| code := 500; json := JsonFailure "Webhook processing failed" |}
      /\ PaymentModel.findById (Payment._id p) (payments (snd out)) =
           Some (Payment.set_gatewayResponse (Some (body req))
                   (Payment.set_completedAt (Some (clock env (ticks w)))
                      (Payment.set_status "completed" p)))
      /\ orders (snd out) = orders w)
  /\ (forall (req : Request string) (event : StripeEvent),
      PaymentModel.validate p = Ok tt ->
      constructEvent env (body req) (jget "stripe-signature" (headers req))
        = Ok event ->
      ev_type event = "payment_intent.succeeded" ->
      find (fun q => strict_eq
                       (Payment.paymentIntentId (Payment.stripeDetails q))
                       (jget "id" (ev_object event))) (payments w) = Some p ->
      let out := webhookStripe req env w in
      fst out = Throw e
      /\ PaymentModel.findById (Payment._id p) (payments (snd out)) =
           Some (Payment.set_gatewayResponse (Some (ev_object event))
                   (Payment.set_completedAt (Some (clock env (ticks w)))
                      (Payment.set_status "completed" p)))
      /\ orders (snd out) = orders w)
  /\ (forall (paymentId : string) (req : Request unit) (gs : JObject),
      find (fun q => strict_eq (Payment.paymentId q) (Some paymentId))
        (payments w) = Some p ->
      Payment.user p = user_id req ->
      fst (checkGateway p env w) = Ok (Some gs) ->
      isCompleted gs = true ->
      Payment.status p <> "completed" ->
      let out := getStatus paymentId req env w in
      fst out =
        Ok {| code := 500;
              json := JsonFailure "Failed to check payment status" |}
      /\ payments (snd out) = payments w
      /\ orders (snd out) = orders w).
Proof.
  intros Hst Hrej.
  assert (Rej : forall w', orders w' = orders w ->
            exists w2,
              confirmOrder (Payment.order p) env w' = (Throw e, w2)
              /\ payments w2 = payments w' /\ orders w2 = orders w).
  { intros w' E.
    pose proof (@confirmOrder_fst (Payment.order p) env env w w' E) as F.
    pose proof (confirmOrder_payments (Payment.order p) env w') as P.
    pose proof (confirmOrder_orders (Payment.order p) env w') as O.
    rewrite Hrej in F.
    destruct (confirmOrder (Payment.order p) env w') as [r w2].
    cbn [fst snd] in *. subst r. exists w2.
    split; [reflexivity|]. split; [exact P|]. now rewrite <- E. }
  split; [|split].
  - intros req Hv Hf Hs out.
    assert (Run : exists w2,
               out = (Ok {| code := 500;
                            json := JsonFailure "Webhook processing failed" |},
                      w2)
               /\ payments w2 =
                    PaymentModel.replaceById
                      (Payment.set_gatewayResponse (Some (body req))
                         (Payment.set_completedAt
                            (Some (clock env (ticks w)))
                            (Payment.set_status "completed" p)))
                      (payments w)
               /\ orders w2 = orders w).
    { subst out.
      unfold webhookOrangeMoney, tryCatch, bind at 1,
        PaymentModel.findOne_paymentId.
      rewrite Hf, Hs. rewrite strict_eq_refl.
      unfold bind at 1. unfold bind at 1.
      rewrite (@markCompleted_run env w p Hst Hv (body req)).
      cbv zeta iota beta.
      match goal with
      | |- context [confirmOrder ?o env ?w1] =>
          destruct (Rej w1 eq_refl) as (w2 & R & P & O);
          change (confirmOrder o env w1)
            with (confirmOrder (Payment.order p) env w1)
      end.
      rewrite R. exists w2. cbn [fst snd respond]. rewrite P. auto. }
    destruct Run as (w2 & -> & P & O). cbn [fst snd]. rewrite P.
    split; [reflexivity|]. split; [|exact O].
    match goal with
    | |- _ = Some ?d => exact (@findById_replaceById d p (payments w) Hst)
    end.
  - intros req event Hv Hev Ht Hf out.
    assert (Run : exists w2,
               out = (Throw e, w2)
               /\ payments w2 =
                    PaymentModel.replaceById
                      (Payment.set_gatewayResponse (Some (ev_object event))
                         (Payment.set_completedAt
                            (Some (clock env (ticks w)))
                            (Payment.set_status "completed" p)))
                      (payments w)
               /\ orders w2 = orders w).
    { subst out.
      unfold webhookStripe. rewrite Hev, Ht. rewrite String.eqb_refl.
      unfold bind at 1, bind at 1, PaymentModel.findOne_paymentIntentId.
      rewrite Hf. unfold bind at 1.
      rewrite (@markCompleted_run env w p Hst Hv (ev_object event)).
      cbv zeta iota beta.
      match goal with
      | |- context [confirmOrder ?o env ?w1] =>
          destruct (Rej w1 eq_refl) as (w2 & R & P & O);
          change (confirmOrder o env w1)
            with (confirmOrder (Payment.order p) env w1)
      end.
      rewrite R. exists w2. rewrite P. auto. }
    destruct Run as (w2 & -> & P & O). cbn [fst snd]. rewrite P.
    split; [reflexivity|]. split; [|exact O].
    match goal with
    | |- _ = Some ?d => exact (@findById_replaceById d p (payments w) Hst)
    end.
  - intros paymentId req gs Hf Hu Hg Hc Hn out. subst out.
    apply (@getStatus_rejected env w paymentId req p gs Hf Hu Hg Hc Hn).
    left. exact (@confirmOrder_throw_found (Payment.order p) env w e Hrej).
Qed.

Lemma rejected_order_write_keeps_webhook_completion_witness :
  let rejected := "Order validation failed: paymentStatus: `paid` is not a valid enum value for path `paymentStatus`." in
  (fst (webhookOrangeMoney (Scenario.hook "SUCCESS") Scenario.env_up
          Cases.two_payments) =
     Ok {| code := 500; json := JsonFailure "Webhook processing failed" |}
   /\ map Payment.status
        (payments (snd (webhookOrangeMoney (Scenario.hook "SUCCESS")
                          Scenario.env_up Cases.two_payments)))
      = ["completed"; "pending"])
  /\ (fst (webhookStripe (Scenario.stripe_event "payment_intent.succeeded")
             Scenario.env_up Cases.two_payments) = Throw rejected
      /\ map Payment.status
           (payments (snd (webhookStripe
                             (Scenario.stripe_event "payment_intent.succeeded")
                             Scenario.env_up Cases.two_payments)))
         = ["processing"; "completed"])
  /\ (fst (getStatus "PAY_900_a1b2c3d4e" (Scenario.request "u1" tt)
             Scenario.env_up Cases.two_payments) =
        Ok {| code := 500;
              json := JsonFailure "Failed to check payment status" |}
      /\ payments (snd (getStatus "PAY_900_a1b2c3d4e"
                          (Scenario.request "u1" tt) Scenario.env_up
                          Cases.two_payments))
         = payments Cases.two_payments).
Proof.
  intros rejected.
  pose proof (@rejected_order_write_keeps_webhook_completion
                Scenario.env_up Cases.two_payments Scenario.pay_processing
                rejected eq_refl eq_refl) as (HO & _ & HP).
  pose proof (@rejected_order_write_keeps_webhook_completion
                Scenario.env_up Cases.two_payments Scenario.pay_card
                rejected eq_refl eq_refl) as (_ & HS & _).
  split; [|split].
  - split; [|reflexivity].
    exact (proj1 (HO (Scenario.hook "SUCCESS") eq_refl eq_refl eq_refl)).
  - split; [|reflexivity].
    exact (proj1 (HS (Scenario.stripe_event "payment_intent.succeeded")
                    _ eq_refl eq_refl eq_refl eq_refl)).
  - pose proof (HP "PAY_900_a1b2c3d4e" (Scenario.request "u1" tt)
                  [("status", "SUCCESSFUL")] eq_refl eq_refl eq_refl
                  eq_refl) as H.
    assert (N : Payment.status Scenario.pay_processing <> "completed")
      by discriminate.
    destruct (H N) as (H1 & H2 & _). split; assumption.
Defined.

(** ** Failure and unhandled deliveries *)

(** X10.  A failure delivery touches the Payment and nothing else.  For a
    stored Payment that satisfies the schema, whatever its status, an
    Orange webhook with status FAILED and a Stripe
    [payment_intent.payment_failed] event store it as failed with
    [failedAt] set and one attempt appended that carries the message
    'Payment failed' and the delivered payload; the delivery is
    acknowledged with 200, the Orders are left as they were, and exactly
    one save is journalled. *)
Theorem failure_delivery_marks_the_payment_only
    (env : Env) (w : World) (p : Payment.t) :
  PaymentModel.findById (Payment._id p) (payments w) = Some p ->
  PaymentModel.validate p = Ok tt ->
  let failed payload :=
    Payment.set_attempts
      (Payment.attempts p ++
         [{| Payment.timestamp := clock env (S (ticks w));
             Payment.attempt_status := Some "failed";
             Payment.errorMessage := Some "Payment failed";
             Payment.attempt_gatewayResponse := Some payload |}])
      (Payment.set_failedAt (Some (clock env (ticks w)))
         (Payment.set_status "failed" p)) in
  let after payload :=
    {| payments := PaymentModel.replaceById (failed payload) (payments w);
       orders := orders w;
       saves := saves w ++ [SavePayment (failed payload)];
       ticks := S (S (ticks w)); draws := draws w |} in
  (forall req : Request JObject,
      find (fun q => strict_eq (Payment.paymentId q)
                       (jget "reference" (body req))) (payments w) = Some p ->
      jget "status" (body req) = Some "FAILED" ->
      webhookOrangeMoney req env w =
        (Ok {| code := 200; json := JsonSuccess |}, after (body req)))
  /\ (forall (req : Request string) (event : StripeEvent),
      constructEvent env (body req) (jget "stripe-signature" (headers req))
        = Ok event ->
      ev_type event = "payment_intent.payment_failed" ->
      find (fun q => strict_eq
                       (Payment.paymentIntentId (Payment.stripeDetails q))
                       (jget "id" (ev_object event))) (payments w) = Some p ->
      webhookStripe req env w =
        (Ok {| code := 200; json := JsonReceived |},
         after (ev_object event))).
Proof.
  intros Hst Hv failed after. split.
  - intros req Hf Hs.
    unfold webhookOrangeMoney, tryCatch, bind at 1,
      PaymentModel.findOne_paymentId.
    rewrite Hf, Hs.
    change (strict_eq (Some "FAILED") (Some "SUCCESS")) with false.
    rewrite strict_eq_refl. cbv iota.
    unfold bind at 1. unfold bind at 1.
    now rewrite (@markFailed_run env w p Hst Hv "Payment failed" (body req)).
  - intros req event Hev Ht Hf.
    unfold webhookStripe. rewrite Hev, Ht.
    change (String.eqb "payment_intent.payment_failed"
              "payment_intent.succeeded") with false.
    rewrite String.eqb_refl. cbv iota.
    unfold bind at 1, bind at 1, PaymentModel.findOne_paymentIntentId.
    rewrite Hf. unfold bind at 1.
    now rewrite (@markFailed_run env w p Hst Hv "Payment failed"
                   (ev_object event)).
Qed.

Lemma failure_delivery_marks_the_payment_only_witness :
  (fst (webhookOrangeMoney (Scenario.hook "FAILED") Scenario.env_up
          (Scenario.world [Scenario.pay_completed])) =
     Ok {| code := 200; json := JsonSuccess |}
   /\ map Payment.status
        (payments (snd (webhookOrangeMoney (Scenario.hook "FAILED")
                          Scenario.env_up
                          (Scenario.world [Scenario.pay_completed]))))
      = ["failed"])
  /\ (fst (webhookStripe
             (Scenario.stripe_event "payment_intent.payment_failed")
             Scenario.env_up Cases.two_payments) =
        Ok {| code := 200; json := JsonReceived |}
      /\ map Payment.status
           (payments (snd (webhookStripe
                             (Scenario.stripe_event
                                "payment_intent.payment_failed")
                             Scenario.env_up Cases.two_payments)))
         = ["processing"; "failed"]).
Proof.
  split.
  - rewrite (proj1 (@failure_delivery_marks_the_payment_only
                      Scenario.env_up
                      (Scenario.world [Scenario.pay_completed])
                      Scenario.pay_completed eq_refl eq_refl)
               (Scenario.hook "FAILED") eq_refl eq_refl).
    split; reflexivity.
  - rewrite (proj2 (@failure_delivery_marks_the_payment_only
                      Scenario.env_up Cases.two_payments
                      Scenario.pay_card eq_refl eq_refl)
               (Scenario.stripe_event "payment_intent.payment_failed")
               _ eq_refl eq_refl eq_refl).
    split; reflexivity.
Defined.

(** X11.  What the webhooks do not handle they acknowledge.  An Orange
    delivery for a stored Payment whose status is neither SUCCESS nor FAILED
    is answered 200, and a verified Stripe event of any other type than the
    two handled is answered 200, with nothing read further and nothing
    changed.  A Stripe delivery whose signature check throws is answered 400
    with the text 'Webhook Error: ' followed by the error's message, before
    anything is looked up. *)
Theorem unhandled_delivery_is_acknowledged (env : Env) (w : World) :
  (forall (req : Request JObject) (p : Payment.t),
      find (fun q => strict_eq (Payment.paymentId q)
                       (jget "reference" (body req))) (payments w) = Some p ->
      jget "status" (body req) <> Some "SUCCESS" ->
      jget "status" (body req) <> Some "FAILED" ->
      webhookOrangeMoney req env w =
        (Ok {| code := 200; json := JsonSuccess |}, w))
  /\ (forall (req : Request string) (event : StripeEvent),
      constructEvent env (body req) (jget "stripe-signature" (headers req))
        = Ok event ->
      ev_type event <> "payment_intent.succeeded" ->
      ev_type event <> "payment_intent.payment_failed" ->
      webhookStripe req env w =
        (Ok {| code := 200; json := JsonReceived |}, w))
  /\ (forall (req : Request string) (message : string),
      constructEvent env (body req) (jget "stripe-signature" (headers req))
        = Throw message ->
      webhookStripe req env w =
        (Ok {| code := 400;
               json := Text ("Webhook Error: " ++ message)%string |}, w)).
Proof.
  split; [|split].
  - intros req p Hf N1 N2.
    unfold webhookOrangeMoney, tryCatch, bind, PaymentModel.findOne_paymentId.
    now rewrite Hf, (strict_eq_neq N1), (strict_eq_neq N2).
  - intros req event Hev N1 N2.
    unfold webhookStripe. rewrite Hev.
    apply String.eqb_neq in N1, N2. now rewrite N1, N2.
  - intros req message Hev. unfold webhookStripe. now rewrite Hev.
Qed.

Lemma unhandled_delivery_is_acknowledged_witness :
  webhookOrangeMoney (Scenario.hook "PENDING") Scenario.env_up
    Cases.two_payments =
    (Ok {| code := 200; json := JsonSuccess |}, Cases.two_payments)
  /\ webhookStripe (Scenario.stripe_event "charge.refunded") Scenario.env_up
       Cases.two_payments =
     (Ok {| code := 200; json := JsonReceived |}, Cases.two_payments)
  /\ webhookStripe (Scenario.request "" "payment_intent.succeeded")
       Scenario.env_up Cases.two_payments =
     (Ok {| code := 400;
            json := Text "Webhook Error: No signatures found matching the expected signature" |},
      Cases.two_payments).
Proof.
  pose proof (unhandled_delivery_is_acknowledged Scenario.env_up
                Cases.two_payments) as (HO & HS & HB).
  split; [|split].
  - apply (HO _ Scenario.pay_processing); [reflexivity | |]; discriminate.
  - apply (HS _ {| ev_type := "charge.refunded";
                   ev_object := [("id", "pi_1")] |});
      [reflexivity | |]; discriminate.
  - apply HB. reflexivity.
Defined.

(** ** The Order's status method *)

Lemma order_findById_replaceById (doc old : Order.t) (l : list Order.t) :
  find (fun x => String.eqb (Order._id x) (Order._id doc)) l = Some old ->
  find (fun x => String.eqb (Order._id x) (Order._id doc))
    (OrderModel.replaceById doc l) = Some doc.
Proof.
  induction l as [|x rest IH]; simpl; [discriminate|].
  destruct (String.eqb (Order._id x) (Order._id doc)) eqn:E; simpl.
  - intros _. now rewrite String.eqb_refl.
  - rewrite E. exact IH.
Qed.

Lemma timelineErrors_app (i : nat) (l : list Order.TimelineEntry)
    (e : Order.TimelineEntry) :
  OrderModel.timelineErrors i (l ++ [e]) =
  OrderModel.timelineErrors i l
  ++ requiredString
       ("timeline." ++ show (Z.of_nat (i + List.length l)) ++ ".status")%string
       (requiredMessage "status") (Some (Order.tl_status e)).
Proof.
  revert i. induction l as [|x rest IH]; intros i.
  - rewrite !app_nil_l. cbn [OrderModel.timelineErrors List.length].
    now rewrite Nat.add_0_r, app_nil_r.
  - rewrite <- app_comm_cons.
    cbn [OrderModel.timelineErrors List.length].
    now rewrite IH, <- app_assoc, Nat.add_succ_r.
Qed.

(** What validation finds after [updateStatus] has written to an Order
    that satisfied the schema. *)
Lemma updateStatus_errors (o : Order.t) (e : Order.TimelineEntry)
    (s : string) :
  OrderModel.validate o = Ok tt ->
  OrderModel.schemaErrors (Order.push_timeline e (Order.set_status s o)) =
    inEnum "status" Order.status_enum (Some s)
    ++ requiredString
         ("timeline." ++ show (Z.of_nat (List.length (Order.timeline o)))
          ++ ".status")%string
         (requiredMessage "status") (Some (Order.tl_status e)).
Proof.
  unfold OrderModel.validate. intros H. apply validated_ok in H.
  unfold OrderModel.schemaErrors in *. split_errors H.
  cbn [Order.push_timeline Order.set_status Order.orderNumber
       Order.quantity Order.price Order.totalAmount Order.status
       Order.paymentStatus Order.paymentMethod Order.shippingAddress
       Order.shipping Order.timeline].
  rewrite timelineErrors_app, H.
  rewrite E, E0, E1, E2, E4, E5, E6, E7, E8, E9, E10, E11.
  reflexivity.
Qed.

(** X12.  [updateStatus] on a stored Order that satisfies the schema.  A
    change to a status of the enum is stored with two timeline entries for
    the one change: the method's own, carrying the caller's note (or
    'Status changed to ...' when the note is empty), and then the pre-save
    hook's.  A call with the status the Order already has stores one
    entry, the method's.  A status outside the enum throws and stores
    nothing; when it is not the empty string the error is 'Order
    validation failed: status: `...` is not a valid enum value for path
    `status`.'. *)
Theorem updateStatus_timeline
    (env : Env) (w : World) (o : Order.t) (newStatus note : string) :
  find (fun x => String.eqb (Order._id x) (Order._id o)) (orders w)
    = Some o ->
  OrderModel.validate o = Ok tt ->
  let own :=
    {| Order.tl_status := newStatus;
       Order.tl_timestamp := clock env (ticks w);
       Order.tl_note :=
         orElse note ("Status changed to " ++ newStatus)%string |} in
  let hooked :=
    {| Order.tl_status := newStatus;
       Order.tl_timestamp := clock env (S (ticks w));
       Order.tl_note := ("Status changed to " ++ newStatus)%string |} in
  let out := updateStatus newStatus note o env w in
  (newStatus <> Order.status o ->
   isIn newStatus Order.status_enum = true ->
   exists doc,
     fst out = Ok doc
     /\ find (fun x => String.eqb (Order._id x) (Order._id o))
          (orders (snd out)) = Some doc
     /\ Order.status doc = newStatus
     /\ Order.paymentStatus doc = Order.paymentStatus o
     /\ Order.timeline doc = Order.timeline o ++ [own; hooked])
  /\ (newStatus = Order.status o ->
      exists doc,
        fst out = Ok doc
        /\ find (fun x => String.eqb (Order._id x) (Order._id o))
             (orders (snd out)) = Some doc
        /\ Order.status doc = Order.status o
        /\ Order.timeline doc = Order.timeline o ++ [own])
  /\ (isIn newStatus Order.status_enum = false ->
      (exists e, fst out = Throw e)
      /\ (newStatus <> "" ->
          fst out =
            Throw (validationMessage "Order"
                     [("status", enumMessage "status" newStatus)]))
      /\ orders (snd out) = orders w).
Proof.
  intros Hst Hv own hooked out.
  assert (Hin : isIn (Order.status o) Order.status_enum = true).
  { unfold OrderModel.validate in Hv. apply validated_ok in Hv.
    unfold OrderModel.schemaErrors in Hv. split_errors Hv.
    unfold inEnum in E3.
    destruct (isIn (Order.status o) Order.status_enum);
      [reflexivity | discriminate]. }
  assert (Run : out =
            OrderModel.save
              (Order.push_timeline own (Order.set_status newStatus o))
              env (snd (Date_now env w))) by reflexivity.
  clearbody out.
  unfold OrderModel.save, bind, journal, OrderModel.findById, lift,
    OrderModel.validate, OrderModel.preSave, OrderModel.isModified in Run.
  rewrite (@updateStatus_errors o own newStatus Hv) in Run.
  unfold inEnum, requiredString in Run.
  cbn [Order.push_timeline Order.set_status Order._id Order.status
       Order.paymentStatus Order.timeline Order.tl_status own
       Date_now snd orders] in Run.
  rewrite Hst in Run.
  split; [|split].
  - intros Hn Hi. rewrite Hi, (@truthy_isIn _ _ Hi eq_refl) in Run.
    apply not_eq_sym in Hn. apply String.eqb_neq in Hn.
    rewrite Hn in Run. cbn in Run. rewrite Run.
    cbn [fst snd orders set_orders].
    eexists. split; [reflexivity|].
    split; [|split; [reflexivity|split; [reflexivity|]]].
    + match goal with
      | |- find _ (OrderModel.replaceById ?d _) = _ =>
          exact (@order_findById_replaceById d o (orders w) Hst)
      end.
    + cbn. rewrite <- app_assoc. reflexivity.
  - intros ->. rewrite Hin, (@truthy_isIn _ _ Hin eq_refl) in Run.
    rewrite String.eqb_refl in Run. cbn in Run.
    rewrite Run. cbn [fst snd orders set_orders].
    eexists. split; [reflexivity|].
    split; [|split; reflexivity].
    match goal with
    | |- find _ (OrderModel.replaceById ?d _) = _ =>
        exact (@order_findById_replaceById d o (orders w) Hst)
    end.
  - intros Hi. rewrite Hi in Run. cbn [app validated] in Run.
    rewrite Run. cbn [fst snd orders].
    split; [eexists; reflexivity|]. split; [|reflexivity].
    intros Hne. apply String.eqb_neq in Hne.
    unfold truthy. rewrite Hne. reflexivity.
Qed.

Lemma updateStatus_timeline_witness :
  let w := Scenario.world [] in
  (exists doc,
      fst (updateStatus "delivered" "" Scenario.order_shipped
             Scenario.env_up w) = Ok doc
      /\ map Order.tl_note (Order.timeline doc) =
           ["Status changed to delivered"; "Status changed to delivered"])
  /\ (exists doc,
      fst (updateStatus "shipped" "left the depot" Scenario.order_shipped
             Scenario.env_up w) = Ok doc
      /\ map Order.tl_note (Order.timeline doc) = ["left the depot"])
  /\ fst (updateStatus "paid" "" Scenario.order_shipped Scenario.env_up w)
     = Throw "Order validation failed: status: `paid` is not a valid enum value for path `status`.".
Proof.
  intros w. split; [|split].
  - destruct (proj1 (@updateStatus_timeline Scenario.env_up w
                       Scenario.order_shipped "delivered" "" eq_refl
                       eq_refl))
      as (doc & H1 & _ & _ & _ & H5); [discriminate | reflexivity |].
    exists doc. split; [exact H1|]. now rewrite H5.
  - destruct (proj1 (proj2 (@updateStatus_timeline Scenario.env_up w
                              Scenario.order_shipped "shipped"
                              "left the depot" eq_refl eq_refl)))
      as (doc & H1 & _ & _ & H4); [reflexivity |].
    exists doc. split; [exact H1|]. now rewrite H4.
  - destruct (proj2 (proj2 (@updateStatus_timeline Scenario.env_up w
                              Scenario.order_shipped "paid" "" eq_refl
                              eq_refl)) eq_refl) as (_ & H & _).
    apply H. discriminate.
Defined.

(** ** The payment list *)

Section Pages.

Lemma In_insertByCreatedAt (p x : Payment.t) (l : list Payment.t) :
  In x (insertByCreatedAt p l) <-> x = p \/ In x l.
Proof.
  induction l as [|q rest IH]; simpl; [intuition auto|].
  destruct (newerOrSame p q); simpl; [intuition auto|].
  rewrite IH. intuition auto.
Qed.

Lemma In_sortByCreatedAtDesc (x : Payment.t) (l : list Payment.t) :
  In x (sortByCreatedAtDesc l) <-> In x l.
Proof.
  unfold sortByCreatedAtDesc. induction l as [|p rest IH]; simpl; [tauto|].
  rewrite In_insertByCreatedAt, IH. intuition auto.
Qed.

Lemma length_insertByCreatedAt (p : Payment.t) (l : list Payment.t) :
  List.length (insertByCreatedAt p l) = S (List.length l).
Proof.
  induction l as [|q rest IH]; simpl; [reflexivity|].
  destruct (newerOrSame p q); simpl; [reflexivity | now rewrite IH].
Qed.

Lemma length_sortByCreatedAtDesc (l : list Payment.t) :
  List.length (sortByCreatedAtDesc l) = List.length l.
Proof.
  unfold sortByCreatedAtDesc. induction l as [|p rest IH]; simpl;
    [reflexivity|].
  now rewrite length_insertByCreatedAt, IH.
Qed.

Lemma ceilDiv_bounds (a b : Z) :
  0 < b -> a <= ceilDiv a b * b < a + b.
Proof.
  intros Hb. unfold ceilDiv.
  pose proof (Z.div_mod (- a) b ltac:(lia)) as E.
  pose proof (Z.mod_pos_bound (- a) b Hb) as B.
  nia.
Qed.

(** Cutting a list into [n] consecutive slices of [k] loses nothing when
    [n * k] reaches its length. *)
Lemma slices_concat (A : Type) (k n : nat) :
  forall (l : list A), (List.length l <= n * k)%nat ->
  List.concat (map (fun i => firstn k (skipn (i * k) l)) (seq 0 n)) = l.
Proof.
  induction n as [|n IH]; intros l Hl.
  - simpl in *. destruct l; [reflexivity | simpl in Hl; lia].
  - cbn [seq map List.concat]. rewrite <- seq_shift, map_map.
    specialize (IH (skipn k l)).
    rewrite length_skipn in IH.
    rewrite (map_ext (fun i => firstn k (skipn (S i * k) l))
               (fun i => firstn k (skipn (i * k) (skipn k l)))).
    + rewrite IH by (simpl in Hl; lia). simpl. apply firstn_skipn.
    + intros i. rewrite skipn_skipn. f_equal. f_equal. simpl. lia.
Qed.

Lemma In_firstn (A : Type) (n : nat) (l : list A) (x : A) :
  In x (firstn n l) -> In x l.
Proof.
  intros H. rewrite <- (firstn_skipn n l). apply in_or_app. now left.
Qed.

Lemma In_skipn (A : Type) (n : nat) (l : list A) (x : A) :
  In x (skipn n l) -> In x l.
Proof.
  intros H. rewrite <- (firstn_skipn n l). apply in_or_app. now right.
Qed.

End Pages.

(** The answer of [GET /my-payments] for a positive page and limit. *)
Lemma myPayments_run (env : Env) (w : World) (req : Request PageQuery) :
  let page := orDefault (q_page (body req)) 1 in
  let limit := orDefault (q_limit (body req)) 10 in
  let mine := filter (fun p => String.eqb (Payment.user p) (user_id req))
                (payments w) in
  0 < page -> 0 < limit ->
  myPayments req env w =
    (Ok {| pg_payments :=
             firstn (Z.to_nat limit)
               (skipn (Z.to_nat ((page - 1) * limit))
                  (sortByCreatedAtDesc mine));
           pg_page := page; pg_limit := limit;
           pg_total := Z.of_nat (List.length mine);
           pg_pages := ceilDiv (Z.of_nat (List.length mine)) limit |}, w).
Proof.
  intros page limit mine Hp Hl.
  unfold myPayments, skipLimit. fold page limit mine.
  replace ((page - 1) * limit <? 0) with false
    by (symmetry; apply Z.ltb_ge; nia).
  replace (limit =? 0) with false by (symmetry; apply Z.eqb_neq; lia).
  rewrite (Z.abs_eq limit) by lia. reflexivity.
Qed.

(** X13.  A page of [GET /my-payments].  For a positive page number and a
    positive limit (after the defaults for a missing, non-numeric or zero
    value) the route answers, changes nothing, and: every listed Payment is
    a stored Payment of the caller; the page holds exactly
    [min limit (total - (page - 1) * limit)] Payments, none when that is
    negative; [total] counts the caller's Payments; [pages] is the least
    number of pages of [limit] that hold [total]; every page up to [pages]
    is non-empty and every page after it is empty. *)
Theorem myPayments_page (env : Env) (w : World) (req : Request PageQuery) :
  let page := orDefault (q_page (body req)) 1 in
  let limit := orDefault (q_limit (body req)) 10 in
  0 < page -> 0 < limit ->
  exists pg,
    myPayments req env w = (Ok pg, w)
    /\ pg_page pg = page /\ pg_limit pg = limit
    /\ pg_total pg =
         Z.of_nat (List.length
                     (filter (fun p => String.eqb (Payment.user p)
                                         (user_id req)) (payments w)))
    /\ (forall p, In p (pg_payments pg) ->
          In p (payments w) /\ Payment.user p = user_id req)
    /\ Z.of_nat (List.length (pg_payments pg)) =
         Z.max 0 (Z.min limit (pg_total pg - (page - 1) * limit))
    /\ pg_total pg <= pg_pages pg * limit < pg_total pg + limit
    /\ (page <= pg_pages pg -> pg_payments pg <> [])
    /\ (pg_pages pg < page -> pg_payments pg = []).
Proof.
  intros page limit Hp Hl.
  set (mine := filter (fun p => String.eqb (Payment.user p) (user_id req))
                 (payments w)).
  set (total := Z.of_nat (List.length mine)).
  set (listed := firstn (Z.to_nat limit)
                   (skipn (Z.to_nat ((page - 1) * limit))
                      (sortByCreatedAtDesc mine))).
  assert (Run : myPayments req env w =
                (Ok {| pg_payments := listed; pg_page := page;
                       pg_limit := limit; pg_total := total;
                       pg_pages := ceilDiv total limit |}, w)).
  { exact (@myPayments_run env w req Hp Hl). }
  assert (Len : Z.of_nat (List.length listed) =
                Z.max 0 (Z.min limit (total - (page - 1) * limit))).
  { unfold listed.
    rewrite length_firstn, length_skipn, length_sortByCreatedAtDesc.
    fold total.
    assert (0 <= (page - 1) * limit) by nia.
    unfold total. lia. }
  pose proof (ceilDiv_bounds total Hl) as B.
  eexists. split; [exact Run|]. cbn [pg_payments pg_page pg_limit pg_total
                                     pg_pages].
  split; [reflexivity|]. split; [reflexivity|]. split; [reflexivity|].
  split; [|split; [exact Len|split; [exact B|split]]].
  - intros p Hin. unfold listed in Hin.
    apply In_firstn, In_skipn in Hin.
    apply (proj1 (In_sortByCreatedAtDesc _ _)) in Hin.
    apply filter_In in Hin. destruct Hin as [Hin E].
    now apply String.eqb_eq in E.
  - intros Hle E. rewrite E in Len. simpl in Len.
    assert ((page - 1) * limit <= (ceilDiv total limit - 1) * limit) by nia.
    lia.
  - intros Hlt.
    assert (ceilDiv total limit * limit <= (page - 1) * limit) by nia.
    destruct listed; [reflexivity|]. simpl in Len. lia.
Qed.

Lemma myPayments_page_witness :
  exists pg,
    myPayments
      (Scenario.request "u1" {| q_page := Some 2; q_limit := Some 1 |})
      Scenario.env_up Cases.two_payments = (Ok pg, Cases.two_payments)
    /\ pg_payments pg = [Scenario.pay_processing]
    /\ pg_total pg = 2 /\ pg_pages pg = 2.
Proof.
  destruct (@myPayments_page Scenario.env_up Cases.two_payments
              (Scenario.request "u1"
                 {| q_page := Some 2; q_limit := Some 1 |}))
    as (pg & Run & _); [reflexivity | reflexivity |].
  exists pg. split; [exact Run|].
  vm_compute in Run. injection Run as <-. repeat split.
Defined.

(** X14.  Paging loses nothing.  For a positive limit, every stored Payment
    of the caller is listed on one of the pages 1 to [pages] of
    [GET /my-payments], the collection being the same for each call. *)
Theorem myPayments_pages_cover
    (env : Env) (w : World) (req : Request PageQuery) (p : Payment.t) :
  0 < orDefault (q_limit (body req)) 10 ->
  In p (payments w) -> Payment.user p = user_id req ->
  exists k pg,
    myPayments (atPage k req) env w = (Ok pg, w)
    /\ 1 <= k <= pg_pages pg
    /\ In p (pg_payments pg).
Proof.
  intros Hl Hin Hu.
  set (limit := orDefault (q_limit (body req)) 10) in *.
  set (mine := filter (fun q => String.eqb (Payment.user q) (user_id req))
                 (payments w)).
  set (total := Z.of_nat (List.length mine)).
  pose proof (ceilDiv_bounds total Hl) as B.
  assert (Hs : In p (sortByCreatedAtDesc mine)).
  { apply In_sortByCreatedAtDesc, filter_In. split; [exact Hin|].
    rewrite Hu. apply String.eqb_refl. }
  rewrite <- (@slices_concat _ (Z.to_nat limit)
                (Z.to_nat (ceilDiv total limit)) (sortByCreatedAtDesc mine))
    in Hs.
  2: { rewrite length_sortByCreatedAtDesc. fold total.
       assert (0 <= ceilDiv total limit) by (unfold total in *; nia).
       unfold total in *. nia. }
  apply in_concat in Hs. destruct Hs as (slice & Hm & Hp).
  apply in_map_iff in Hm. destruct Hm as (i & <- & Hi).
  apply in_seq in Hi.
  exists (Z.of_nat i + 1).
  assert (Hk : orDefault (q_page (body (atPage (Z.of_nat i + 1) req))) 1
               = Z.of_nat i + 1).
  { cbn. destruct (Z.eqb_spec (Z.of_nat i + 1) 0); [lia | reflexivity]. }
  pose proof (@myPayments_run env w (atPage (Z.of_nat i + 1) req)) as Run.
  cbv zeta in Run. rewrite Hk in Run.
  change (orDefault (q_limit (body (atPage (Z.of_nat i + 1) req))) 10)
    with limit in Run.
  change (user_id (atPage (Z.of_nat i + 1) req)) with (user_id req) in Run.
  fold mine in Run. fold total in Run.
  eexists. split; [apply Run; lia|].
  cbn [pg_pages pg_payments]. split; [lia|].
  replace (Z.to_nat ((Z.of_nat i + 1 - 1) * limit))
    with (i * Z.to_nat limit)%nat by nia.
  exact Hp.
Qed.

Lemma myPayments_pages_cover_witness :
  exists k pg,
    myPayments
      (atPage k (Scenario.request "u1"
                   {| q_page := None; q_limit := Some 1 |}))
      Scenario.env_up Cases.two_payments = (Ok pg, Cases.two_payments)
    /\ 1 <= k <= pg_pages pg
    /\ In Scenario.pay_processing (pg_payments pg).
Proof.
  apply myPayments_pages_cover; [reflexivity | now left | reflexivity].
Defined.

(** ** Amounts below zero *)

(** X15.  A negative amount is not stopped before the schema.  The request
    validators of the three initiation routes do not bound the amount; for
    an own Order and a negative amount the Payment is built and handed to
    [save()], whose validation names the amount next to the missing
    reference; nothing is stored and the answer is 500.  The mobile-money
    routes answer with the validation message; the card route has by then
    asked Stripe for an intent and answers 'Failed to create payment
    intent' whether or not Stripe made one. *)
Theorem negative_amount_is_refused_by_the_schema (env : Env) (w : World) :
  (forall req : Request InitiateBody,
      errors req = [] ->
      notOwnOrder (find (fun o => String.eqb (Order._id o)
                                    (orderId (body req))) (orders w))
        (user_id req) = false ->
      amount (body req) < 0 ->
      let refused :=
        Ok {| code := 500;
              json := JsonFailure
                "Payment validation failed: paymentId: Payment ID is required, amount: Amount cannot be negative"
           |} in
      fst (orangeMoneyInitiate req env w) = refused
      /\ payments (snd (orangeMoneyInitiate req env w)) = payments w
      /\ fst (mtnMoneyInitiate req env w) = refused
      /\ payments (snd (mtnMoneyInitiate req env w)) = payments w)
  /\ (forall req : Request IntentBody,
      errors req = [] ->
      notOwnOrder (find (fun o => String.eqb (Order._id o)
                                    (ib_orderId (body req))) (orders w))
        (user_id req) = false ->
      ib_amount (body req) < 0 ->
      fst (stripeCreateIntent req env w) =
        Ok {| code := 500;
              json := JsonFailure "Failed to create payment intent" |}
      /\ payments (snd (stripeCreateIntent req env w)) = payments w).
Proof.
  split.
  - intros req He Ho Ha refused. unfold refused.
    rewrite (orangeMoneyInitiate_run env w req He Ho),
      (mtnMoneyInitiate_run env w req He Ho). cbn [fst snd].
    rewrite !constructed_message_negative by (assumption || reflexivity).
    repeat split.
  - intros req He Ho Ha.
    rewrite (stripeCreateIntent_run env w req He Ho). cbn [fst snd].
    split; [reflexivity|].
    now destruct (paymentIntents_create env _ _ _ _).
Qed.

Lemma negative_amount_is_refused_by_the_schema_witness :
  let mobile :=
    Scenario.request "u1"
      {| amount := -5; phoneNumber := "+33612345678"; orderId := "o1" |} in
  let card :=
    Scenario.request "u1"
      {| ib_amount := -5; ib_currency := "EUR"; ib_orderId := "o1" |} in
  fst (orangeMoneyInitiate mobile Scenario.env_up Cases.two_payments) =
    Ok {| code := 500;
          json := JsonFailure
            "Payment validation failed: paymentId: Payment ID is required, amount: Amount cannot be negative"
       |}
  /\ payments (snd (orangeMoneyInitiate mobile Scenario.env_up
                      Cases.two_payments)) = payments Cases.two_payments
  /\ payments (snd (mtnMoneyInitiate mobile Scenario.env_up
                      Cases.two_payments)) = payments Cases.two_payments
  /\ fst (stripeCreateIntent card Scenario.env_up Cases.two_payments) =
       Ok {| code := 500;
             json := JsonFailure "Failed to create payment intent" |}.
Proof.
  intros mobile card.
  destruct (negative_amount_is_refused_by_the_schema Scenario.env_up
              Cases.two_payments) as [HM HC].
  destruct (HM mobile eq_refl eq_refl eq_refl) as (H0 & H1 & _ & H2).
  destruct (HC card eq_refl eq_refl eq_refl) as (H3 & _).
  split; [exact H0|]. split; [exact H1|]. split; [exact H2 | exact H3].
Defined.

(** ** The gateway clients *)

Lemma jget_app (k : string) (a b : JObject) :
  jget k (a ++ b) =
    match jget k a with
    | Some v => Some v
    | None => jget k b
    end.
Proof.
  induction a as [|[k' v] rest IH]; simpl; [reflexivity|].
  now destruct (String.eqb k k').
Qed.

(** X16.  The gateway clients mask every error.  Whatever goes wrong inside
    a call (the token request, the call itself), the caller sees only the
    fixed message of the method it called; the token methods' own messages
    never leave the client.  No call changes a stored Payment or Order. *)
Theorem gateway_client_errors_are_masked
    (env : Env) (w : World) (amount : Z) (currency phoneNumber : string)
    (reference : option string) (transactionId : string) :
  let masked (A : Type) (r : result A) (message : string) :=
    match r with
    | Ok _ => True
    | Throw e => e = message
    end in
  masked _ (fst (OrangeMoneyAPI.initiatePayment amount currency phoneNumber
                   reference env w))
    "Failed to initiate Orange Money payment"
  /\ masked _ (fst (OrangeMoneyAPI.checkPaymentStatus transactionId env w))
       "Failed to check Orange Money payment status"
  /\ masked _ (fst (MTNMoneyAPI.requestPayment amount currency phoneNumber
                      reference env w))
       "Failed to initiate MTN Money payment"
  /\ masked _ (fst (MTNMoneyAPI.checkPaymentStatus transactionId env w))
       "Failed to check MTN Money payment status"
  /\ untouched w
       (snd (OrangeMoneyAPI.initiatePayment amount currency phoneNumber
               reference env w))
  /\ untouched w (snd (OrangeMoneyAPI.checkPaymentStatus transactionId env w))
  /\ untouched w
       (snd (MTNMoneyAPI.requestPayment amount currency phoneNumber reference
               env w))
  /\ untouched w (snd (MTNMoneyAPI.checkPaymentStatus transactionId env w)).
Proof.
  unfold OrangeMoneyAPI.initiatePayment, OrangeMoneyAPI.checkPaymentStatus,
    MTNMoneyAPI.requestPayment, MTNMoneyAPI.checkPaymentStatus,
    OrangeMoneyAPI.getAccessToken, MTNMoneyAPI.getAccessToken,
    tryCatch, bind, http, lift, throw, ret, Date_now, Math_random36.
  repeat match goal with
         | |- context [axios env ?r] => destruct (axios env r)
         end;
    cbn; repeat split.
Qed.

(** X17.  The transaction id of an MTN request.  A successful
    [requestPayment] has sent the generated id
    [mtn_<clock>_<random>] as [X-Reference-Id], and returns the provider's
    response with that id under [transactionId], unless the response has a
    [transactionId] of its own, which then takes its place. *)
Theorem mtn_transaction_id_yields_to_the_response
    (env : Env) (w : World) (amount : Z) (currency phoneNumber : string)
    (reference : option string) (d : JObject) :
  fst (MTNMoneyAPI.requestPayment amount currency phoneNumber reference
         env w) = Ok d ->
  let sent :=
    ("mtn_" ++ show (clock env (ticks w)) ++ "_"
     ++ random36 env (draws w))%string in
  exists token data,
    axios env
      {| endpoint := MtnRequestToPay; bearer := Some token;
         referenceId := Some sent;
         payload := [("amount", show amount); ("currency", currency);
                     ("partyId", phoneNumber)]
                    ++ field "externalId" reference |} = Ok data
    /\ d = data ++ [("transactionId", sent)]
    /\ jget "transactionId" d =
         match jget "transactionId" data with
         | Some own => Some own
         | None => Some sent
         end.
Proof.
  unfold MTNMoneyAPI.requestPayment, MTNMoneyAPI.getAccessToken,
    tryCatch, bind, http, lift, throw, ret, Date_now, Math_random36, jspread.
  destruct (axios env _) as [td|]; [|discriminate]. cbn.
  match goal with
  | |- context [axios env ?r] => destruct (axios env r) as [data|] eqn:E
  end; [|discriminate].
  cbn. intros H. injection H as <-.
  exists (jget "access_token" td), data.
  split; [exact E|]. split; [reflexivity|].
  rewrite jget_app. reflexivity.
Qed.

Lemma mtn_transaction_id_yields_to_the_response_witness :
  exists d,
    fst (MTNMoneyAPI.requestPayment 60000 "XOF" "+33612345678"
           (Some "PAY_900_a1b2c3d4e") Scenario.env_up Cases.two_payments)
      = Ok d
    /\ jget "transactionId" d = Some "mtn_1000_k3j9x0q1z".
Proof.
  eexists. split; [reflexivity|].
  destruct (@mtn_transaction_id_yields_to_the_response Scenario.env_up
              Cases.two_payments 60000 "XOF" "+33612345678"
              (Some "PAY_900_a1b2c3d4e") _ eq_refl)
    as (token & data & E & _ & H).
  vm_compute in E. injection E as <-. exact H.
Defined.

(** ** Orders the schema would accept *)

(** The linkage step is accepted exactly when there is no such Order. *)
Lemma confirmOrder_accepted (env : Env) (w : World) (ref : ObjectId) :
  fst (confirmOrder ref env w) = Ok tt <->
  find (fun x => String.eqb (Order._id x) ref) (orders w) = None.
Proof.
  destruct (find (fun x => String.eqb (Order._id x) ref) (orders w))
    as [o|] eqn:Hf.
  - rewrite (@confirmOrder_run env w ref o Hf). split; discriminate.
  - rewrite (@confirmOrder_missing env w ref Hf). tauto.
Qed.

(** X18.  Orders the schema accepts are never marked paid.  If every stored
    Order holds a [paymentStatus] of the schema's enum, which ['paid'] is
    not, then no completion path changes any Order: not the status route,
    not the Orange webhook, not the Stripe webhook, whatever is delivered
    and whatever the providers answer. *)
Theorem schema_valid_orders_are_never_written (env : Env) (w : World) :
  (forall o, In o (orders w) ->
     isIn (Order.paymentStatus o) Order.paymentStatus_enum = true) ->
  (forall paymentId req,
      orders (snd (getStatus paymentId req env w)) = orders w)
  /\ (forall req, orders (snd (webhookOrangeMoney req env w)) = orders w)
  /\ (forall req, orders (snd (webhookStripe req env w)) = orders w).
Proof.
  intros Hv.
  set (I := fun w' : World => orders w' = orders w).
  assert (Q : quiet I).
  { intros w1 w2 (_ & E & _) H. unfold I in *. congruence. }
  assert (S1 : forall doc, hoare env I (PaymentModel.save doc)
                 (fun _ w' => I w')).
  { intros doc w1 H. destruct (save_orders doc env w1) as [E _].
    unfold I in *. congruence. }
  assert (S3 : forall ref, hoare env I (confirmOrder ref)
                 (fun _ w' => I w')).
  { intros ref w1 H. unfold I in *. rewrite <- H.
    destruct (find (fun x => String.eqb (Order._id x) ref) (orders w1))
      as [o|] eqn:Hf.
    - apply (@confirmOrder_rejected env w1 ref o Hf).
    - now rewrite (@confirmOrder_missing env w1 ref Hf). }
  assert (H : I w) by reflexivity.
  split; [|split]; intros.
  - exact (@getStatus_keeps env _ Q S1 S3 paymentId req w H).
  - exact (@webhookOrangeMoney_keeps env _ Q S1 S3 req w H).
  - exact (@webhookStripe_keeps env _ Q S1 S3 req w H).
Qed.

Lemma schema_valid_orders_are_never_written_witness :
  orders (snd (webhookOrangeMoney (Scenario.hook "SUCCESS") Scenario.env_up
                 (set_orders [Scenario.order_shipped; Scenario.order_settled]
                    Cases.two_payments)))
  = [Scenario.order_shipped; Scenario.order_settled].
Proof.
  refine (proj1 (proj2
            (@schema_valid_orders_are_never_written Scenario.env_up
               (set_orders [Scenario.order_shipped; Scenario.order_settled]
                  Cases.two_payments) _))
            (Scenario.hook "SUCCESS")).
  intros o [<-|[<-|[]]]; reflexivity.
Defined.

(** ** An accepted Order write *)

(** X19.  The Order write is accepted only when there is no such Order.
    Then, for a stored Payment that satisfies the schema, each completion
    path stores the Payment as completed, stamped with the clock reading of
    the call, and answers 200.  The webhooks also store the delivered
    payload as the gateway response; the status route stores nothing of the
    provider's answer. *)
Theorem accepted_order_write_completes
    (env : Env) (w : World) (p : Payment.t) :
  PaymentModel.findById (Payment._id p) (payments w) = Some p ->
  PaymentModel.validate p = Ok tt ->
  find (fun x => String.eqb (Order._id x) (Payment.order p)) (orders w)
    = None ->
  let completed :=
    Payment.set_completedAt (Some (clock env (ticks w)))
      (Payment.set_status "completed" p) in
  (forall req : Request JObject,
      find (fun q => strict_eq (Payment.paymentId q)
                       (jget "reference" (body req))) (payments w) = Some p ->
      jget "status" (body req) = Some "SUCCESS" ->
      let out := webhookOrangeMoney req env w in
      fst out = Ok {| code := 200; json := JsonSuccess |}
      /\ PaymentModel.findById (Payment._id p) (payments (snd out)) =
           Some (Payment.set_gatewayResponse (Some (body req)) completed))
  /\ (forall (req : Request string) (event : StripeEvent),
      constructEvent env (body req) (jget "stripe-signature" (headers req))
        = Ok event ->
      ev_type event = "payment_intent.succeeded" ->
      find (fun q => strict_eq
                       (Payment.paymentIntentId (Payment.stripeDetails q))
                       (jget "id" (ev_object event))) (payments w) = Some p ->
      let out := webhookStripe req env w in
      fst out = Ok {| code := 200; json := JsonReceived |}
      /\ PaymentModel.findById (Payment._id p) (payments (snd out)) =
           Some (Payment.set_gatewayResponse (Some (ev_object event))
                   completed))
  /\ (forall (paymentId : string) (req : Request unit) (gs : JObject),
      find (fun q => strict_eq (Payment.paymentId q) (Some paymentId))
        (payments w) = Some p ->
      Payment.user p = user_id req ->
      fst (checkGateway p env w) = Ok (Some gs) ->
      isCompleted gs = true ->
      Payment.status p <> "completed" ->
      let out := getStatus paymentId req env w in
      fst out =
        Ok {| code := 200; json := JsonStatus (view completed) (Some gs) |}
      /\ PaymentModel.findById (Payment._id p) (payments (snd out)) =
           Some completed).
Proof.
  intros Hst Hv Hno completed.
  assert (Acc : forall w', orders w' = orders w ->
            confirmOrder (Payment.order p) env w' = (Ok tt, w')).
  { intros w' E. apply confirmOrder_missing. now rewrite E. }
  split; [|split].
  - intros req Hf Hs out.
    assert (Run : exists w2,
               out = (Ok {| code := 200; json := JsonSuccess |}, w2)
               /\ payments w2 =
                    PaymentModel.replaceById
                      (Payment.set_gatewayResponse (Some (body req))
                         completed) (payments w)).
    { subst out.
      unfold webhookOrangeMoney, tryCatch, bind at 1,
        PaymentModel.findOne_paymentId.
      rewrite Hf, Hs. rewrite strict_eq_refl.
      unfold bind at 1. unfold bind at 1.
      rewrite (@markCompleted_run env w p Hst Hv (body req)).
      cbv zeta iota beta.
      match goal with
      | |- context [confirmOrder ?o env ?w1] =>
          change (confirmOrder o env w1)
            with (confirmOrder (Payment.order p) env w1);
          rewrite (Acc w1 eq_refl)
      end.
      eexists. split; reflexivity. }
    destruct Run as (w2 & -> & P). cbn [fst snd]. rewrite P.
    split; [reflexivity|].
    match goal with
    | |- _ = Some ?d => exact (@findById_replaceById d p (payments w) Hst)
    end.
  - intros req event Hev Ht Hf out.
    assert (Run : exists w2,
               out = (Ok {| code := 200; json := JsonReceived |}, w2)
               /\ payments w2 =
                    PaymentModel.replaceById
                      (Payment.set_gatewayResponse (Some (ev_object event))
                         completed) (payments w)).
    { subst out.
      unfold webhookStripe. rewrite Hev, Ht. rewrite String.eqb_refl.
      unfold bind at 1, bind at 1, PaymentModel.findOne_paymentIntentId.
      rewrite Hf. unfold bind at 1.
      rewrite (@markCompleted_run env w p Hst Hv (ev_object event)).
      cbv zeta iota beta.
      match goal with
      | |- context [confirmOrder ?o env ?w1] =>
          change (confirmOrder o env w1)
            with (confirmOrder (Payment.order p) env w1);
          rewrite (Acc w1 eq_refl)
      end.
      eexists. split; reflexivity. }
    destruct Run as (w2 & -> & P). cbn [fst snd]. rewrite P.
    split; [reflexivity|].
    match goal with
    | |- _ = Some ?d => exact (@findById_replaceById d p (payments w) Hst)
    end.
  - intros paymentId req gs Hf Hu Hg Hc Hn out. subst out.
    assert (Hvc : PaymentModel.validate (Payment.set_status "completed" p)
                  = Ok tt).
    { apply (@validate_status_only p (Payment.set_status "completed" p) Hv);
        reflexivity. }
    rewrite (@getStatus_recorded env w paymentId req p gs Hf Hu Hst Hg Hc Hn
               Hno Hvc).
    cbn [fst snd payments]. split; [reflexivity|].
    exact (@findById_replaceById completed p (payments w) Hst).
Qed.

Lemma accepted_order_write_completes_witness :
  let w := set_orders [] Cases.two_payments in
  fst (webhookOrangeMoney (Scenario.hook "SUCCESS") Scenario.env_up w) =
    Ok {| code := 200; json := JsonSuccess |}
  /\ fst (webhookStripe (Scenario.stripe_event "payment_intent.succeeded")
            Scenario.env_up w) = Ok {| code := 200; json := JsonReceived |}
  /\ option_map Payment.status
       (PaymentModel.findById "p1"
          (payments (snd (getStatus "PAY_900_a1b2c3d4e"
                            (Scenario.request "u1" tt) Scenario.env_up w))))
     = Some "completed".
Proof.
  intros w.
  pose proof (@accepted_order_write_completes Scenario.env_up w
                Scenario.pay_processing eq_refl eq_refl eq_refl)
    as (HO & _ & HP).
  pose proof (@accepted_order_write_completes Scenario.env_up w
                Scenario.pay_card eq_refl eq_refl eq_refl) as (_ & HS & _).
  split; [|split].
  - exact (proj1 (HO (Scenario.hook "SUCCESS") eq_refl eq_refl)).
  - exact (proj1 (HS (Scenario.stripe_event "payment_intent.succeeded")
                    _ eq_refl eq_refl eq_refl)).
  - assert (N : Payment.status Scenario.pay_processing <> "completed")
      by discriminate.
    destruct (HP "PAY_900_a1b2c3d4e" (Scenario.request "u1" tt)
                [("status", "SUCCESSFUL")] eq_refl eq_refl eq_refl
                eq_refl N) as (_ & H2).
    cbv zeta in H2.
    change (Payment._id Scenario.pay_processing) with "p1" in H2.
    now rewrite H2.
Defined.

(** ** What no route rewrites *)

Lemma sameCore_refl (p : Payment.t) : sameCore p p.
Proof. repeat split. Qed.

Lemma sameCore_trans (p q r : Payment.t) :
  sameCore p q -> sameCore q r -> sameCore p r.
Proof.
  unfold sameCore. intros H1 H2.
  repeat match goal with
         | H : _ /\ _ |- _ => destruct H
         end.
  repeat split; congruence.
Qed.

Lemma save_new_fresh (doc : Payment.t) (env : Env) (w : World) :
  (exists e w',
      PaymentModel.save_new doc env w = (Throw e, w')
      /\ payments w' = payments w)
  \/ (exists doc' w',
      PaymentModel.save_new doc env w = (Ok doc', w')
      /\ payments w' = payments w ++ [doc']
      /\ ~ In (Payment._id doc') (map Payment._id (payments w))).
Proof.
  unfold PaymentModel.save_new, bind, journal, lift, Date_now.
  cbn -[PaymentModel.duplicateKey PaymentModel.validate
        PaymentModel.preSave].
  destruct (PaymentModel.validate doc);
    [|left; do 2 eexists; split; reflexivity].
  cbn -[PaymentModel.duplicateKey PaymentModel.preSave].
  unfold PaymentModel.preSave, bind, ret, Date_now, Math_random36.
  destruct (true && _); cbn -[PaymentModel.duplicateKey];
    match goal with
    | |- context [PaymentModel.duplicateKey ?d (payments w)] =>
        destruct (PaymentModel.duplicateKey d (payments w)) eqn:Ed
    end; cbn;
    try (left; do 2 eexists; split; reflexivity);
    right; do 2 eexists; (split; [reflexivity|]); (split; [reflexivity|]);
    exact (proj1 (duplicateKey_false _ _ Ed)).
Qed.

Section Core.
Variables (env : Env) (w0 : World).


Lemma coreKept_storeOnly : storeOnly (coreKept w0).
Proof.
  intros w w' E [K C]. split.
  - intros id H. rewrite E. now apply K.
  - intros p q Hp Hq. rewrite E in Hq. now apply C.
Qed.

Lemma coreKept_start : NoDup (map Payment._id (payments w0)) -> (coreKept w0) w0.
Proof.
  intros Hn. split; [intros id H; exact H|].
  intros p q Hp Hq E.
  rewrite (NoDup_map_eq Payment._id (payments w0) q p Hn Hq Hp E).
  apply sameCore_refl.
Qed.

Lemma hoare_save_core (old doc : Payment.t) :
  sameCore old doc ->
  hoare env ((holding w0) old) (PaymentModel.save doc) (fun _ w => (coreKept w0) w).
Proof.
  intros Hc w [[K C] Hold].
  destruct (save_payments doc env w) as [E|E].
  - apply (coreKept_storeOnly (w := w)); [exact E | now split].
  - split.
    + intros id H. rewrite E, ids_replaceById. now apply K.
    + intros p q Hp Hq Eid. rewrite E in Hq.
      apply In_replaceById in Hq. destruct Hq as [->|Hq]; [|now apply C].
      apply sameCore_trans with (q := old); [|exact Hc].
      apply C; [exact Hp | exact Hold |].
      destruct Hc as [Hid _]. congruence.
Qed.

Lemma hoare_save_new_core (doc : Payment.t) :
  hoare env (coreKept w0) (PaymentModel.save_new doc)
    (fun r w => match r with
                | Ok doc' => (holding w0) doc' w
                | Throw _ => (coreKept w0) w
                end).
Proof.
  intros w [K C].
  destruct (save_new_fresh doc env w)
    as [(e & w' & -> & E)|(doc' & w' & -> & E & Hf)]; cbn [fst snd].
  - apply (coreKept_storeOnly (w := w)); [exact E | now split].
  - split; [split|].
    + intros id H. rewrite E, map_app. apply in_or_app. left. now apply K.
    + intros p q Hp Hq Eid. rewrite E in Hq.
      apply in_app_or in Hq. destruct Hq as [Hq|[<-|[]]]; [now apply C|].
      exfalso. apply Hf. rewrite Eid. apply K. now apply in_map.
    + rewrite E. apply in_or_app. right. now left.
Qed.

Lemma hoare_markCompleted_core (p : Payment.t) (gatewayResponse : JObject) :
  hoare env ((holding w0) p) (PaymentModel.markCompleted gatewayResponse p)
    (fun _ w => (coreKept w0) w).
Proof.
  intros w [Hw Hin]. unfold PaymentModel.markCompleted, bind, Date_now.
  cbn -[PaymentModel.save].
  match goal with
  | |- (coreKept w0) (snd (PaymentModel.save ?d env ?w1)) =>
      apply (@hoare_save_core p d)
  end; [repeat split|].
  split; [|exact Hin].
  apply (coreKept_storeOnly (w := w)); [reflexivity | exact Hw].
Qed.

Lemma hoare_markFailed_core (p : Payment.t) (message : string)
    (gatewayResponse : JObject) :
  hoare env ((holding w0) p) (PaymentModel.markFailed message gatewayResponse p)
    (fun _ w => (coreKept w0) w).
Proof.
  intros w [Hw Hin].
  unfold PaymentModel.markFailed, PaymentModel.push_attempt, bind, ret,
    Date_now.
  cbn -[PaymentModel.save].
  match goal with
  | |- (coreKept w0) (snd (PaymentModel.save ?d env ?w1)) =>
      apply (@hoare_save_core p d)
  end; [repeat split|].
  split; [|exact Hin].
  apply (coreKept_storeOnly (w := w)); [reflexivity | exact Hw].
Qed.

Lemma hoare_found (c : M (option Payment.t)) (f : Payment.t -> bool) :
  (forall w, c env w = (Ok (find f (payments w)), w)) ->
  hoare env (coreKept w0) c
    (fun r w => match r with
                | Ok (Some p) => (holding w0) p w
                | _ => (coreKept w0) w
                end).
Proof.
  intros Hc w Hw. rewrite Hc. cbn [fst snd].
  destruct (find f (payments w)) as [p|] eqn:E; [|exact Hw].
  split; [exact Hw|]. now apply find_some in E.
Qed.

Lemma hoare_holding_frame (A : Type) (p : Payment.t) (c : M A) :
  (forall w, payments (snd (c env w)) = payments w) ->
  hoare env ((holding w0) p) c (fun _ w => (holding w0) p w).
Proof.
  intros Hc w [Hw Hin]. split.
  - apply (coreKept_storeOnly (w := w)); [apply Hc | exact Hw].
  - now rewrite Hc.
Qed.

Ltac stop_step := first [apply hoare_respond | apply hoare_ret]; auto.
Ltac plain := apply hoare_frame; [exact coreKept_storeOnly | intros; auto].

Lemma webhookOrangeMoney_core (req : Request JObject) :
  hoare env (coreKept w0) (webhookOrangeMoney req) (fun _ w => (coreKept w0) w).
Proof.
  unfold webhookOrangeMoney. cbv zeta.
  apply hoare_tryCatch with (Q := fun _ w => (coreKept w0) w); [|auto|intros; stop_step].
  eapply hoare_bind;
    [apply hoare_found
       with (f := fun p => strict_eq (Payment.paymentId p)
                             (jget "reference" (body req)));
     intros; reflexivity | | auto].
  intros [payment|]; [|stop_step].
  apply hoare_bind with (Q := fun _ w => (coreKept w0) w); [|intros; stop_step|auto].
  destruct (strict_eq _ (Some "SUCCESS")).
  - apply hoare_bind with (Q := fun _ w => (coreKept w0) w);
      [apply hoare_markCompleted_core| |auto].
    intros p. apply hoare_confirmOrder. exact coreKept_storeOnly.
  - destruct (strict_eq _ (Some "FAILED")); [|stop_step; now intros w [H _]].
    apply hoare_bind with (Q := fun _ w => (coreKept w0) w);
      [apply hoare_markFailed_core | intros; stop_step | auto].
Qed.

Ltac drop :=
  intros;
  match goal with
  | H : holding _ _ _ |- _ => exact (proj1 H)
  end.

Lemma webhookStripe_core (req : Request string) :
  hoare env (coreKept w0) (webhookStripe req) (fun _ w => (coreKept w0) w).
Proof.
  intros w Hw. unfold webhookStripe.
  destruct (constructEvent env _ _) as [event|e] eqn:E; [|exact Hw].
  revert w Hw.
  match goal with
  | |- forall w, _ w -> _ (snd (?c env w)) =>
      change (hoare env (coreKept w0) c (fun _ w => (coreKept w0) w))
  end.
  apply hoare_bind with (Q := fun _ w => (coreKept w0) w);
    [|intros; stop_step|auto].
  destruct (String.eqb _ "payment_intent.succeeded").
  - eapply hoare_bind;
      [apply hoare_found
         with (f := fun p => strict_eq
                               (Payment.paymentIntentId
                                  (Payment.stripeDetails p))
                               (jget "id" (ev_object event)));
       intros; reflexivity | | auto].
    intros [payment|]; [|stop_step].
    apply hoare_bind with (Q := fun _ w => (coreKept w0) w);
      [apply hoare_markCompleted_core| |auto].
    intros p. apply hoare_confirmOrder. exact coreKept_storeOnly.
  - destruct (String.eqb _ "payment_intent.payment_failed"); [|stop_step].
    eapply hoare_bind;
      [apply hoare_found
         with (f := fun p => strict_eq
                               (Payment.paymentIntentId
                                  (Payment.stripeDetails p))
                               (jget "id" (ev_object event)));
       intros; reflexivity | | auto].
    intros [payment|]; [|stop_step].
    apply hoare_bind with (Q := fun _ w => (coreKept w0) w);
      [apply hoare_markFailed_core | intros; stop_step | auto].
Qed.

Lemma getStatus_core (paymentId : string) (req : Request unit) :
  hoare env (coreKept w0) (getStatus paymentId req)
    (fun _ w => (coreKept w0) w).
Proof.
  unfold getStatus.
  eapply hoare_bind;
    [apply hoare_found
       with (f := fun p => strict_eq (Payment.paymentId p) (Some paymentId));
     intros; reflexivity | | auto].
  intros [payment|]; [|stop_step].
  destruct (negb _); [stop_step; drop|].
  apply hoare_tryCatch with (Q := fun _ w => (coreKept w0) w);
    [|auto|intros; stop_step].
  apply hoare_bind with (Q := fun _ w => (holding w0) payment w).
  - apply hoare_holding_frame. intros w. now rewrite checkGateway_frame.
  - intros gatewayStatus.
    apply hoare_bind with (Q := fun _ w => (coreKept w0) w);
      [|intros; stop_step|auto].
    destruct gatewayStatus as [gs|]; [|stop_step; drop].
    destruct (_ && _); [|stop_step; drop].
    apply hoare_bind with (Q := fun _ w => (holding w0) payment w);
      [apply hoare_holding_frame; reflexivity | | drop].
    intros now.
    apply hoare_bind with (Q := fun _ w => (holding w0) payment w);
      [apply hoare_holding_frame; intros; apply confirmOrder_payments
      | | drop].
    intros _. apply hoare_save_core. repeat split.
  - drop.
Qed.

Lemma hoare_new_core (A : Type) (order user : ObjectId) (amount : Z)
    (currency method : string) (mm : Payment.MobileMoneyDetails)
    (sd : Payment.StripeDetails) (k : Payment.t -> M A) :
  (forall doc, hoare env ((holding w0) doc) (k doc)
                 (fun _ w => (coreKept w0) w)) ->
  hoare env (coreKept w0)
    (bind (PaymentModel.new order user amount currency method mm sd)
       (fun payment => bind (PaymentModel.save_new payment) k))
    (fun _ w => (coreKept w0) w).
Proof.
  intros Hk.
  apply hoare_bind with (Q := fun _ w => (coreKept w0) w);
    [plain| |auto].
  intros doc.
  eapply hoare_bind; [apply hoare_save_new_core | | auto].
  exact Hk.
Qed.

Lemma orangeMoneyInitiate_core (req : Request InitiateBody) :
  hoare env (coreKept w0) (orangeMoneyInitiate req)
    (fun _ w => (coreKept w0) w).
Proof.
  unfold orangeMoneyInitiate. cbv zeta.
  destruct (negb _); [stop_step|].
  apply hoare_bind with (Q := fun _ w => (coreKept w0) w); [plain| |auto].
  intros order. destruct (notOwnOrder _ _); [stop_step|].
  apply hoare_tryCatch with (Q := fun _ w => (coreKept w0) w);
    [|auto|intros; stop_step].
  apply hoare_new_core. intros doc.
  apply hoare_bind with (Q := fun _ w => (holding w0) doc w);
    [apply hoare_holding_frame; intros;
     now rewrite orange_initiatePayment_frame | | drop].
  intros resp.
  apply hoare_bind with (Q := fun _ w => (coreKept w0) w);
    [apply hoare_save_core; repeat split | intros; stop_step | auto].
Qed.

Lemma mtnMoneyInitiate_core (req : Request InitiateBody) :
  hoare env (coreKept w0) (mtnMoneyInitiate req)
    (fun _ w => (coreKept w0) w).
Proof.
  unfold mtnMoneyInitiate. cbv zeta.
  destruct (negb _); [stop_step|].
  apply hoare_bind with (Q := fun _ w => (coreKept w0) w); [plain| |auto].
  intros order. destruct (notOwnOrder _ _); [stop_step|].
  apply hoare_tryCatch with (Q := fun _ w => (coreKept w0) w);
    [|auto|intros; stop_step].
  apply hoare_new_core. intros doc.
  apply hoare_bind with (Q := fun _ w => (holding w0) doc w);
    [apply hoare_holding_frame; intros; apply mtn_requestPayment_frame
    | | drop].
  intros resp.
  apply hoare_bind with (Q := fun _ w => (coreKept w0) w);
    [apply hoare_save_core; repeat split | intros; stop_step | auto].
Qed.

Lemma stripeCreateIntent_core (req : Request IntentBody) :
  hoare env (coreKept w0) (stripeCreateIntent req)
    (fun _ w => (coreKept w0) w).
Proof.
  unfold stripeCreateIntent. cbv zeta.
  destruct (negb _); [stop_step|].
  apply hoare_bind with (Q := fun _ w => (coreKept w0) w); [plain| |auto].
  intros order. destruct (notOwnOrder _ _); [stop_step|].
  apply hoare_tryCatch with (Q := fun _ w => (coreKept w0) w);
    [|auto|intros; stop_step].
  apply hoare_bind with (Q := fun _ w => (coreKept w0) w); [plain| |auto].
  intros intent.
  apply hoare_new_core. intros doc. stop_step. drop.
Qed.

End Core.

(** X20.  What no route rewrites.  If no two stored Payments share an
    [_id], then after any of the six handlers, whatever the request and
    whatever the providers answer, every Payment that was stored is still
    stored under its [_id] with the same reference, order, user, amount,
    currency, method, mobile-money details, Stripe details, fees, settlement,
    [createdAt] and [expiresAt].  The routes change only [status],
    [gateway], [attempts], [completedAt] and [failedAt]; in particular no
    route moves the expiry of a Payment. *)
Theorem routes_keep_the_core_of_every_payment (env : Env) (w : World) :
  NoDup (map Payment._id (payments w)) ->
  (forall req, coreKept w (snd (stripeCreateIntent req env w)))
  /\ (forall req, coreKept w (snd (orangeMoneyInitiate req env w)))
  /\ (forall req, coreKept w (snd (mtnMoneyInitiate req env w)))
  /\ (forall paymentId req, coreKept w (snd (getStatus paymentId req env w)))
  /\ (forall req, coreKept w (snd (webhookOrangeMoney req env w)))
  /\ (forall req, coreKept w (snd (webhookStripe req env w))).
Proof.
  intros Hn. pose proof (@coreKept_start w Hn) as H.
  split; [|split; [|split; [|split; [|split]]]]; intros.
  - exact (@stripeCreateIntent_core env w req w H).
  - exact (@orangeMoneyInitiate_core env w req w H).
  - exact (@mtnMoneyInitiate_core env w req w H).
  - exact (@getStatus_core env w paymentId req w H).
  - exact (@webhookOrangeMoney_core env w req w H).
  - exact (@webhookStripe_core env w req w H).
Qed.

Lemma routes_keep_the_core_of_every_payment_witness :
  coreKept Cases.two_payments
    (snd (webhookOrangeMoney (Scenario.hook "FAILED") Scenario.env_up
            Cases.two_payments))
  /\ coreKept Cases.two_payments
       (snd (orangeMoneyInitiate (Scenario.initiate "o1") Scenario.env_up
               Cases.two_payments)).
Proof.
  assert (Hn : NoDup (map Payment._id (payments Cases.two_payments))).
  { simpl. constructor; [intros [H|[]]; discriminate|].
    constructor; [intros []|constructor]. }
  destruct (@routes_keep_the_core_of_every_payment Scenario.env_up
              Cases.two_payments Hn) as (_ & H2 & _ & _ & H5 & _).
  split; [apply H5 | apply H2].
Defined.

(** ** Recording an attempt *)

(** X21.  [addAttempt] on a stored Payment that satisfies the schema,
    whatever its status, appends exactly one attempt, stamped with the
    clock reading of the call and carrying the given status, message and
    payload as given (the attempt's status is free text, not one of the
    Payment's), stores the Payment, and leaves the Payment's own status,
    [completedAt], [failedAt] and [expiresAt] as they were; one save is
    journalled and the Orders are left as they were. *)
Theorem addAttempt_appends_one_attempt
    (env : Env) (w : World) (p : Payment.t) (st message : string)
    (gatewayResponse : JObject) :
  PaymentModel.findById (Payment._id p) (payments w) = Some p ->
  PaymentModel.validate p = Ok tt ->
  let doc :=
    Payment.set_attempts
      (Payment.attempts p ++
         [{| Payment.timestamp := clock env (ticks w);
             Payment.attempt_status := Some st;
             Payment.errorMessage := Some message;
             Payment.attempt_gatewayResponse := Some gatewayResponse |}]) p in
  PaymentModel.addAttempt st message gatewayResponse p env w =
    (Ok doc,
     {| payments := PaymentModel.replaceById doc (payments w);
        orders := orders w;
        saves := saves w ++ [SavePayment doc];
        ticks := S (ticks w); draws := draws w |})
  /\ PaymentModel.findById (Payment._id p)
       (PaymentModel.replaceById doc (payments w)) = Some doc
  /\ Payment.status doc = Payment.status p
  /\ Payment.completedAt doc = Payment.completedAt p
  /\ Payment.failedAt doc = Payment.failedAt p
  /\ Payment.expiresAt doc = Payment.expiresAt p.
Proof.
  intros Hst Hv doc. split; [|split; [|repeat split]].
  - unfold PaymentModel.addAttempt, PaymentModel.push_attempt, bind, ret,
      Date_now.
    cbn -[PaymentModel.save]. fold doc.
    exact (@save_replaces doc p env (snd (Date_now env w)) Hst eq_refl Hv).
  - exact (@findById_replaceById doc p (payments w) Hst).
Qed.

Lemma addAttempt_appends_one_attempt_witness :
  option_map (fun d => List.length (Payment.attempts d))
    (PaymentModel.findById "p1"
       (payments (snd (PaymentModel.addAttempt "timeout" "no answer"
                         [("code", "504")] Scenario.pay_processing
                         Scenario.env_up Cases.two_payments))))
  = Some 1%nat.
Proof.
  destruct (@addAttempt_appends_one_attempt Scenario.env_up
              Cases.two_payments Scenario.pay_processing "timeout"
              "no answer" [("code", "504")] eq_refl eq_refl)
    as (Run & Hf & _).
  rewrite Run. cbn [snd payments].
  change "p1" with (Payment._id Scenario.pay_processing).
  now rewrite Hf.
Defined.

(** ** From a card intent to its completion *)

Lemma find_intent_none (l : list Payment.t) (id : option string) :
  (forall q, In q l ->
     Payment.paymentIntentId (Payment.stripeDetails q) <> id) ->
  find (fun q => strict_eq
                   (Payment.paymentIntentId (Payment.stripeDetails q)) id) l
  = None.
Proof.
  induction l as [|x rest IH]; simpl; intros H; [reflexivity|].
  rewrite (strict_eq_neq (H x (or_introl eq_refl))).
  apply IH. intros q Hq. apply H. now right.
Qed.

(** X22.  From [create-intent] to the Stripe webhook.  A valid request for
    an own Order that Stripe answers with an intent is still answered 500
    'Failed to create payment intent': the intent exists at Stripe, but the
    save of the Payment that should hold its id is refused and nothing is
    stored.  When no stored Payment carries that id, a verified event about
    this intent, delivered next, finds no Payment: it is acknowledged with
    200 and changes nothing, so the card payment is never recorded. *)
Theorem card_intent_is_never_recorded
    (env : Env) (w : World) (req : Request IntentBody) (o : Order.t)
    (intent : JObject) :
  errors req = [] ->
  find (fun x => String.eqb (Order._id x) (ib_orderId (body req))) (orders w)
    = Some o ->
  Order.buyer o = user_id req ->
  paymentIntents_create env (ib_amount (body req) * 100)
    (toLowerCase (ib_currency (body req))) (ib_orderId (body req))
    (user_id req) = Ok intent ->
  (forall q, In q (payments w) ->
     Payment.paymentIntentId (Payment.stripeDetails q) <> jget "id" intent) ->
  exists w1,
    stripeCreateIntent req env w =
      (Ok {| code := 500;
             json := JsonFailure "Failed to create payment intent" |}, w1)
    /\ payments w1 = payments w
    /\ orders w1 = orders w
    /\ forall (hook : Request string) (event : StripeEvent),
         constructEvent env (body hook)
           (jget "stripe-signature" (headers hook)) = Ok event ->
         jget "id" (ev_object event) = jget "id" intent ->
         webhookStripe hook env w1 =
           (Ok {| code := 200; json := JsonReceived |}, w1).
Proof.
  intros He Ho Hb Hi Hn.
  assert (Hown : notOwnOrder
                   (find (fun x => String.eqb (Order._id x)
                                     (ib_orderId (body req))) (orders w))
                   (user_id req) = false).
  { rewrite Ho. unfold notOwnOrder. now rewrite Hb, String.eqb_refl. }
  rewrite (stripeCreateIntent_run env w req He Hown), Hi.
  eexists. split; [reflexivity|]. split; [reflexivity|].
  split; [reflexivity|].
  intros hook event Hev Hsame.
  unfold webhookStripe, bind, PaymentModel.findOne_paymentIntentId.
  rewrite Hev, Hsame.
  destruct (String.eqb _ "payment_intent.succeeded").
  { unfold refused. cbn [payments]. now rewrite (find_intent_none _ Hn). }
  destruct (String.eqb _ "payment_intent.payment_failed"); [|reflexivity].
  unfold refused. cbn [payments]. now rewrite (find_intent_none _ Hn).
Qed.

Lemma card_intent_is_never_recorded_witness :
  let w := Scenario.world [Scenario.pay_processing] in
  let req :=
    Scenario.request "u1"
      {| ib_amount := 90; ib_currency := "EUR"; ib_orderId := "o1" |} in
  exists w1,
    stripeCreateIntent req Scenario.env_up w =
      (Ok {| code := 500;
             json := JsonFailure "Failed to create payment intent" |}, w1)
    /\ payments w1 = [Scenario.pay_processing]
    /\ webhookStripe (Scenario.stripe_event "payment_intent.succeeded")
         Scenario.env_up w1 =
         (Ok {| code := 200; json := JsonReceived |}, w1).
Proof.
  intros w req.
  destruct (@card_intent_is_never_recorded Scenario.env_up w req
              Scenario.order_shipped
              [("id", "pi_1"); ("client_secret", "pi_1_secret")]
              eq_refl eq_refl eq_refl eq_refl
              ltac:(intros q [<-|[]]; discriminate))
    as (w1 & Run & Hp & _ & Hk).
  exists w1. split; [exact Run|]. split; [exact Hp|].
  apply (Hk (Scenario.stripe_event "payment_intent.succeeded")
           {| ev_type := "payment_intent.succeeded";
              ev_object := [("id", "pi_1")] |}); reflexivity.
Defined.

(** ** Any sequence of requests *)

Lemma coreKept_trans (w1 w2 w3 : World) :
  coreKept w1 w2 -> coreKept w2 w3 -> coreKept w1 w3.
Proof.
  intros [K1 C1] [K2 C2]. split.
  - intros id H. apply K2, K1, H.
  - intros p q Hp Hq E.
    assert (Hm : In (Payment._id p) (map Payment._id (payments w2)))
      by (apply K1; now apply in_map).
    apply in_map_iff in Hm. destruct Hm as (m & Em & Hm).
    apply sameCore_trans with (q := m).
    + now apply C1.
    + apply C2; [exact Hm | exact Hq | congruence].
Qed.

Lemma ordersOnlyConfirmed_trans (w1 w2 w3 : World) :
  ordersOnlyConfirmed w1 w2 -> ordersOnlyConfirmed w2 w3 ->
  ordersOnlyConfirmed w1 w3.
Proof.
  unfold ordersOnlyConfirmed, sameOrderIds.
  intros [S1 H1] [S2 H2]. split; [congruence|].
  intros o Ho. destruct (H2 o Ho) as [Hin|Hc]; [|now right].
  now apply H1.
Qed.

Lemma myPayments_frame (env : Env) (w : World) (req : Request PageQuery) :
  snd (myPayments req env w) = w.
Proof. unfold myPayments. now destruct (skipLimit _ _ _). Qed.

(** One request keeps the keys unique, the cores, and the Orders but for
    confirmations. *)
Lemma handle_keeps (env : Env) (c : Call) (w : World) :
  uniqueKeys w ->
  uniqueKeys (handle env c w)
  /\ coreKept w (handle env c w)
  /\ ordersOnlyConfirmed w (handle env c w).
Proof.
  intros Hu.
  pose proof (@coreKept_start w (proj1 Hu)) as Hc.
  pose proof (ordersOnlyConfirmed_refl w) as Ho.
  pose proof (@ordersOnlyConfirmed_quiet w) as Q.
  pose proof (@confirmOrder_ordersOnlyConfirmed env w) as S3.
  assert (S1 : forall doc, hoare env (ordersOnlyConfirmed w)
                 (PaymentModel.save doc)
                 (fun _ w' => ordersOnlyConfirmed w w')).
  { intros doc w1 [H1 H2]. destruct (save_orders doc env w1) as [E1 _].
    unfold ordersOnlyConfirmed, sameOrderIds. rewrite E1.
    split; assumption. }
  assert (S2 : forall doc, hoare env (ordersOnlyConfirmed w)
                 (PaymentModel.save_new doc)
                 (fun _ w' => ordersOnlyConfirmed w w')).
  { intros doc w1 [H1 H2]. destruct (save_new_orders doc env w1) as [E1 _].
    unfold ordersOnlyConfirmed, sameOrderIds. rewrite E1.
    split; assumption. }
  pose proof uniqueKeys_quiet as QU.
  pose proof (save_uniqueKeys env) as U1.
  pose proof (save_new_uniqueKeys env) as U2.
  pose proof (confirmOrder_uniqueKeys env) as U3.
  destruct c; cbn [handle]; (split; [|split]).
  - exact (@stripeCreateIntent_keeps env _ QU U2 req w Hu).
  - exact (@stripeCreateIntent_core env w req w Hc).
  - exact (@stripeCreateIntent_keeps env _ Q S2 req w Ho).
  - exact (@orangeMoneyInitiate_keeps env _ QU U1 U2 req w Hu).
  - exact (@orangeMoneyInitiate_core env w req w Hc).
  - exact (@orangeMoneyInitiate_keeps env _ Q S1 S2 req w Ho).
  - exact (@mtnMoneyInitiate_keeps env _ QU U1 U2 req w Hu).
  - exact (@mtnMoneyInitiate_core env w req w Hc).
  - exact (@mtnMoneyInitiate_keeps env _ Q S1 S2 req w Ho).
  - exact (@getStatus_keeps env _ QU U1 U3 paymentId req w Hu).
  - exact (@getStatus_core env w paymentId req w Hc).
  - exact (@getStatus_keeps env _ Q S1 S3 paymentId req w Ho).
  - exact (@webhookOrangeMoney_keeps env _ QU U1 U3 req w Hu).
  - exact (@webhookOrangeMoney_core env w req w Hc).
  - exact (@webhookOrangeMoney_keeps env _ Q S1 S3 req w Ho).
  - exact (@webhookStripe_keeps env _ QU U1 U3 req w Hu).
  - exact (@webhookStripe_core env w req w Hc).
  - exact (@webhookStripe_keeps env _ Q S1 S3 req w Ho).
  - now rewrite myPayments_frame.
  - now rewrite myPayments_frame.
  - now rewrite myPayments_frame.
Qed.

(** X23.  Every state the routes can reach.  Start from a collection in
    which no two Payments share an [_id] or a reference, and serve any
    sequence of requests to the seven routes, with any bodies and any
    provider answers.  Then the keys are still unique; every Payment that
    was stored at the start is still stored, with the same reference,
    order, user, amount, currency, method and expiry; and the Orders
    collection holds the same [_id]s, each Order either as it was or paid
    and confirmed. *)
Theorem served_requests_keep_the_ledger (env : Env) (calls : list Call) :
  forall w, uniqueKeys w ->
    uniqueKeys (serve env calls w)
    /\ coreKept w (serve env calls w)
    /\ ordersOnlyConfirmed w (serve env calls w).
Proof.
  induction calls as [|c rest IH]; intros w Hu; cbn [serve].
  - split; [exact Hu|]. split.
    + exact (@coreKept_start w (proj1 Hu)).
    + apply ordersOnlyConfirmed_refl.
  - destruct (@handle_keeps env c w Hu) as (U1 & C1 & O1).
    destruct (IH _ U1) as (U2 & C2 & O2).
    split; [exact U2|]. split.
    + exact (coreKept_trans C1 C2).
    + exact (ordersOnlyConfirmed_trans O1 O2).
Qed.

Lemma served_requests_keep_the_ledger_witness :
  let calls :=
    [InitiateOrange (Scenario.initiate "o1");
     HookOrange (Scenario.hook "SUCCESS");
     Status "PAY_900_a1b2c3d4e" (Scenario.request "u1" tt);
     HookOrange (Scenario.hook "FAILED");
     HookStripe (Scenario.stripe_event "payment_intent.succeeded")] in
  uniqueKeys (serve Scenario.env_up calls Cases.two_payments)
  /\ coreKept Cases.two_payments
       (serve Scenario.env_up calls Cases.two_payments)
  /\ ordersOnlyConfirmed Cases.two_payments
       (serve Scenario.env_up calls Cases.two_payments).
Proof.
  intros calls. apply served_requests_keep_the_ledger.
  split; simpl;
    (constructor; [intros [H|[]]; discriminate|]);
    (constructor; [intros []|constructor]).
Defined.

(** ** The statuses the routes assign *)

Lemma changedOnlyTo_refl (allowed : list string) (w : World) :
  changedOnlyTo allowed w w.
Proof. intros p H. now left. Qed.

Lemma changedOnlyTo_writeClosed (allowed : list string) (w0 : World) :
  writeClosed (fun s => isIn s allowed = true) (changedOnlyTo allowed w0).
Proof.
  split; [|split].
  - intros w w' E H p Hp. rewrite E in Hp. now apply H.
  - intros w w' doc Hd E H p Hp. rewrite E in Hp.
    apply in_app_or in Hp. destruct Hp as [Hp|[<-|[]]]; [now apply H|].
    now right.
  - intros w w' doc Hd E H p Hp. rewrite E in Hp.
    apply In_replaceById in Hp. destruct Hp as [->|Hp]; [now right|].
    now apply H.
Qed.

(** X24.  The statuses each route assigns.  After a request, every stored
    Payment that is not exactly as it was before holds: [pending] after
    [create-intent]; [pending] or [processing] after a mobile-money
    initiation; [completed] after the status route; [completed] or [failed]
    after a webhook.  No route ever stores [cancelled] or [refunded], and
    the status route never stores a failure. *)
Theorem routes_assign_these_statuses (env : Env) (w : World) :
  (forall req,
      changedOnlyTo ["pending"] w (snd (stripeCreateIntent req env w)))
  /\ (forall req,
      changedOnlyTo ["pending"; "processing"] w
        (snd (orangeMoneyInitiate req env w)))
  /\ (forall req,
      changedOnlyTo ["pending"; "processing"] w
        (snd (mtnMoneyInitiate req env w)))
  /\ (forall paymentId req,
      changedOnlyTo ["completed"] w (snd (getStatus paymentId req env w)))
  /\ (forall req,
      changedOnlyTo ["completed"; "failed"] w
        (snd (webhookOrangeMoney req env w)))
  /\ (forall req,
      changedOnlyTo ["completed"; "failed"] w
        (snd (webhookStripe req env w))).
Proof.
  split; [|split; [|split; [|split; [|split]]]]; intros.
  - exact (@stripeCreateIntent_preserves env _ _
             (changedOnlyTo_writeClosed ["pending"] w) eq_refl req w
             (changedOnlyTo_refl _ w)).
  - exact (@orangeMoneyInitiate_preserves env _ _
             (changedOnlyTo_writeClosed ["pending"; "processing"] w)
             eq_refl eq_refl req w (changedOnlyTo_refl _ w)).
  - exact (@mtnMoneyInitiate_preserves env _ _
             (changedOnlyTo_writeClosed ["pending"; "processing"] w)
             eq_refl eq_refl req w (changedOnlyTo_refl _ w)).
  - exact (@getStatus_preserves env _ _
             (changedOnlyTo_writeClosed ["completed"] w) eq_refl
             paymentId req w (changedOnlyTo_refl _ w)).
  - exact (@webhookOrangeMoney_preserves env _ _
             (changedOnlyTo_writeClosed ["completed"; "failed"] w) eq_refl
             req (fun _ => eq_refl) w (changedOnlyTo_refl _ w)).
  - exact (@webhookStripe_preserves env _ _
             (changedOnlyTo_writeClosed ["completed"; "failed"] w) eq_refl
             req (fun _ _ _ => eq_refl) w (changedOnlyTo_refl _ w)).
Qed.
